(** * pygame-menu: the Widget contract, Button input handling and Theme validation

    A shallow embedding of
      - [pygame_menu/widgets/core/widget.py]   (class [Widget]),
      - [pygame_menu/widgets/widget/button.py] (class [Button]),
      - [pygame_menu/themes.py]                (class [Theme]),
    and the properties of the specification that concern them.

    Python objects are mutable: a method is a computation over the state of
    [self] that may raise, and the assignments made before a [raise] stay.
    Calls that leave the object (user callbacks, the sound engine, the
    [warnings] module, the owning Menu) are recorded in a trace, in order.
    Collaborators whose code is not part of these three files (pygame, the
    [utils], [locals] and [controls] modules, the subclass overrides of
    [_render] and [get_value]) are the fields of one record, [Externals]. *)

From Stdlib Require Import ZArith QArith String List Bool Lia.
From stdpp Require Import base gmap strings.
Import ListNotations.
Local Open Scope string_scope.
Local Open Scope Z_scope.

Set Warnings "-register-all".

(** ** Python values, exceptions and effects *)

(** The dynamically typed values the three files handle. A [float] is
    taken as the rational it denotes. *)
Inductive PyVal : Type :=
| VNone
| VBool (b : bool)
| VInt (z : Z)
| VFloat (q : Q)
| VStr (s : string)
| VTuple (l : list PyVal)
| VList (l : list PyVal)
| VImage (n : nat)              (* a BaseImage object *)
| VSelection (color : PyVal)    (* a Selection effect object and its color *)
| VWidget (id : string)         (* a reference to a widget *)
| VMenu (id : string)           (* a reference to a Menu *)
| VObject (n : nat).            (* any other object *)

Inductive Exn : Type :=
| AssertionError (msg : string)
| ValueError (msg : string)
| TypeError (msg : string)
| AttributeError (msg : string)
| IndexError (msg : string).

Inductive Outcome (A : Type) : Type :=
| Ret (a : A)
| Raise (e : Exn).
Arguments Ret {A} a.
Arguments Raise {A} e.

Definition Callback : Type := string.

Inductive CbKind : Type := OnReturn | OnChange | OnSelect | OnUpdate.

(** What a method does outside of [self]. *)
Inductive Effect : Type :=
| Warn (msg : string)                                  (* warnings.warn(msg) *)
| Call (k : CbKind) (f : Callback) (args : list PyVal)
       (kwargs : list (string * PyVal))                (* the call f(args..., kwargs...) *)
| Play_open_menu                                       (* self._sound.play_open_menu() *)
| Play_click_mouse                                     (* self._sound.play_click_mouse() *)
| Focus                                                (* self._focus() *)
| Blur                                                 (* self._blur() *)
| Menu_select_widget (menu widget : string)            (* self._menu.select_widget(self) *)
| Menu_update_selection_if_hidden (menu : string).     (* self._menu._update_selection_if_hidden() *)

(** ** Computations over a mutable object *)

Record Run (S A : Type) : Type := mkRun {
  outcome : Outcome A;
  final : S;
  trace : list Effect
}.
Arguments mkRun {S A} _ _ _.
Arguments outcome {S A} _.
Arguments final {S A} _.
Arguments trace {S A} _.

Definition M (S A : Type) : Type := S -> Run S A.

Definition ret {S A} (a : A) : M S A := fun s => mkRun (Ret a) s [].

Definition raise {S A} (e : Exn) : M S A := fun s => mkRun (Raise e) s [].

Definition bind {S A B} (m : M S A) (k : A -> M S B) : M S B :=
  fun s =>
    match m s with
    | mkRun (Ret a) s1 t1 =>
        match k a s1 with
        | mkRun o s2 t2 => mkRun o s2 (t1 ++ t2)%list
        end
    | mkRun (Raise e) s1 t1 => mkRun (Raise e) s1 t1
    end.

Definition get {S} : M S S := fun s => mkRun (Ret s) s [].
Definition modify {S} (f : S -> S) : M S unit := fun s => mkRun (Ret tt) (f s) [].
Definition emit {S} (e : Effect) : M S unit := fun s => mkRun (Ret tt) s [e].

(** [assert c, msg] *)
Definition assert {S} (c : bool) (msg : string) : M S unit :=
  if c then ret tt else raise (AssertionError msg).

Notation "'let*' x ':=' m 'in' k" := (bind m (fun x => k))
  (at level 10, x pattern, m at level 100, k at level 200).
Notation "m ';>' k" := (bind m (fun _ => k))
  (at level 100, k at level 200, right associativity).

(** [for x in l: body x] *)
Fixpoint for_each {S A} (l : list A) (body : A -> M S unit) : M S unit :=
  match l with
  | [] => ret tt
  | x :: l' => body x ;> for_each l' body
  end.

(** A Python list of three or four items of different types is a tuple
    here; [set3_0 a l] is [l[0] = a], and so on. *)
Definition set4_0 {A B C D} (a : A) (l : A * B * C * D) : A * B * C * D :=
  (a, snd (fst (fst l)), snd (fst l), snd l).
Definition set4_1 {A B C D} (b : B) (l : A * B * C * D) : A * B * C * D :=
  (fst (fst (fst l)), b, snd (fst l), snd l).
Definition set4_2 {A B C D} (c : C) (l : A * B * C * D) : A * B * C * D :=
  (fst (fst (fst l)), snd (fst (fst l)), c, snd l).
Definition set3_0 {A B C} (a : A) (l : A * B * C) : A * B * C :=
  (a, snd (fst l), snd l).

(** [int(q)]: truncation toward zero. *)
Definition py_int (q : Q) : Z := Z.quot (Qnum q) (Zpos (Qden q)).

(** [isinstance(v, bool)], [isinstance(v, int)] ([bool] is a subclass of
    [int]), [isinstance(v, (int, float))], and so on. *)
Definition is_bool (v : PyVal) : bool :=
  match v with VBool _ => true | _ => false end.
Definition is_int (v : PyVal) : bool :=
  match v with VBool _ | VInt _ => true | _ => false end.
Definition is_number (v : PyVal) : bool :=
  match v with VBool _ | VInt _ | VFloat _ => true | _ => false end.
Definition is_str (v : PyVal) : bool :=
  match v with VStr _ => true | _ => false end.
Definition is_tuple_or_list (v : PyVal) : bool :=
  match v with VTuple _ | VList _ => true | _ => false end.
Definition is_Selection (v : PyVal) : bool :=
  match v with VSelection _ => true | _ => false end.

(** [if v:], the truth value of [v]. *)
Definition py_truthy (v : PyVal) : bool :=
  match v with
  | VNone => false
  | VBool b => b
  | VInt z => negb (z =? 0)
  | VFloat q => negb (Qeq_bool q 0)
  | VStr s => negb (String.eqb s "")
  | VTuple l | VList l => match l with [] => false | _ => true end
  | _ => true
  end.

(** The number a value is in a comparison, if it is one. *)
Definition py_num (v : PyVal) : option Q :=
  match v with
  | VBool b => Some (if b then 1%Q else 0%Q)
  | VInt z => Some (inject_Z z)
  | VFloat q => Some q
  | _ => None
  end.

(** [a < b] on numbers. *)
Definition Qlt_bool (a b : Q) : bool := negb (Qle_bool b a).

(** ** pygame objects *)

Record Rect : Type := mkRect { rect_x : Z; rect_y : Z; rect_width : Z; rect_height : Z }.

(** [Rect.collidepoint(x, y)]; pygame converts both coordinates to C ints
    before comparing, which [collidepoint_f] makes explicit. *)
Definition collidepoint (r : Rect) (x y : Z) : bool :=
  (rect_x r <=? x) && (x <? rect_x r + rect_width r) &&
  (rect_y r <=? y) && (y <? rect_y r + rect_height r).

Definition collidepoint_f (r : Rect) (x y : Q) : bool :=
  collidepoint r (py_int x) (py_int y).

Record Surface : Type := mkSurface { surface_width : Z; surface_height : Z }.

(** An input event, by [event.type], with the attributes [Button.update] reads. *)
Inductive Event : Type :=
| KEYDOWN (key : Z)
| JOYBUTTONDOWN (button : Z)
| MOUSEBUTTONUP (pos : Z * Z)
| FINGERUP (x y : Q)
| OtherEvent (type : Z).

(** [ColorType]: a tuple (or list) of 3 or 4 ints, as the value it is. *)
Definition Color : Type := PyVal.

(** The part of the owning Menu a widget reads or writes. *)
Record Menu : Type := mkMenu {
  menu_id : string;
  window_size : Z * Z;                      (* get_window_size() *)
  _widgets_surface_need_update : bool
}.

(** ** Code outside the three files *)

(** The functions and constants the three files import from modules that
    are not part of them. A checking function is given by whether it
    passes ([true]) or raises [AssertionError] ([false]). *)
Record Externals : Type := mkExternals {
  py_hash : list PyVal -> Z;                 (* hash(args), args a tuple *)
  cb_return : Callback -> list PyVal -> list (string * PyVal) -> PyVal;
                                             (* what a user callback returns *)
  assert_color : PyVal -> bool;              (* utils.assert_color *)
  assert_position : PyVal -> bool;           (* utils.assert_position *)
  assert_alignment : PyVal -> bool;          (* utils.assert_alignment *)
  get_scrollbars_from_position : PyVal -> Outcome PyVal;
  selection_set_color : PyVal -> PyVal -> Outcome PyVal;
                                             (* Selection.set_color: the object after the call *)
  MENUBAR_STYLES : list Z;                   (* the seven widgets.MENUBAR_STYLE_* *)
  MENUBAR_STYLE_ADAPTIVE : Z;
  FONT_OPEN_SANS : string;                   (* font.FONT_OPEN_SANS *)
  ALIGN_CENTER : string;                     (* locals.ALIGN_CENTER *)
  HighlightSelection : PyVal;                (* widgets.HighlightSelection() *)
  highlight_xy_margin : PyVal;               (* its get_xy_margin() *)
  KEY_APPLY : Z;                             (* controls.KEY_APPLY *)
  JOY_BUTTON_SELECT : Z;                     (* controls.JOY_BUTTON_SELECT *)
  POSITION_NORTHWEST : string;               (* locals.POSITION_* *)
  POSITION_NORTH : string;
  POSITION_NORTHEAST : string;
  POSITION_EAST : string;
  POSITION_SOUTHEAST : string;
  POSITION_SOUTH : string;
  POSITION_SOUTHWEST : string;
  POSITION_WEST : string;
  POSITION_CENTER : string
}.

Module widget.

Record Widget : Type := mkWidget {
  class_name : string;  (* self.__class__.__name__ *)
  _id : string;
  _title : string;
  _args : list PyVal;
  _kwargs : list (string * PyVal);
  _on_change : option Callback;
  _on_return : option Callback;
  _on_select : option Callback;
  _update_callbacks : list (string * Callback);  (* dict in insertion order *)
  _events : list Event;
  _menu : option Menu;
  _col_row_index : Z * Z * Z;
  _rect : Rect;
  _translate : Z * Z;
  _padding : Z * Z * Z * Z;  (* top, right, bottom, left *)
  _padding_transform : Z * Z * Z * Z;
  _scale : bool * Q * Q * bool;  (* do_scale, x, y, smooth *)
  _max_width : option Q * bool * bool;  (* size, height_scale, smooth *)
  _max_height : option Q * bool * bool;  (* size, width_scale, smooth *)
  _shadow : bool;
  _shadow_color : Color;
  _shadow_offset : Z;
  _shadow_position : string;
  _shadow_tuple : Z * Z;
  _selected : bool;
  _selection_time : Q;
  _visible : bool;
  _surface : option Surface;
  _last_render_hash : Z;
  _joystick_enabled : bool;
  _mouse_enabled : bool;
  _touchscreen_enabled : bool;
  active : bool;
  is_selectable : bool;
  lock_position : bool;
  readonly : bool
}.

(** Field assignment [self.f = v]: one function per field, the other
    fields are copied. *)
Definition upd__on_change (v : option Callback) (w : Widget) : Widget :=
  mkWidget (class_name w) (_id w) (_title w) (_args w) (_kwargs w) v
    (_on_return w) (_on_select w) (_update_callbacks w) (_events w)
    (_menu w) (_col_row_index w) (_rect w) (_translate w) (_padding w)
    (_padding_transform w) (_scale w) (_max_width w) (_max_height w)
    (_shadow w) (_shadow_color w) (_shadow_offset w) (_shadow_position w)
    (_shadow_tuple w) (_selected w) (_selection_time w) (_visible w)
    (_surface w) (_last_render_hash w) (_joystick_enabled w)
    (_mouse_enabled w) (_touchscreen_enabled w) (active w) (is_selectable w)
    (lock_position w) (readonly w).
Definition upd__on_return (v : option Callback) (w : Widget) : Widget :=
  mkWidget (class_name w) (_id w) (_title w) (_args w) (_kwargs w)
    (_on_change w) v (_on_select w) (_update_callbacks w) (_events w)
    (_menu w) (_col_row_index w) (_rect w) (_translate w) (_padding w)
    (_padding_transform w) (_scale w) (_max_width w) (_max_height w)
    (_shadow w) (_shadow_color w) (_shadow_offset w) (_shadow_position w)
    (_shadow_tuple w) (_selected w) (_selection_time w) (_visible w)
    (_surface w) (_last_render_hash w) (_joystick_enabled w)
    (_mouse_enabled w) (_touchscreen_enabled w) (active w) (is_selectable w)
    (lock_position w) (readonly w).
Definition upd__on_select (v : option Callback) (w : Widget) : Widget :=
  mkWidget (class_name w) (_id w) (_title w) (_args w) (_kwargs w)
    (_on_change w) (_on_return w) v (_update_callbacks w) (_events w)
    (_menu w) (_col_row_index w) (_rect w) (_translate w) (_padding w)
    (_padding_transform w) (_scale w) (_max_width w) (_max_height w)
    (_shadow w) (_shadow_color w) (_shadow_offset w) (_shadow_position w)
    (_shadow_tuple w) (_selected w) (_selection_time w) (_visible w)
    (_surface w) (_last_render_hash w) (_joystick_enabled w)
    (_mouse_enabled w) (_touchscreen_enabled w) (active w) (is_selectable w)
    (lock_position w) (readonly w).
Definition upd__update_callbacks (v : list (string * Callback)) (w : Widget) : Widget :=
  mkWidget (class_name w) (_id w) (_title w) (_args w) (_kwargs w)
    (_on_change w) (_on_return w) (_on_select w) v (_events w) (_menu w)
    (_col_row_index w) (_rect w) (_translate w) (_padding w)
    (_padding_transform w) (_scale w) (_max_width w) (_max_height w)
    (_shadow w) (_shadow_color w) (_shadow_offset w) (_shadow_position w)
    (_shadow_tuple w) (_selected w) (_selection_time w) (_visible w)
    (_surface w) (_last_render_hash w) (_joystick_enabled w)
    (_mouse_enabled w) (_touchscreen_enabled w) (active w) (is_selectable w)
    (lock_position w) (readonly w).
Definition upd__events (v : list Event) (w : Widget) : Widget :=
  mkWidget (class_name w) (_id w) (_title w) (_args w) (_kwargs w)
    (_on_change w) (_on_return w) (_on_select w) (_update_callbacks w) v
    (_menu w) (_col_row_index w) (_rect w) (_translate w) (_padding w)
    (_padding_transform w) (_scale w) (_max_width w) (_max_height w)
    (_shadow w) (_shadow_color w) (_shadow_offset w) (_shadow_position w)
    (_shadow_tuple w) (_selected w) (_selection_time w) (_visible w)
    (_surface w) (_last_render_hash w) (_joystick_enabled w)
    (_mouse_enabled w) (_touchscreen_enabled w) (active w) (is_selectable w)
    (lock_position w) (readonly w).
Definition upd__menu (v : option Menu) (w : Widget) : Widget :=
  mkWidget (class_name w) (_id w) (_title w) (_args w) (_kwargs w)
    (_on_change w) (_on_return w) (_on_select w) (_update_callbacks w)
    (_events w) v (_col_row_index w) (_rect w) (_translate w) (_padding w)
    (_padding_transform w) (_scale w) (_max_width w) (_max_height w)
    (_shadow w) (_shadow_color w) (_shadow_offset w) (_shadow_position w)
    (_shadow_tuple w) (_selected w) (_selection_time w) (_visible w)
    (_surface w) (_last_render_hash w) (_joystick_enabled w)
    (_mouse_enabled w) (_touchscreen_enabled w) (active w) (is_selectable w)
    (lock_position w) (readonly w).
Definition upd__col_row_index (v : Z * Z * Z) (w : Widget) : Widget :=
  mkWidget (class_name w) (_id w) (_title w) (_args w) (_kwargs w)
    (_on_change w) (_on_return w) (_on_select w) (_update_callbacks w)
    (_events w) (_menu w) v (_rect w) (_translate w) (_padding w)
    (_padding_transform w) (_scale w) (_max_width w) (_max_height w)
    (_shadow w) (_shadow_color w) (_shadow_offset w) (_shadow_position w)
    (_shadow_tuple w) (_selected w) (_selection_time w) (_visible w)
    (_surface w) (_last_render_hash w) (_joystick_enabled w)
    (_mouse_enabled w) (_touchscreen_enabled w) (active w) (is_selectable w)
    (lock_position w) (readonly w).
Definition upd__rect (v : Rect) (w : Widget) : Widget :=
  mkWidget (class_name w) (_id w) (_title w) (_args w) (_kwargs w)
    (_on_change w) (_on_return w) (_on_select w) (_update_callbacks w)
    (_events w) (_menu w) (_col_row_index w) v (_translate w) (_padding w)
    (_padding_transform w) (_scale w) (_max_width w) (_max_height w)
    (_shadow w) (_shadow_color w) (_shadow_offset w) (_shadow_position w)
    (_shadow_tuple w) (_selected w) (_selection_time w) (_visible w)
    (_surface w) (_last_render_hash w) (_joystick_enabled w)
    (_mouse_enabled w) (_touchscreen_enabled w) (active w) (is_selectable w)
    (lock_position w) (readonly w).
Definition upd__translate (v : Z * Z) (w : Widget) : Widget :=
  mkWidget (class_name w) (_id w) (_title w) (_args w) (_kwargs w)
    (_on_change w) (_on_return w) (_on_select w) (_update_callbacks w)
    (_events w) (_menu w) (_col_row_index w) (_rect w) v (_padding w)
    (_padding_transform w) (_scale w) (_max_width w) (_max_height w)
    (_shadow w) (_shadow_color w) (_shadow_offset w) (_shadow_position w)
    (_shadow_tuple w) (_selected w) (_selection_time w) (_visible w)
    (_surface w) (_last_render_hash w) (_joystick_enabled w)
    (_mouse_enabled w) (_touchscreen_enabled w) (active w) (is_selectable w)
    (lock_position w) (readonly w).
Definition upd__padding_transform (v : Z * Z * Z * Z) (w : Widget) : Widget :=
  mkWidget (class_name w) (_id w) (_title w) (_args w) (_kwargs w)
    (_on_change w) (_on_return w) (_on_select w) (_update_callbacks w)
    (_events w) (_menu w) (_col_row_index w) (_rect w) (_translate w)
    (_padding w) v (_scale w) (_max_width w) (_max_height w) (_shadow w)
    (_shadow_color w) (_shadow_offset w) (_shadow_position w)
    (_shadow_tuple w) (_selected w) (_selection_time w) (_visible w)
    (_surface w) (_last_render_hash w) (_joystick_enabled w)
    (_mouse_enabled w) (_touchscreen_enabled w) (active w) (is_selectable w)
    (lock_position w) (readonly w).
Definition upd__scale (v : bool * Q * Q * bool) (w : Widget) : Widget :=
  mkWidget (class_name w) (_id w) (_title w) (_args w) (_kwargs w)
    (_on_change w) (_on_return w) (_on_select w) (_update_callbacks w)
    (_events w) (_menu w) (_col_row_index w) (_rect w) (_translate w)
    (_padding w) (_padding_transform w) v (_max_width w) (_max_height w)
    (_shadow w) (_shadow_color w) (_shadow_offset w) (_shadow_position w)
    (_shadow_tuple w) (_selected w) (_selection_time w) (_visible w)
    (_surface w) (_last_render_hash w) (_joystick_enabled w)
    (_mouse_enabled w) (_touchscreen_enabled w) (active w) (is_selectable w)
    (lock_position w) (readonly w).
Definition upd__max_width (v : option Q * bool * bool) (w : Widget) : Widget :=
  mkWidget (class_name w) (_id w) (_title w) (_args w) (_kwargs w)
    (_on_change w) (_on_return w) (_on_select w) (_update_callbacks w)
    (_events w) (_menu w) (_col_row_index w) (_rect w) (_translate w)
    (_padding w) (_padding_transform w) (_scale w) v (_max_height w)
    (_shadow w) (_shadow_color w) (_shadow_offset w) (_shadow_position w)
    (_shadow_tuple w) (_selected w) (_selection_time w) (_visible w)
    (_surface w) (_last_render_hash w) (_joystick_enabled w)
    (_mouse_enabled w) (_touchscreen_enabled w) (active w) (is_selectable w)
    (lock_position w) (readonly w).
Definition upd__max_height (v : option Q * bool * bool) (w : Widget) : Widget :=
  mkWidget (class_name w) (_id w) (_title w) (_args w) (_kwargs w)
    (_on_change w) (_on_return w) (_on_select w) (_update_callbacks w)
    (_events w) (_menu w) (_col_row_index w) (_rect w) (_translate w)
    (_padding w) (_padding_transform w) (_scale w) (_max_width w) v
    (_shadow w) (_shadow_color w) (_shadow_offset w) (_shadow_position w)
    (_shadow_tuple w) (_selected w) (_selection_time w) (_visible w)
    (_surface w) (_last_render_hash w) (_joystick_enabled w)
    (_mouse_enabled w) (_touchscreen_enabled w) (active w) (is_selectable w)
    (lock_position w) (readonly w).
Definition upd__shadow (v : bool) (w : Widget) : Widget :=
  mkWidget (class_name w) (_id w) (_title w) (_args w) (_kwargs w)
    (_on_change w) (_on_return w) (_on_select w) (_update_callbacks w)
    (_events w) (_menu w) (_col_row_index w) (_rect w) (_translate w)
    (_padding w) (_padding_transform w) (_scale w) (_max_width w)
    (_max_height w) v (_shadow_color w) (_shadow_offset w)
    (_shadow_position w) (_shadow_tuple w) (_selected w) (_selection_time w)
    (_visible w) (_surface w) (_last_render_hash w) (_joystick_enabled w)
    (_mouse_enabled w) (_touchscreen_enabled w) (active w) (is_selectable w)
    (lock_position w) (readonly w).
Definition upd__shadow_color (v : Color) (w : Widget) : Widget :=
  mkWidget (class_name w) (_id w) (_title w) (_args w) (_kwargs w)
    (_on_change w) (_on_return w) (_on_select w) (_update_callbacks w)
    (_events w) (_menu w) (_col_row_index w) (_rect w) (_translate w)
    (_padding w) (_padding_transform w) (_scale w) (_max_width w)
    (_max_height w) (_shadow w) v (_shadow_offset w) (_shadow_position w)
    (_shadow_tuple w) (_selected w) (_selection_time w) (_visible w)
    (_surface w) (_last_render_hash w) (_joystick_enabled w)
    (_mouse_enabled w) (_touchscreen_enabled w) (active w) (is_selectable w)
    (lock_position w) (readonly w).
Definition upd__shadow_offset (v : Z) (w : Widget) : Widget :=
  mkWidget (class_name w) (_id w) (_title w) (_args w) (_kwargs w)
    (_on_change w) (_on_return w) (_on_select w) (_update_callbacks w)
    (_events w) (_menu w) (_col_row_index w) (_rect w) (_translate w)
    (_padding w) (_padding_transform w) (_scale w) (_max_width w)
    (_max_height w) (_shadow w) (_shadow_color w) v (_shadow_position w)
    (_shadow_tuple w) (_selected w) (_selection_time w) (_visible w)
    (_surface w) (_last_render_hash w) (_joystick_enabled w)
    (_mouse_enabled w) (_touchscreen_enabled w) (active w) (is_selectable w)
    (lock_position w) (readonly w).
Definition upd__shadow_position (v : string) (w : Widget) : Widget :=
  mkWidget (class_name w) (_id w) (_title w) (_args w) (_kwargs w)
    (_on_change w) (_on_return w) (_on_select w) (_update_callbacks w)
    (_events w) (_menu w) (_col_row_index w) (_rect w) (_translate w)
    (_padding w) (_padding_transform w) (_scale w) (_max_width w)
    (_max_height w) (_shadow w) (_shadow_color w) (_shadow_offset w) v
    (_shadow_tuple w) (_selected w) (_selection_time w) (_visible w)
    (_surface w) (_last_render_hash w) (_joystick_enabled w)
    (_mouse_enabled w) (_touchscreen_enabled w) (active w) (is_selectable w)
    (lock_position w) (readonly w).
Definition upd__shadow_tuple (v : Z * Z) (w : Widget) : Widget :=
  mkWidget (class_name w) (_id w) (_title w) (_args w) (_kwargs w)
    (_on_change w) (_on_return w) (_on_select w) (_update_callbacks w)
    (_events w) (_menu w) (_col_row_index w) (_rect w) (_translate w)
    (_padding w) (_padding_transform w) (_scale w) (_max_width w)
    (_max_height w) (_shadow w) (_shadow_color w) (_shadow_offset w)
    (_shadow_position w) v (_selected w) (_selection_time w) (_visible w)
    (_surface w) (_last_render_hash w) (_joystick_enabled w)
    (_mouse_enabled w) (_touchscreen_enabled w) (active w) (is_selectable w)
    (lock_position w) (readonly w).
Definition upd__selected (v : bool) (w : Widget) : Widget :=
  mkWidget (class_name w) (_id w) (_title w) (_args w) (_kwargs w)
    (_on_change w) (_on_return w) (_on_select w) (_update_callbacks w)
    (_events w) (_menu w) (_col_row_index w) (_rect w) (_translate w)
    (_padding w) (_padding_transform w) (_scale w) (_max_width w)
    (_max_height w) (_shadow w) (_shadow_color w) (_shadow_offset w)
    (_shadow_position w) (_shadow_tuple w) v (_selection_time w)
    (_visible w) (_surface w) (_last_render_hash w) (_joystick_enabled w)
    (_mouse_enabled w) (_touchscreen_enabled w) (active w) (is_selectable w)
    (lock_position w) (readonly w).
Definition upd__selection_time (v : Q) (w : Widget) : Widget :=
  mkWidget (class_name w) (_id w) (_title w) (_args w) (_kwargs w)
    (_on_change w) (_on_return w) (_on_select w) (_update_callbacks w)
    (_events w) (_menu w) (_col_row_index w) (_rect w) (_translate w)
    (_padding w) (_padding_transform w) (_scale w) (_max_width w)
    (_max_height w) (_shadow w) (_shadow_color w) (_shadow_offset w)
    (_shadow_position w) (_shadow_tuple w) (_selected w) v (_visible w)
    (_surface w) (_last_render_hash w) (_joystick_enabled w)
    (_mouse_enabled w) (_touchscreen_enabled w) (active w) (is_selectable w)
    (lock_position w) (readonly w).
Definition upd__visible (v : bool) (w : Widget) : Widget :=
  mkWidget (class_name w) (_id w) (_title w) (_args w) (_kwargs w)
    (_on_change w) (_on_return w) (_on_select w) (_update_callbacks w)
    (_events w) (_menu w) (_col_row_index w) (_rect w) (_translate w)
    (_padding w) (_padding_transform w) (_scale w) (_max_width w)
    (_max_height w) (_shadow w) (_shadow_color w) (_shadow_offset w)
    (_shadow_position w) (_shadow_tuple w) (_selected w) (_selection_time w)
    v (_surface w) (_last_render_hash w) (_joystick_enabled w)
    (_mouse_enabled w) (_touchscreen_enabled w) (active w) (is_selectable w)
    (lock_position w) (readonly w).
Definition upd__surface (v : option Surface) (w : Widget) : Widget :=
  mkWidget (class_name w) (_id w) (_title w) (_args w) (_kwargs w)
    (_on_change w) (_on_return w) (_on_select w) (_update_callbacks w)
    (_events w) (_menu w) (_col_row_index w) (_rect w) (_translate w)
    (_padding w) (_padding_transform w) (_scale w) (_max_width w)
    (_max_height w) (_shadow w) (_shadow_color w) (_shadow_offset w)
    (_shadow_position w) (_shadow_tuple w) (_selected w) (_selection_time w)
    (_visible w) v (_last_render_hash w) (_joystick_enabled w)
    (_mouse_enabled w) (_touchscreen_enabled w) (active w) (is_selectable w)
    (lock_position w) (readonly w).
Definition upd__last_render_hash (v : Z) (w : Widget) : Widget :=
  mkWidget (class_name w) (_id w) (_title w) (_args w) (_kwargs w)
    (_on_change w) (_on_return w) (_on_select w) (_update_callbacks w)
    (_events w) (_menu w) (_col_row_index w) (_rect w) (_translate w)
    (_padding w) (_padding_transform w) (_scale w) (_max_width w)
    (_max_height w) (_shadow w) (_shadow_color w) (_shadow_offset w)
    (_shadow_position w) (_shadow_tuple w) (_selected w) (_selection_time w)
    (_visible w) (_surface w) v (_joystick_enabled w) (_mouse_enabled w)
    (_touchscreen_enabled w) (active w) (is_selectable w) (lock_position w)
    (readonly w).
Definition upd__joystick_enabled (v : bool) (w : Widget) : Widget :=
  mkWidget (class_name w) (_id w) (_title w) (_args w) (_kwargs w)
    (_on_change w) (_on_return w) (_on_select w) (_update_callbacks w)
    (_events w) (_menu w) (_col_row_index w) (_rect w) (_translate w)
    (_padding w) (_padding_transform w) (_scale w) (_max_width w)
    (_max_height w) (_shadow w) (_shadow_color w) (_shadow_offset w)
    (_shadow_position w) (_shadow_tuple w) (_selected w) (_selection_time w)
    (_visible w) (_surface w) (_last_render_hash w) v (_mouse_enabled w)
    (_touchscreen_enabled w) (active w) (is_selectable w) (lock_position w)
    (readonly w).
Definition upd__mouse_enabled (v : bool) (w : Widget) : Widget :=
  mkWidget (class_name w) (_id w) (_title w) (_args w) (_kwargs w)
    (_on_change w) (_on_return w) (_on_select w) (_update_callbacks w)
    (_events w) (_menu w) (_col_row_index w) (_rect w) (_translate w)
    (_padding w) (_padding_transform w) (_scale w) (_max_width w)
    (_max_height w) (_shadow w) (_shadow_color w) (_shadow_offset w)
    (_shadow_position w) (_shadow_tuple w) (_selected w) (_selection_time w)
    (_visible w) (_surface w) (_last_render_hash w) (_joystick_enabled w) v
    (_touchscreen_enabled w) (active w) (is_selectable w) (lock_position w)
    (readonly w).
Definition upd__touchscreen_enabled (v : bool) (w : Widget) : Widget :=
  mkWidget (class_name w) (_id w) (_title w) (_args w) (_kwargs w)
    (_on_change w) (_on_return w) (_on_select w) (_update_callbacks w)
    (_events w) (_menu w) (_col_row_index w) (_rect w) (_translate w)
    (_padding w) (_padding_transform w) (_scale w) (_max_width w)
    (_max_height w) (_shadow w) (_shadow_color w) (_shadow_offset w)
    (_shadow_position w) (_shadow_tuple w) (_selected w) (_selection_time w)
    (_visible w) (_surface w) (_last_render_hash w) (_joystick_enabled w)
    (_mouse_enabled w) v (active w) (is_selectable w) (lock_position w)
    (readonly w).
Definition upd_active (v : bool) (w : Widget) : Widget :=
  mkWidget (class_name w) (_id w) (_title w) (_args w) (_kwargs w)
    (_on_change w) (_on_return w) (_on_select w) (_update_callbacks w)
    (_events w) (_menu w) (_col_row_index w) (_rect w) (_translate w)
    (_padding w) (_padding_transform w) (_scale w) (_max_width w)
    (_max_height w) (_shadow w) (_shadow_color w) (_shadow_offset w)
    (_shadow_position w) (_shadow_tuple w) (_selected w) (_selection_time w)
    (_visible w) (_surface w) (_last_render_hash w) (_joystick_enabled w)
    (_mouse_enabled w) (_touchscreen_enabled w) v (is_selectable w)
    (lock_position w) (readonly w).
Definition upd_is_selectable (v : bool) (w : Widget) : Widget :=
  mkWidget (class_name w) (_id w) (_title w) (_args w) (_kwargs w)
    (_on_change w) (_on_return w) (_on_select w) (_update_callbacks w)
    (_events w) (_menu w) (_col_row_index w) (_rect w) (_translate w)
    (_padding w) (_padding_transform w) (_scale w) (_max_width w)
    (_max_height w) (_shadow w) (_shadow_color w) (_shadow_offset w)
    (_shadow_position w) (_shadow_tuple w) (_selected w) (_selection_time w)
    (_visible w) (_surface w) (_last_render_hash w) (_joystick_enabled w)
    (_mouse_enabled w) (_touchscreen_enabled w) (active w) v
    (lock_position w) (readonly w).
Definition upd_lock_position (v : bool) (w : Widget) : Widget :=
  mkWidget (class_name w) (_id w) (_title w) (_args w) (_kwargs w)
    (_on_change w) (_on_return w) (_on_select w) (_update_callbacks w)
    (_events w) (_menu w) (_col_row_index w) (_rect w) (_translate w)
    (_padding w) (_padding_transform w) (_scale w) (_max_width w)
    (_max_height w) (_shadow w) (_shadow_color w) (_shadow_offset w)
    (_shadow_position w) (_shadow_tuple w) (_selected w) (_selection_time w)
    (_visible w) (_surface w) (_last_render_hash w) (_joystick_enabled w)
    (_mouse_enabled w) (_touchscreen_enabled w) (active w) (is_selectable w)
    v (readonly w).
Definition upd_readonly (v : bool) (w : Widget) : Widget :=
  mkWidget (class_name w) (_id w) (_title w) (_args w) (_kwargs w)
    (_on_change w) (_on_return w) (_on_select w) (_update_callbacks w)
    (_events w) (_menu w) (_col_row_index w) (_rect w) (_translate w)
    (_padding w) (_padding_transform w) (_scale w) (_max_width w)
    (_max_height w) (_shadow w) (_shadow_color w) (_shadow_offset w)
    (_shadow_position w) (_shadow_tuple w) (_selected w) (_selection_time w)
    (_visible w) (_surface w) (_last_render_hash w) (_joystick_enabled w)
    (_mouse_enabled w) (_touchscreen_enabled w) (active w) (is_selectable w)
    (lock_position w) v.

(** What a subclass supplies. [_render] is abstract in [Widget] ("override
    is mandatory"); [Button._render], the override in these files, assigns
    [_last_render_hash], [_surface], [_padding_transform], the width and
    height of [_rect], and the owning Menu's [_widgets_surface_need_update],
    and nothing else: an override is given by the values it leaves there.
    [get_value] raises in [Widget] unless a subclass overrides it. *)
Record RenderOut : Type := mkRenderOut {
  ro_last_render_hash : Z;
  ro_surface : option Surface;
  ro_padding_transform : Z * Z * Z * Z;
  ro_size : Z * Z;
  ro_menu_need_update : bool      (* force_menu_surface_update() was called *)
}.

Record WidgetClass : Type := mkWidgetClass {
  render_out : Widget -> RenderOut;
  get_value_override : option (Widget -> Outcome PyVal)
}.

(** Widget.__init__; [uuid] is [str(uuid4())], [args] and [kwargs] are
    [args or []] and [kwargs or {}]. *)
Definition __init__ (ext : Externals) (cname uuid : string)
    (title widget_id : string) (onchange onreturn onselect : option Callback)
    (args : list PyVal) (kwargs : list (string * PyVal)) : Widget :=
  {| class_name := cname;
     _id := if (String.length widget_id =? 0)%nat then uuid else widget_id;
     _title := title;
     _args := args;
     _kwargs := kwargs;
     _on_change := onchange;
     _on_return := onreturn;
     _on_select := onselect;
     _update_callbacks := [];
     _events := [];
     _menu := None;
     _col_row_index := (-1, -1, -1);
     _rect := mkRect 0 0 0 0;
     _translate := (0, 0);
     _padding := (0, 0, 0, 0);
     _padding_transform := (0, 0, 0, 0);
     _scale := (false, 1%Q, 1%Q, false);
     _max_width := (None, false, true);
     _max_height := (None, false, true);
     _shadow := false;
     _shadow_color := VTuple [VInt 0; VInt 0; VInt 0];
     _shadow_offset := 2;
     _shadow_position := POSITION_NORTHWEST ext;
     _shadow_tuple := (0, 0);
     _selected := false;
     _selection_time := 0%Q;
     _visible := true;
     _surface := None;
     _last_render_hash := 0;
     _joystick_enabled := true;
     _mouse_enabled := true;
     _touchscreen_enabled := true;
     active := false;
     is_selectable := true;
     lock_position := false;
     readonly := false |}.

Definition is_selected (w : Widget) : bool := _selected w.
Definition is_visible (w : Widget) : bool := _visible w.
Definition get_id (w : Widget) : string := _id w.
Definition get_menu (w : Widget) : option Menu := _menu w.

(** A Menu as an argument of a callback: a reference, or [None]. *)
Definition menu_ref (m : option Menu) : PyVal :=
  match m with Some m => VMenu (menu_id m) | None => VNone end.

(** [_hash_variables( *args)]. [draw] is the number
    [random.randrange(-100000, 100000)] returns when it is called. *)
Definition randrange_100000 (draw : Z) : bool :=
  (-100000 <=? draw) && (draw <? 100000).

Definition _hash_variables (ext : Externals) (draw : Z) (args : list PyVal) : Z :=
  let h := py_hash ext args in
  if h =? 0 then draw else h.

Definition _render_hash_changed (ext : Externals) (draw : Z) (args : list PyVal)
  : M Widget bool :=
  let _hash := _hash_variables ext draw args in
  let* w := get in
  if negb (_hash =? _last_render_hash w) || (_last_render_hash w =? 0) then
    modify (upd__last_render_hash _hash) ;>
    ret true
  else ret false.

Section Methods.

Context (ext : Externals) (cls : WidgetClass).

Definition force_menu_surface_update : M Widget unit :=
  modify (fun w =>
    match _menu w with
    | Some m => upd__menu (Some (mkMenu (menu_id m) (window_size m) true)) w
    | None => w
    end).

(** The subclass's [_render]: the fields it assigns. *)
Definition _render : M Widget unit :=
  let* w := get in
  let o := render_out cls w in
  modify (upd__last_render_hash (ro_last_render_hash o)) ;>
  modify (upd__surface (ro_surface o)) ;>
  modify (upd__padding_transform (ro_padding_transform o)) ;>
  modify (fun w => upd__rect (mkRect (rect_x (_rect w)) (rect_y (_rect w))
                                     (fst (ro_size o)) (snd (ro_size o))) w) ;>
  if ro_menu_need_update o then force_menu_surface_update else ret tt.

Definition _force_render : M Widget unit :=
  modify (upd__last_render_hash 0) ;>
  _render.

Definition render : M Widget unit := _force_render.

(** [get_value]: the override if the class has one, else the [ValueError]
    of [Widget]. *)
Definition get_value : M Widget PyVal :=
  let* w := get in
  match get_value_override cls with
  | Some g =>
      match g w with
      | Ret v => ret v
      | Raise e => raise e
      end
  | None =>
      raise (ValueError (class_name w ++ "(" ++ get_id w ++ ") does not accept value"))
  end.

(** [args.insert(0, self.get_value())] under [try ... except ValueError: pass] *)
Definition insert_value (args : list PyVal) : M Widget (list PyVal) :=
  fun w =>
    match get_value w with
    | mkRun (Ret v) w1 t1 => mkRun (Ret (v :: args)) w1 t1
    | mkRun (Raise (ValueError _)) w1 t1 => mkRun (Ret args) w1 t1
    | mkRun (Raise e) w1 t1 => mkRun (Raise e) w1 t1
    end.

Definition apply (args : list PyVal) : M Widget PyVal :=
  let* w := get in
  if readonly w then ret VNone
  else
    match _on_return w with
    | Some f =>
        let args := (args ++ _args w)%list in
        let* args := insert_value args in
        emit (Call OnReturn f args (_kwargs w)) ;>
        ret (cb_return ext f args (_kwargs w))
    | None => ret VNone
    end.

Definition change (args : list PyVal) : M Widget PyVal :=
  let* w := get in
  if readonly w then ret VNone
  else
    match _on_change w with
    | Some f =>
        let args := (args ++ _args w)%list in
        let* args := insert_value args in
        emit (Call OnChange f args (_kwargs w)) ;>
        ret (cb_return ext f args (_kwargs w))
    | None => ret VNone
    end.

Definition get_padding (transformed : bool) (w : Widget) : Z * Z * Z * Z :=
  if transformed then _padding_transform w else _padding w.

Definition b2z (b : bool) : Z := if b then 1 else 0.

Definition get_rect (inflate : option (Z * Z)) (apply_padding : bool)
    (use_transformed_padding : bool) : M Widget Rect :=
  _render ;>
  let inflate := match inflate with Some i => i | None => (0, 0) end in
  let* w := get in
  let '(p0, p1, p2, p3) := get_padding use_transformed_padding w in
  let pad_top := (inject_Z (p0 * b2z apply_padding) + inject_Z (snd inflate) / 2)%Q in
  let pad_right := (inject_Z (p1 * b2z apply_padding) + inject_Z (fst inflate) / 2)%Q in
  let pad_bottom := (inject_Z (p2 * b2z apply_padding) + inject_Z (snd inflate) / 2)%Q in
  let pad_left := (inject_Z (p3 * b2z apply_padding) + inject_Z (fst inflate) / 2)%Q in
  ret (mkRect (py_int (inject_Z (rect_x (_rect w)) - pad_left))
              (py_int (inject_Z (rect_y (_rect w)) - pad_top))
              (py_int (inject_Z (rect_width (_rect w)) + pad_left + pad_right))
              (py_int (inject_Z (rect_height (_rect w)) + pad_bottom + pad_top))).

Definition set_shadow (enabled : bool) (color : option PyVal)
    (position : option string) (offset : Q) : M Widget unit :=
  modify (upd__shadow enabled) ;>
  (match color with
   | Some c =>
       assert (assert_color ext c) "" ;>
       modify (upd__shadow_color c)
   | None => ret tt
   end) ;>
  (match position with
   | Some p =>
       assert (assert_position ext (VStr p)) "" ;>
       modify (upd__shadow_position p)
   | None => ret tt
   end) ;>
  assert (Qlt_bool 0 offset) "shadow offset must be greater than zero" ;>
  modify (upd__shadow_offset (py_int offset)) ;>
  let* w := get in
  let pos := _shadow_position w in
  let '(x, y) :=
    if String.eqb pos (POSITION_NORTHWEST ext) then (-1, -1)
    else if String.eqb pos (POSITION_NORTH ext) then (0, -1)
    else if String.eqb pos (POSITION_NORTHEAST ext) then (1, -1)
    else if String.eqb pos (POSITION_EAST ext) then (1, 0)
    else if String.eqb pos (POSITION_SOUTHEAST ext) then (1, 1)
    else if String.eqb pos (POSITION_SOUTH ext) then (0, 1)
    else if String.eqb pos (POSITION_SOUTHWEST ext) then (-1, 1)
    else if String.eqb pos (POSITION_WEST ext) then (-1, 0)
    else (0, 0) in
  modify (upd__shadow_tuple (x * _shadow_offset w, y * _shadow_offset w)) ;>
  _force_render.

Definition set_menu (menu : option Menu) : M Widget unit :=
  modify (upd__menu menu) ;>
  match menu with
  | None => modify (upd__col_row_index (-1, -1, -1))
  | Some _ => ret tt
  end.

Definition set_position (posx posy : Q) : M Widget unit :=
  let* w := get in
  if lock_position w then ret tt
  else
    modify (fun w => upd__rect (mkRect (py_int posx + fst (_translate w))
                                       (rect_y (_rect w)) (rect_width (_rect w))
                                       (rect_height (_rect w))) w) ;>
    modify (fun w => upd__rect (mkRect (rect_x (_rect w))
                                       (py_int posy + snd (_translate w))
                                       (rect_width (_rect w))
                                       (rect_height (_rect w))) w).

Definition get_position (w : Widget) : Z * Z := (rect_x (_rect w), rect_y (_rect w)).

Definition translate (x y : Q) : M Widget unit :=
  modify (upd__translate (py_int x, py_int y)) ;>
  _force_render.


Definition _disable_scale : M Widget unit :=
  modify (fun w => upd__scale (set4_0 false (_scale w)) w) ;>
  modify (fun w => upd__scale (set4_1 1%Q (_scale w)) w) ;>
  modify (fun w => upd__scale (set4_2 1%Q (_scale w)) w) ;>
  modify (fun w => upd__max_width (set3_0 None (_max_width w)) w) ;>
  modify (fun w => upd__max_height (set3_0 None (_max_height w)) w) ;>
  render.

(** [set_max_width]; [width = None] disables the limit. *)
Definition set_max_width (width : option Q) (scale_height smooth : bool)
  : M Widget unit :=
  _disable_scale ;>
  match width with
  | None =>
      modify (fun w => upd__max_width (set3_0 None (_max_width w)) w) ;>
      _force_render
  | Some width =>
      assert (Qle_bool 0 width) "width must be equal or greater than zero" ;>
      modify (upd__max_width (Some width, scale_height, smooth)) ;>
      let* w := get in
      if fst (fst (fst (_scale w))) then
        emit (Warn "widget already has a scaling factor applied. Scaling has beendisabled")
      else
        let* w := get in
        match fst (fst (_max_height w)) with
        | Some _ =>
            emit (Warn "widget already has a max_height. Widget max height has been disabled")
        | None => _force_render
        end
  end.

Definition set_max_height (height : option Q) (scale_width smooth : bool)
  : M Widget unit :=
  _disable_scale ;>
  match height with
  | None =>
      modify (fun w => upd__max_height (set3_0 None (_max_height w)) w) ;>
      _force_render
  | Some height =>
      assert (Qlt_bool 0 height) "height must be greater than zero" ;>
      modify (upd__max_height (Some height, scale_width, smooth)) ;>
      let* w := get in
      if fst (fst (fst (_scale w))) then
        emit (Warn "widget already has a scaling factor applied. Scaling has beendisabled")
      else
        let* w := get in
        match fst (fst (_max_width w)) with
        | Some _ =>
            emit (Warn "widget already has a max_width. Widget max width has been disabled")
        | None => _force_render
        end
  end.

Definition scale (width height : Q) (smooth : bool) : M Widget unit :=
  assert (Qlt_bool 0 width && Qlt_bool 0 height)
         "width and height must be greater than zero" ;>
  _disable_scale ;>
  let* w := get in
  match fst (fst (_max_width w)) with
  | Some _ =>
      emit (Warn "widget max width is not None. Set widget.set_max_width(None) for disabling such feature. This scaling will be ignored")
  | None =>
      match fst (fst (_max_height w)) with
      | Some _ =>
          emit (Warn "widget max height is not None. Set widget.set_max_height(None) for disabling such feature. This scaling will be ignored")
      | None =>
          modify (upd__scale (true, width, height, smooth)) ;>
          (if Qeq_bool width 1 && Qeq_bool height 1 then
             modify (fun w => upd__scale (set4_0 false (_scale w)) w)
           else ret tt) ;>
          _force_render
      end
  end.

Definition _focus : M Widget unit := emit Focus.
Definition _blur : M Widget unit := emit Blur.

(** [select(status, update_menu)]; [now] is what [time.time()] returns. *)
Definition select (now : Q) (status update_menu : bool) : M Widget unit :=
  let* w := get in
  if negb (is_selectable w) then ret tt
  else
    modify (upd__selected status) ;>
    modify (upd_active false) ;>
    let* w := get in
    (if _selected w then
       _focus ;>
       modify (upd__selection_time now)
     else
       _blur ;>
       modify (upd__events [])) ;>
    _force_render ;>
    let* w := get in
    (match _on_select w with
     | Some f =>
         emit (Call OnSelect f [VBool (_selected w); VWidget (_id w); menu_ref (get_menu w)] [])
     | None => ret tt
     end) ;>
    if update_menu then
      let* w := get in
      match _menu w with
      | Some m => emit (Menu_select_widget (menu_id m) (_id w))
      | None => raise (AssertionError "")
      end
    else ret tt.

(** [get_selected_time()]; [now] is what [time.time()] returns. *)
Definition get_selected_time (now : Q) (w : Widget) : Q :=
  if negb (_selected w) then 0%Q
  else ((now - _selection_time w) * 1000)%Q.

Definition set_controls (joystick mouse touchscreen : bool) : M Widget unit :=
  modify (upd__joystick_enabled joystick) ;>
  modify (upd__mouse_enabled mouse) ;>
  modify (upd__touchscreen_enabled touchscreen).

(** [add_update_callback]; [callback_id] is [str(uuid4())]. *)
Definition add_update_callback (callback_id : string) (update_callback : Callback)
  : M Widget string :=
  modify (fun w =>
    upd__update_callbacks
      (if existsb (fun kv => String.eqb (fst kv) callback_id) (_update_callbacks w)
       then map (fun kv => if String.eqb (fst kv) callback_id
                           then (callback_id, update_callback) else kv)
                (_update_callbacks w)
       else (_update_callbacks w ++ [(callback_id, update_callback)])%list) w) ;>
  ret callback_id.

Definition apply_update_callbacks : M Widget unit :=
  let* w := get in
  if (length (_update_callbacks w) =? 0)%nat || readonly w then ret tt
  else
    for_each (map snd (_update_callbacks w)) (fun callback =>
      let* w := get in
      emit (Call OnUpdate callback [VWidget (_id w); menu_ref (_menu w)] [])).

Definition _add_event (event : Event) : M Widget unit :=
  modify (fun w => upd__events (_events w ++ [event])%list w).

Definition show : M Widget unit :=
  modify (upd__visible true) ;>
  _render ;>
  let* w := get in
  match _menu w with
  | Some m => emit (Menu_update_selection_if_hidden (menu_id m))
  | None => ret tt
  end.

Definition hide : M Widget unit :=
  modify (upd__visible false) ;>
  _render ;>
  let* w := get in
  match _menu w with
  | Some m => emit (Menu_update_selection_if_hidden (menu_id m))
  | None => ret tt
  end.

Definition set_col_row_index (col row index : Z) : M Widget unit :=
  assert (-1 <=? col) "" ;>
  assert (-1 <=? row) "" ;>
  assert (-1 <=? index) "" ;>
  modify (upd__col_row_index (col, row, index)).

Definition get_col_row_index (w : Widget) : Z * Z * Z := _col_row_index w.

End Methods.

(** ** Padding, update callbacks, pending events and attributes *)

Definition upd__padding (v : Z * Z * Z * Z) (w : Widget) : Widget :=
  mkWidget (class_name w) (_id w) (_title w) (_args w) (_kwargs w)
    (_on_change w) (_on_return w) (_on_select w) (_update_callbacks w)
    (_events w) (_menu w) (_col_row_index w) (_rect w) (_translate w) v
    (_padding_transform w) (_scale w) (_max_width w) (_max_height w)
    (_shadow w) (_shadow_color w) (_shadow_offset w) (_shadow_position w)
    (_shadow_tuple w) (_selected w) (_selection_time w) (_visible w)
    (_surface w) (_last_render_hash w) (_joystick_enabled w)
    (_mouse_enabled w) (_touchscreen_enabled w) (active w) (is_selectable w)
    (lock_position w) (readonly w).

(** The argument of [set_padding]: a number, or a tuple or list of
    numbers. The numbers are ints, as [_padding] is declared
    ([Tuple4IntType]). *)
Inductive Padding : Type :=
| PadNumber (p : Z)
| PadVector (l : list Z).

(** The double quote of the messages. *)
Definition dquote : string :=
  String (Ascii.Ascii false true false false false true false false) "".

Section Padding_and_callbacks.

Context (cls : WidgetClass).

Definition set_padding (padding : Padding) : M Widget unit :=
  (match padding with
   | PadNumber p =>
       assert (0 <=? p) "padding cannot be a negative number" ;>
       modify (upd__padding (p, p, p, p))
   | PadVector l =>
       assert ((1 <=? length l)%nat && (length l <=? 4)%nat)
              "padding must be a tuple of 2, 3 or 4 elements" ;>
       for_each l (fun p =>
         assert (0 <=? p) "all padding elements must be equal or greater than zero") ;>
       match l with
       | [] => raise (IndexError "tuple index out of range")
       | [p0] => modify (upd__padding (p0, p0, p0, p0))
       | [p0; p1] => modify (upd__padding (p0, p1, p0, p1))
       | [p0; p1; p2] => modify (upd__padding (p0, p1, p2, p1))
       | p0 :: p1 :: p2 :: p3 :: _ => modify (upd__padding (p0, p1, p2, p3))
       end
   end) ;>
  modify (fun w => upd__padding_transform (_padding w) w) ;>
  _force_render cls.

(** [callback_id in self._update_callbacks.keys()] *)
Definition has_update_callback (callback_id : string) (w : Widget) : bool :=
  existsb (fun kv => String.eqb (fst kv) callback_id) (_update_callbacks w).

Definition remove_update_callback (callback_id : string) : M Widget unit :=
  let* w := get in
  if negb (has_update_callback callback_id w) then
    raise (IndexError ("callback ID " ++ dquote ++ callback_id ++ dquote
                       ++ " does not exist"))
  else
    modify (fun w =>
      upd__update_callbacks
        (List.filter (fun kv => negb (String.eqb (fst kv) callback_id))
                     (_update_callbacks w)) w).

Definition _merge_events (events : list Event) : M Widget (list Event) :=
  let* w := get in
  if (length (_events w) =? 0)%nat then ret events
  else
    let copy_events := (events ++ _events w)%list in
    modify (upd__events []) ;>
    ret copy_events.

End Padding_and_callbacks.

(** The attribute methods read and write the dict [self._attributes] and
    nothing else of the widget: they are computations on that dict. *)
Abbreviation Attributes := (gmap string PyVal).

Definition set_attribute (key : string) (value : PyVal) : M Attributes unit :=
  modify (fun a : Attributes => <[key := value]> a).

Definition has_attribute (key : string) : M Attributes bool :=
  let* a := get in
  ret (match a !! key with Some _ => true | None => false end).

Definition get_attribute (key : string) (default : PyVal) : M Attributes PyVal :=
  let* b := has_attribute key in
  if negb b then ret default
  else
    let* a := get in
    match a !! key with
    | Some v => ret v
    | None => raise (IndexError key)     (* not reached: the key is there *)
    end.

Definition remove_attribute (key : string) : M Attributes unit :=
  let* b := has_attribute key in
  if negb b then
    raise (IndexError ("attribute " ++ dquote ++ key ++ dquote
                       ++ " does not exists on widget"))
  else
    modify (fun a : Attributes => delete key a).

(** ** Frames *)

(** [w'] agrees with [w] on every field other than [_rect]. *)
Definition same_but_rect (w w' : Widget) : Prop :=
  class_name w' = class_name w /\
  _id w' = _id w /\
  _title w' = _title w /\
  _args w' = _args w /\
  _kwargs w' = _kwargs w /\
  _on_change w' = _on_change w /\
  _on_return w' = _on_return w /\
  _on_select w' = _on_select w /\
  _update_callbacks w' = _update_callbacks w /\
  _events w' = _events w /\
  _menu w' = _menu w /\
  _col_row_index w' = _col_row_index w /\
  _translate w' = _translate w /\
  _padding w' = _padding w /\
  _padding_transform w' = _padding_transform w /\
  _scale w' = _scale w /\
  _max_width w' = _max_width w /\
  _max_height w' = _max_height w /\
  _shadow w' = _shadow w /\
  _shadow_color w' = _shadow_color w /\
  _shadow_offset w' = _shadow_offset w /\
  _shadow_position w' = _shadow_position w /\
  _shadow_tuple w' = _shadow_tuple w /\
  _selected w' = _selected w /\
  _selection_time w' = _selection_time w /\
  _visible w' = _visible w /\
  _surface w' = _surface w /\
  _last_render_hash w' = _last_render_hash w /\
  _joystick_enabled w' = _joystick_enabled w /\
  _mouse_enabled w' = _mouse_enabled w /\
  _touchscreen_enabled w' = _touchscreen_enabled w /\
  active w' = active w /\
  is_selectable w' = is_selectable w /\
  lock_position w' = lock_position w /\
  readonly w' = readonly w.

(** [w'] agrees with [w] on every field other than the five shadow fields. *)
Definition same_but_shadow (w w' : Widget) : Prop :=
  class_name w' = class_name w /\
  _id w' = _id w /\
  _title w' = _title w /\
  _args w' = _args w /\
  _kwargs w' = _kwargs w /\
  _on_change w' = _on_change w /\
  _on_return w' = _on_return w /\
  _on_select w' = _on_select w /\
  _update_callbacks w' = _update_callbacks w /\
  _events w' = _events w /\
  _menu w' = _menu w /\
  _col_row_index w' = _col_row_index w /\
  _rect w' = _rect w /\
  _translate w' = _translate w /\
  _padding w' = _padding w /\
  _padding_transform w' = _padding_transform w /\
  _scale w' = _scale w /\
  _max_width w' = _max_width w /\
  _max_height w' = _max_height w /\
  _selected w' = _selected w /\
  _selection_time w' = _selection_time w /\
  _visible w' = _visible w /\
  _surface w' = _surface w /\
  _last_render_hash w' = _last_render_hash w /\
  _joystick_enabled w' = _joystick_enabled w /\
  _mouse_enabled w' = _mouse_enabled w /\
  _touchscreen_enabled w' = _touchscreen_enabled w /\
  active w' = active w /\
  is_selectable w' = is_selectable w /\
  lock_position w' = lock_position w /\
  readonly w' = readonly w.

End widget.

Module button.

Import widget.

(** [Button] overrides [_render] and [update]; it has no [get_value]. *)
Definition Button_class (button_render : Widget -> RenderOut) : WidgetClass :=
  mkWidgetClass button_render None.

(** Button.__init__ *)
Definition __init__ (ext : Externals) (uuid : string) (title button_id : string)
    (onreturn : option Callback) (args : list PyVal)
    (kwargs : list (string * PyVal)) : Widget :=
  widget.__init__ ext "Button" uuid title button_id None onreturn None args kwargs.

Definition set_selection_callback (callback : option Callback) : M Widget unit :=
  modify (upd__on_select callback).

Section Methods.

Context (ext : Externals) (button_render : Widget -> RenderOut).

Local Abbreviation cls := (Button_class button_render).

(** The body of [for event in events], with [updated] as it stands. *)
Definition update_event (rect : Rect) (event : Event) (updated : bool)
  : M Widget bool :=
  let* w := get in
  if match event with KEYDOWN key => key =? KEY_APPLY ext | _ => false end
     || _joystick_enabled w
        && match event with
           | JOYBUTTONDOWN button => button =? JOY_BUTTON_SELECT ext
           | _ => false
           end
  then
    emit Play_open_menu ;>
    apply ext cls [] ;>
    ret true
  else
    match event with
    | MOUSEBUTTONUP pos =>
        if _mouse_enabled w then
          emit Play_click_mouse ;>
          if collidepoint rect (fst pos) (snd pos) then
            apply ext cls [] ;>
            ret true
          else ret updated
        else ret updated
    | FINGERUP x y =>
        if _touchscreen_enabled w then
          emit Play_click_mouse ;>
          let* w := get in
          match get_menu w with
          | None => raise (AttributeError "'NoneType' object has no attribute 'get_window_size'")
          | Some menu =>
              let window_size := window_size menu in
              let finger_pos := ((x * inject_Z (fst window_size))%Q,
                                 (y * inject_Z (snd window_size))%Q) in
              if collidepoint_f rect (fst finger_pos) (snd finger_pos) then
                apply ext cls [] ;>
                ret true
              else ret updated
          end
        else ret updated
    | _ => ret updated
    end.

Fixpoint update_events (rect : Rect) (events : list Event) (updated : bool)
  : M Widget bool :=
  match events with
  | [] => ret updated
  | event :: events' =>
      let* updated := update_event rect event updated in
      update_events rect events' updated
  end.

Definition update (events : list Event) : M Widget bool :=
  let* w := get in
  if readonly w then ret false
  else
    let updated := false in
    let* rect := get_rect cls None true true in
    let* updated := update_events rect events updated in
    (if updated then apply_update_callbacks else ret tt) ;>
    ret updated.

End Methods.

End button.

Module themes.

(** A [Theme] object is its attributes: the class adds and checks them by
    name, and the checks are on the type the value has at run time. *)
Abbreviation Theme := (gmap string PyVal).

Definition attr (k : string) : M Theme PyVal :=
  fun t =>
    match t !! k with
    | Some v => mkRun (Ret v) t []
    | None => mkRun (Raise (AttributeError k)) t []
    end.

Definition setattr (k : string) (v : PyVal) : M Theme unit :=
  modify (fun t : Theme => <[k := v]> t).

(** [e(v)] for a pure expression that may raise. *)
Definition lift {S A} (o : Outcome A) : M S A :=
  match o with
  | Ret a => ret a
  | Raise e => raise e
  end.

(** [v >= 0], [v > 0]: a [TypeError] when [v] is not a number. *)
Definition py_ge0 (v : PyVal) : Outcome bool :=
  match py_num v with
  | Some q => Ret (Qle_bool 0 q)
  | None => Raise (TypeError "'>=' not supported")
  end.

Definition py_gt0 (v : PyVal) : Outcome bool :=
  match py_num v with
  | Some q => Ret (Qlt_bool 0 q)
  | None => Raise (TypeError "'>' not supported")
  end.

(** [v != 0] *)
Definition py_ne0 (v : PyVal) : bool :=
  match py_num v with
  | Some q => negb (Qeq_bool q 0)
  | None => true
  end.

(** [v[i]] *)
Definition py_index (v : PyVal) (i : nat) : Outcome PyVal :=
  match v with
  | VTuple l | VList l =>
      match nth_error l i with
      | Some x => Ret x
      | None => Raise (IndexError "index out of range")
      end
  | _ => Raise (TypeError "object is not subscriptable")
  end.

Section Methods.

Context (ext : Externals).

(** [_check_menubar_style(style)]: [style in (...)] over the seven styles. *)
Definition _check_menubar_style (style : PyVal) : bool :=
  match py_num style with
  | Some q => existsb (fun s => Qeq_bool q (inject_Z s)) (MENUBAR_STYLES ext)
  | None => false
  end.

Definition _vec_to_tuple (obj : PyVal) (check_length : nat) : Outcome PyVal :=
  match obj with
  | VTuple v | VList v =>
      if (0 <? check_length)%nat && negb (length v =? check_length)%nat
      then Raise (ValueError "object is not a vector of the given length")
      else Ret (VTuple v)
  | _ => Raise (ValueError "object is not a vector")
  end.

Definition _format_opacity (color : PyVal) : Outcome PyVal :=
  match color with
  | VImage _ => Ret color
  | VNone => Ret color
  | VTuple l | VList l =>
      if assert_color ext color then
        if (length l =? 4)%nat then Ret (VTuple l)
        else if (length l =? 3)%nat then
          match l with
          | c0 :: c1 :: c2 :: _ => Ret (VTuple [c0; c1; c2; VInt 255])
          | _ => Ret color
          end
        else Ret color
      else Raise (AssertionError "")
  | _ => Raise (ValueError "invalid color type, only tuple or list are valid")
  end.

(** [assert isinstance(self.k, T)] and [utils.assert_x(self.k)] *)
Definition assert_attr (check : PyVal -> bool) (k : string) : M Theme unit :=
  let* v := attr k in
  assert (check v) "".

(** [self.k = self._format_opacity(self.k)] *)
Definition format_attr (k : string) : M Theme unit :=
  let* v := attr k in
  let* c := lift (_format_opacity v) in
  setattr k c.

(** [self.k = self._vec_to_tuple(self.k, n)] *)
Definition tuple_attr (k : string) (n : nat) : M Theme unit :=
  let* v := attr k in
  let* c := lift (_vec_to_tuple v n) in
  setattr k c.

(** [assert self.k[0] >= 0 and self.k[1] >= 0, msg] *)
Definition assert_xy_ge0 (k : string) (msg : string) : M Theme unit :=
  let* v := attr k in
  let* a := lift (py_index v 0) in
  let* c := lift (py_ge0 a) in
  if c then
    let* v := attr k in
    let* b := lift (py_index v 1) in
    let* c := lift (py_ge0 b) in
    assert c msg
  else assert false msg.

(** [assert self.k > 0, msg] and [assert self.k >= 0, msg] *)
Definition assert_gt0 (k : string) (msg : string) : M Theme unit :=
  let* v := attr k in
  let* c := lift (py_gt0 v) in
  assert c msg.

Definition assert_ge0 (k : string) (msg : string) : M Theme unit :=
  let* v := attr k in
  let* c := lift (py_ge0 v) in
  assert c msg.

Definition validate : M Theme unit :=
  let* dv := attr "_disable_validation" in
  if py_truthy dv then ret tt
  else
    (* Boolean asserts *)
    assert_attr is_bool "title_close_button" ;>
    assert_attr is_bool "title_bar_modify_scrollarea" ;>
    assert_attr is_bool "title_font_antialias" ;>
    assert_attr is_bool "title_shadow" ;>
    assert_attr is_bool "scrollbar_shadow" ;>
    assert_attr is_bool "widget_font_antialias" ;>
    assert_attr is_bool "widget_font_background_color_from_menu" ;>
    assert_attr is_bool "widget_shadow" ;>
    (* Value type checks *)
    assert_attr (assert_alignment ext) "widget_alignment" ;>
    assert_attr (assert_position ext) "scrollbar_shadow_position" ;>
    assert_attr (assert_position ext) "title_shadow_position" ;>
    assert_attr (assert_position ext) "widget_shadow_position" ;>
    assert_attr _check_menubar_style "title_bar_style" ;>
    (let* v := attr "scrollarea_position" in
     let* s := lift (get_scrollbars_from_position ext v) in
     assert (match s with VNone => false | _ => true end) "") ;>
    assert_attr is_number "cursor_switch_ms" ;>
    assert_attr is_number "fps" ;>
    assert_attr is_number "scrollbar_shadow_offset" ;>
    assert_attr is_number "scrollbar_slider_pad" ;>
    assert_attr is_number "scrollbar_thick" ;>
    assert_attr is_bool "title_floating" ;>
    assert_attr is_str "title_font" ;>
    assert_attr is_int "title_font_size" ;>
    assert_attr is_number "title_shadow_offset" ;>
    assert_attr is_bool "title_updates_pygame_display" ;>
    assert_attr is_int "widget_border_width" ;>
    assert_attr is_str "widget_font" ;>
    assert_attr is_int "widget_font_size" ;>
    assert_attr (fun v => is_number v || is_tuple_or_list v) "widget_padding" ;>
    assert_attr is_Selection "widget_selection_effect" ;>
    assert_attr is_number "widget_shadow_offset" ;>
    (* Format colors *)
    format_attr "background_color" ;>
    format_attr "cursor_color" ;>
    format_attr "cursor_selection_color" ;>
    format_attr "focus_background_color" ;>
    format_attr "readonly_color" ;>
    format_attr "readonly_selected_color" ;>
    format_attr "scrollbar_color" ;>
    format_attr "scrollbar_shadow_color" ;>
    format_attr "scrollbar_slider_color" ;>
    format_attr "selection_color" ;>
    format_attr "surface_clear_color" ;>
    format_attr "title_background_color" ;>
    format_attr "widget_border_color" ;>
    format_attr "title_font_color" ;>
    format_attr "title_shadow_color" ;>
    format_attr "widget_background_color" ;>
    format_attr "widget_font_background_color" ;>
    format_attr "widget_font_color" ;>
    (* List to tuple *)
    tuple_attr "scrollarea_outer_margin" 2 ;>
    tuple_attr "title_offset" 2 ;>
    tuple_attr "widget_background_inflate" 2 ;>
    tuple_attr "widget_border_inflate" 2 ;>
    tuple_attr "widget_margin" 2 ;>
    (let* p := attr "widget_padding" in
     if is_tuple_or_list p then
       tuple_attr "widget_padding" 0 ;>
       let* p := attr "widget_padding" in
       let l := match p with VTuple l => l | _ => [] end in
       assert ((2 <=? length l)%nat && (length l <=? 4)%nat)
              "widget padding tuple length must be 2, 3 or 4" ;>
       for_each l (fun p =>
         let* c := lift (py_ge0 p) in
         assert c "all padding elements must be equal or greater than zero")
     else
       assert_ge0 "widget_padding" "padding cannot be a negative number") ;>
    tuple_attr "widget_offset" 2 ;>
    (* Check sizes *)
    assert_xy_ge0 "scrollarea_outer_margin"
      "scroll area outer margin must be equal or greater than zero in both axis" ;>
    assert_xy_ge0 "widget_offset"
      "widget offset must be equal or greater than zero" ;>
    assert_xy_ge0 "widget_border_inflate"
      "widget border inflate must be equal or greater than zero in both axis" ;>
    assert_gt0 "cursor_switch_ms" "cursor switch ms must be greater than zero" ;>
    assert_ge0 "fps" "fps must be equal or greater than zero" ;>
    assert_gt0 "scrollbar_shadow_offset" "scrollbar shadow offset must be greater than zero" ;>
    assert_ge0 "scrollbar_slider_pad" "slider pad must be equal or greater than zero" ;>
    assert_gt0 "scrollbar_thick" "scrollbar thickness must be greater than zero" ;>
    assert_gt0 "title_font_size" "title font size must be greater than zero" ;>
    assert_gt0 "widget_font_size" "widget font size must be greater than zero" ;>
    assert_gt0 "widget_shadow_offset" "widget shadow offset must be greater than zero" ;>
    (* Configs *)
    (let* e := attr "widget_selection_effect" in
     let* c := attr "selection_color" in
     let* e' := lift (selection_set_color ext e c) in
     setattr "widget_selection_effect" e') ;>
    (* Color asserts *)
    (let* v := attr "focus_background_color" in
     let* a := lift (py_index v 3) in
     assert (py_ne0 a)
       "focus background color cannot be fully transparent, suggested opacity between 1 and 255").

End Methods.

(** The attributes [Theme()] sets: the defaults of [Theme.__init__]. *)
Definition color3 (r g b : Z) : PyVal := VTuple [VInt r; VInt g; VInt b].
Definition color4 (r g b a : Z) : PyVal := VTuple [VInt r; VInt g; VInt b; VInt a].
Definition pair2 (a b : Z) : PyVal := VTuple [VInt a; VInt b].

Definition theme_defaults (ext : Externals) : list (string * PyVal) :=
  [ ("background_color", color3 220 220 220);
    ("focus_background_color", color4 0 0 0 180);
    ("fps", VInt 30);
    ("readonly_color", color3 120 120 120);
    ("readonly_selected_color", color3 190 190 190);
    ("selection_color", color3 255 255 255);
    ("surface_clear_color", color3 0 0 0);
    ("cursor_color", color3 0 0 0);
    ("cursor_selection_color", color4 30 30 30 120);
    ("cursor_switch_ms", VInt 1000);
    ("title_background_color", color3 70 70 70);
    ("title_bar_modify_scrollarea", VBool true);
    ("title_bar_style", VInt (MENUBAR_STYLE_ADAPTIVE ext));
    ("title_close_button", VBool true);
    ("title_floating", VBool false);
    ("title_font", VStr (FONT_OPEN_SANS ext));
    ("title_font_antialias", VBool true);
    ("title_font_color", color3 220 220 220);
    ("title_font_size", VInt 40);
    ("title_offset", pair2 5 (-1));
    ("title_shadow", VBool false);
    ("title_shadow_color", color3 0 0 0);
    ("title_shadow_offset", VInt 2);
    ("title_shadow_position", VStr (POSITION_NORTHWEST ext));
    ("title_updates_pygame_display", VBool false);
    ("scrollarea_outer_margin", pair2 0 0);
    ("scrollarea_position", VStr (POSITION_SOUTHEAST ext));
    ("scrollbar_color", color3 220 220 220);
    ("scrollbar_shadow", VBool false);
    ("scrollbar_shadow_color", color3 0 0 0);
    ("scrollbar_shadow_offset", VInt 2);
    ("scrollbar_shadow_position", VStr (POSITION_NORTHWEST ext));
    ("scrollbar_slider_color", color3 200 200 200);
    ("scrollbar_slider_pad", VInt 0);
    ("scrollbar_thick", VInt 20);
    ("widget_selection_effect", HighlightSelection ext);
    ("widget_alignment", VStr (ALIGN_CENTER ext));
    ("widget_background_color", VNone);
    ("widget_background_inflate", pair2 0 0);
    ("widget_border_color", color3 0 0 0);
    ("widget_border_inflate", highlight_xy_margin ext);
    ("widget_border_width", VInt 0);
    ("widget_font", VStr (FONT_OPEN_SANS ext));
    ("widget_font_antialias", VBool true);
    ("widget_font_background_color", VNone);
    ("widget_font_background_color_from_menu", VBool false);
    ("widget_font_color", color3 70 70 70);
    ("widget_font_size", VInt 30);
    ("widget_margin", pair2 0 10);
    ("widget_padding", VInt 0);
    ("widget_offset", pair2 0 0);
    ("widget_shadow", VBool false);
    ("widget_shadow_color", color3 0 0 0);
    ("widget_shadow_offset", VInt 2);
    ("widget_shadow_position", VStr (POSITION_NORTHWEST ext));
    ("_disable_validation", VBool false) ].

Definition THEME_DEFAULT (ext : Externals) : Theme :=
  list_to_map (theme_defaults ext).

(** The attributes [validate] assigns. *)
Definition validate_assigns : list string :=
  [ "background_color"; "cursor_color"; "cursor_selection_color";
    "focus_background_color"; "readonly_color"; "readonly_selected_color";
    "scrollbar_color"; "scrollbar_shadow_color"; "scrollbar_slider_color";
    "selection_color"; "surface_clear_color"; "title_background_color";
    "widget_border_color"; "title_font_color"; "title_shadow_color";
    "widget_background_color"; "widget_font_background_color";
    "widget_font_color"; "scrollarea_outer_margin"; "title_offset";
    "widget_background_inflate"; "widget_border_inflate"; "widget_margin";
    "widget_padding"; "widget_offset"; "widget_selection_effect" ].

(** ** Theme.__init__ *)

(** The classes [Theme.__init__] gives as allowed types. *)
Inductive PyClass : Type :=
| ClsBool | ClsInt | ClsFloat | ClsStr | ClsTuple | ClsList | ClsSelection.

(** [isinstance(v, c)] *)
Definition isinstance (v : PyVal) (c : PyClass) : bool :=
  match c with
  | ClsBool => is_bool v
  | ClsInt => is_int v
  | ClsFloat => match v with VFloat _ => true | _ => false end
  | ClsStr => is_str v
  | ClsTuple => match v with VTuple _ => true | _ => false end
  | ClsList => match v with VList _ => true | _ => false end
  | ClsSelection => is_Selection v
  end.

(** An item of [allowed_types]: a str, the builtin [callable], or a class. *)
Inductive AllowedType : Type :=
| TName (s : string)
| TCallable
| TClass (c : PyClass).

Definition is_BaseImage (v : PyVal) : bool :=
  match v with VImage _ => true | _ => false end.
Definition is_None (v : PyVal) : bool :=
  match v with VNone => true | _ => false end.

(** The keyword arguments of a call, by name. *)
Abbreviation Kwargs := (gmap string PyVal).

(** A line [self.attribute = self._get(kwargs, keyword, types, default)]. *)
Record Attribute : Type := mkAttribute {
  attribute : string;
  keyword : string;
  types : list AllowedType;
  default : PyVal
}.

Definition color_attr (name : string) (default : PyVal) : Attribute :=
  mkAttribute name name [TName "color"] default.
Definition class_attr (name : string) (c : PyClass) (default : PyVal) : Attribute :=
  mkAttribute name name [TClass c] default.
Definition number_attr (name : string) (default : PyVal) : Attribute :=
  mkAttribute name name [TClass ClsInt; TClass ClsFloat] default.
Definition named_attr (name type : string) (default : PyVal) : Attribute :=
  mkAttribute name name [TName type] default.

Section Init.

Context (ext : Externals)
        (is_callable : PyVal -> bool)          (* utils.is_callable(value) *)
        (is_type : PyVal -> bool)              (* isinstance(value, type) *)
        (assert_vector : PyVal -> nat -> bool) (* utils.assert_vector(value, n) *)
        (get_xy_margin : PyVal -> PyVal).      (* Selection.get_xy_margin() *)

(** The loop [for valtype in allowed_types] of [_get]: [Ret (inl v)] is a
    [return v] inside the loop, [Ret (inr o)] the end of the loop with
    [other_types = o]. *)
Fixpoint check_allowed_types (value : PyVal) (allowed_types : list AllowedType)
    (other_types : list PyClass) : Outcome (PyVal + list PyClass) :=
  match allowed_types with
  | [] => Ret (inr other_types)
  | valtype :: rest =>
      let next := check_allowed_types value rest in
      let check (c : bool) (msg : string) :=
        if c then next other_types else Raise (AssertionError msg) in
      match valtype with
      | TCallable => check (is_callable value) "value must be callable type"
      | TClass c => next (other_types ++ [c])%list
      | TName s =>
          if String.eqb s "alignment" then check (assert_alignment ext value) ""
          else if String.eqb s "function" || String.eqb s "callable" then
            check (is_callable value) "value must be callable type"
          else if String.eqb s "color" then check (assert_color ext value) ""
          else if String.eqb s "color_image" then
            if is_BaseImage value then Ret (inl value)
            else check (assert_color ext value) ""
          else if String.eqb s "color_image_none" then
            if is_None value || is_BaseImage value then Ret (inl value)
            else check (assert_color ext value) ""
          else if String.eqb s "color_none" then
            if is_None value then Ret (inl value)
            else check (assert_color ext value) ""
          else if String.eqb s "image" then
            check (is_BaseImage value) "value must be BaseImage type"
          else if String.eqb s "none" then check (is_None value) ""
          else if String.eqb s "position" then check (assert_position ext value) ""
          else if String.eqb s "type" then check (is_type value) "value is not type-class"
          else if String.eqb s "tuple2" then check (assert_vector value 2) ""
          else if String.eqb s "tuple3" then check (assert_vector value 3) ""
          else Raise (AssertionError ("allowed type " ++ widget.dquote ++ s ++ widget.dquote
                                      ++ " is not a type-class"))
      end
  end.

(** [_get(params, key, allowed_types, default)], a computation on [params]:
    the key is popped. [allowed_types] is [None] or the tuple of the types;
    a single type stands for the tuple that holds it. *)
Definition _get (key : string) (allowed_types : option (list AllowedType))
    (default : PyVal) : M Kwargs PyVal :=
  let* params := get in
  let value := match params !! key with Some v => v | None => default end in
  modify (fun params : Kwargs => delete key params) ;>
  match allowed_types with
  | None => ret value
  | Some allowed_types =>
      let* r := lift (check_allowed_types value allowed_types []) in
      match r with
      | inl v => ret v
      | inr other_types =>
          (if (0 <? length other_types)%nat then
             assert (existsb (isinstance value) other_types)
                    ("Theme." ++ key ++ " type is not one of the allowed types")
           else ret tt) ;>
          ret value
      end
  end.

(** The lines of [Theme.__init__] down to [widget_selection_effect]. *)
Definition menu_attributes : list Attribute :=
  [ named_attr "background_color" "color_image" (color3 220 220 220);
    color_attr "focus_background_color" (color4 0 0 0 180);
    number_attr "fps" (VInt 30);
    color_attr "readonly_color" (color3 120 120 120);
    color_attr "readonly_selected_color" (color3 190 190 190);
    color_attr "selection_color" (color3 255 255 255);
    color_attr "surface_clear_color" (color3 0 0 0);
    color_attr "cursor_color" (color3 0 0 0);
    color_attr "cursor_selection_color" (color4 30 30 30 120);
    number_attr "cursor_switch_ms" (VInt 1000);
    color_attr "title_background_color" (color3 70 70 70);
    class_attr "title_bar_modify_scrollarea" ClsBool (VBool true);
    class_attr "title_bar_style" ClsInt (VInt (MENUBAR_STYLE_ADAPTIVE ext));
    mkAttribute "title_close_button" "menubar_close_button" [TClass ClsBool] (VBool true);
    class_attr "title_floating" ClsBool (VBool false);
    class_attr "title_font" ClsStr (VStr (FONT_OPEN_SANS ext));
    class_attr "title_font_antialias" ClsBool (VBool true);
    color_attr "title_font_color" (color3 220 220 220);
    class_attr "title_font_size" ClsInt (VInt 40);
    named_attr "title_offset" "tuple2" (pair2 5 (-1));
    class_attr "title_shadow" ClsBool (VBool false);
    color_attr "title_shadow_color" (color3 0 0 0);
    number_attr "title_shadow_offset" (VInt 2);
    named_attr "title_shadow_position" "position" (VStr (POSITION_NORTHWEST ext));
    class_attr "title_updates_pygame_display" ClsBool (VBool false);
    named_attr "scrollarea_outer_margin" "tuple2" (pair2 0 0);
    class_attr "scrollarea_position" ClsStr (VStr (POSITION_SOUTHEAST ext));
    color_attr "scrollbar_color" (color3 220 220 220);
    class_attr "scrollbar_shadow" ClsBool (VBool false);
    color_attr "scrollbar_shadow_color" (color3 0 0 0);
    number_attr "scrollbar_shadow_offset" (VInt 2);
    named_attr "scrollbar_shadow_position" "position" (VStr (POSITION_NORTHWEST ext));
    color_attr "scrollbar_slider_color" (color3 200 200 200);
    number_attr "scrollbar_slider_pad" (VInt 0);
    number_attr "scrollbar_thick" (VInt 20);
    class_attr "widget_selection_effect" ClsSelection (HighlightSelection ext) ].

(** The lines after it; [widget_selection_margin] is the margin of the
    selection effect the theme was given. *)
Definition widget_attributes (widget_selection_margin : PyVal) : list Attribute :=
  [ named_attr "widget_alignment" "alignment" (VStr (ALIGN_CENTER ext));
    named_attr "widget_background_color" "color_image_none" VNone;
    mkAttribute "widget_background_inflate" "background_inflate" [TName "tuple2"]
                (pair2 0 0);
    color_attr "widget_border_color" (color3 0 0 0);
    named_attr "widget_border_inflate" "tuple2" widget_selection_margin;
    class_attr "widget_border_width" ClsInt (VInt 0);
    class_attr "widget_font" ClsStr (VStr (FONT_OPEN_SANS ext));
    class_attr "widget_font_antialias" ClsBool (VBool true);
    named_attr "widget_font_background_color" "color_none" VNone;
    class_attr "widget_font_background_color_from_menu" ClsBool (VBool false);
    color_attr "widget_font_color" (color3 70 70 70);
    class_attr "widget_font_size" ClsInt (VInt 30);
    named_attr "widget_margin" "tuple2" (pair2 0 10);
    mkAttribute "widget_padding" "widget_padding"
                [TClass ClsInt; TClass ClsFloat; TClass ClsTuple; TClass ClsList] (VInt 0);
    named_attr "widget_offset" "tuple2" (pair2 0 0);
    class_attr "widget_shadow" ClsBool (VBool false);
    color_attr "widget_shadow_color" (color3 0 0 0);
    number_attr "widget_shadow_offset" (VInt 2);
    named_attr "widget_shadow_position" "position" (VStr (POSITION_NORTHWEST ext)) ].

(** The lines of [l], one after the other, on the theme [self]. *)
Fixpoint init_attributes (l : list Attribute) (self : Theme) : M Kwargs Theme :=
  match l with
  | [] => ret self
  | a :: l' =>
      let* v := _get (keyword a) (Some (types a)) (default a) in
      init_attributes l' (<[attribute a := v]> self)
  end.

(** [Theme(kwargs...)]: the theme, or the exception. The keyword the
    [ValueError] names is the first one left in [kwargs]; here, one of
    those left. *)
Definition __init__ : M Kwargs Theme :=
  let* self := init_attributes menu_attributes ∅ in
  let widget_selection_margin :=
    match self !! "widget_selection_effect" with
    | Some e => get_xy_margin e
    | None => VNone
    end in
  let* self := init_attributes (widget_attributes widget_selection_margin) self in
  let* kwargs := get in
  match map_to_list kwargs with
  | (invalid_keyword, _) :: _ =>
      raise (ValueError ("parameter Theme." ++ invalid_keyword ++ " does not exist"))
  | [] => ret (<["_disable_validation" := VBool false]> self)
  end.

End Init.

End themes.

(** ** What the properties are stated with

    The calls a method is expected to make and the tests it is expected
    to apply, written from what the methods promise; the properties below
    compare the methods with them. *)
Module expected.

Import widget.

(** *** Selection *)

(** What [select] calls on a selectable widget. *)
Definition select_trace (w : Widget) (status um : bool) : list Effect :=
  [if status then Focus else Blur] ++
  match _on_select w with
  | Some f => [Call OnSelect f [VBool status; VWidget (_id w); menu_ref (_menu w)] []]
  | None => []
  end ++
  (if um then match _menu w with
              | Some m => [Menu_select_widget (menu_id m) (_id w)]
              | None => []
              end
   else []).

(** *** Scale, max width and max height *)

(** A call of one of the three transforms. *)
Inductive TransformCall : Type :=
| CallScale (width height : Q) (smooth : bool)
| CallSetMaxWidth (width : option Q) (scale_height smooth : bool)
| CallSetMaxHeight (height : option Q) (scale_width smooth : bool).

Definition call_transform (cls : WidgetClass) (c : TransformCall) : M Widget unit :=
  match c with
  | CallScale width height smooth => scale cls width height smooth
  | CallSetMaxWidth width scale_height smooth => set_max_width cls width scale_height smooth
  | CallSetMaxHeight height scale_width smooth => set_max_height cls height scale_width smooth
  end.

(** The calls of [cs] one after the other, a call that raises left behind:
    the widget at the end and everything that was called on the way. *)
Fixpoint call_transforms (cls : WidgetClass) (cs : list TransformCall) (w : Widget)
  : Widget * list Effect :=
  match cs with
  | [] => (w, [])
  | c :: cs' =>
      let r := call_transform cls c w in
      let '(w', t) := call_transforms cls cs' (final r) in
      (w', trace r ++ t)%list
  end.

Definition scale_active (w : Widget) : bool := fst (fst (fst (_scale w))).
Definition max_width_active (w : Widget) : bool :=
  match fst (fst (_max_width w)) with Some _ => true | None => false end.
Definition max_height_active (w : Widget) : bool :=
  match fst (fst (_max_height w)) with Some _ => true | None => false end.

(** How many of the three are active. *)
Definition active_transforms (w : Widget) : nat :=
  (if scale_active w then 1 else 0) + (if max_width_active w then 1 else 0) +
  (if max_height_active w then 1 else 0).

(** *** Shadow *)

(** What the three checks of [set_shadow] say of its arguments. *)
Definition shadow_color_ok (ext : Externals) (color : option PyVal) : bool :=
  match color with Some c => assert_color ext c | None => true end.
Definition shadow_position_ok (ext : Externals) (position : option string) : bool :=
  match position with Some p => assert_position ext (VStr p) | None => true end.

(** *** Callbacks *)

(** The arguments of the callback: the value first when [get_value] gives
    one, then the arguments of the call, then those of the widget. *)
Definition callback_args (cls : WidgetClass) (w : Widget) (args : list PyVal)
  : option (list PyVal) :=
  match outcome (get_value cls w) with
  | Ret v => Some (v :: args ++ _args w)%list
  | Raise (ValueError _) => Some (args ++ _args w)%list
  | Raise _ => None
  end.

(** *** Button.update *)

(** The rect [get_rect()] returns: [_rect] grown by the transformed padding. *)
Definition padded_rect (w : Widget) : Rect :=
  let '(pad_top, pad_right, pad_bottom, pad_left) := _padding_transform w in
  mkRect (rect_x (_rect w) - pad_left) (rect_y (_rect w) - pad_top)
         (rect_width (_rect w) + pad_left + pad_right)
         (rect_height (_rect w) + pad_bottom + pad_top).

(** Whether an event makes [update] call [apply]: a key-down with the apply
    key; with the joystick enabled, a press of the joystick's select button;
    with the mouse enabled, a mouse-button-up inside [rect]; with the
    touchscreen enabled, a finger-up whose coordinates, scaled by the window
    size of the Menu, are inside [rect]. *)
Definition fires (ext : Externals) (w : Widget) (rect : Rect) (event : Event) : bool :=
  match event with
  | KEYDOWN key => key =? KEY_APPLY ext
  | JOYBUTTONDOWN b => _joystick_enabled w && (b =? JOY_BUTTON_SELECT ext)
  | MOUSEBUTTONUP pos => _mouse_enabled w && collidepoint rect (fst pos) (snd pos)
  | FINGERUP x y =>
      _touchscreen_enabled w &&
      match _menu w with
      | Some menu =>
          collidepoint_f rect (x * inject_Z (fst (window_size menu)))%Q
                              (y * inject_Z (snd (window_size menu)))%Q
      | None => false
      end
  | OtherEvent _ => false
  end.

(** What one [apply()] of a Button calls: its on-return callback, if any,
    with the arguments of the widget. *)
Definition apply_effects (w : Widget) : list Effect :=
  match _on_return w with
  | Some f => [Call OnReturn f (_args w) (_kwargs w)]
  | None => []
  end.

(** What [update] calls for one event: the sound of the event, and an
    [apply()] when the event fires. *)
Definition event_effects (ext : Externals) (w : Widget) (rect : Rect) (event : Event)
  : list Effect :=
  match event with
  | KEYDOWN _ | JOYBUTTONDOWN _ =>
      if fires ext w rect event then Play_open_menu :: apply_effects w else []
  | MOUSEBUTTONUP _ =>
      if _mouse_enabled w then
        Play_click_mouse :: (if fires ext w rect event then apply_effects w else [])
      else []
  | FINGERUP _ _ =>
      if _touchscreen_enabled w then
        Play_click_mouse :: (if fires ext w rect event then apply_effects w else [])
      else []
  | OtherEvent _ => []
  end.

(** What [apply_update_callbacks()] calls: each registered callback once. *)
Definition update_effects (w : Widget) : list Effect :=
  map (fun callback => Call OnUpdate callback [VWidget (_id w); menu_ref (_menu w)] [])
      (map snd (_update_callbacks w)).

(** The calls of kind [k] in a trace. *)
Definition kind_eqb (a b : CbKind) : bool :=
  match a, b with
  | OnReturn, OnReturn | OnChange, OnChange
  | OnSelect, OnSelect | OnUpdate, OnUpdate => true
  | _, _ => false
  end.

Definition is_call (k : CbKind) (e : Effect) : bool :=
  match e with
  | Call k' _ _ _ => kind_eqb k k'
  | _ => false
  end.

Definition calls_of (k : CbKind) (t : list Effect) : list Effect :=
  List.filter (is_call k) t.

(** *** Theme.validate *)

(** A computation on a theme that assigns no attribute outside [ks] and
    calls nothing. *)
Definition assigns_within (ks : list string) {A} (m : M (gmap string PyVal) A) : Prop :=
  forall t : gmap string PyVal,
    trace (m t) = [] /\
    forall k, ~ In k ks -> final (m t) !! k = t !! k.

(** *** Padding *)

(** The four sides (top, right, bottom, left) a vector of one to four
    numbers stands for by the rules of CSS. *)
Definition css_padding (l : list Z) : option (Z * Z * Z * Z) :=
  match l with
  | [a] => Some (a, a, a, a)
  | [a; b] => Some (a, b, a, b)
  | [a; b; c] => Some (a, b, c, b)
  | [a; b; c; d] => Some (a, b, c, d)
  | _ => None
  end.

(** *** Theme.validate, continued *)

(** The colors and the vectors of two numbers among the attributes. *)
Definition theme_colors : list string :=
  [ "background_color"; "cursor_color"; "cursor_selection_color";
    "focus_background_color"; "readonly_color"; "readonly_selected_color";
    "scrollbar_color"; "scrollbar_shadow_color"; "scrollbar_slider_color";
    "selection_color"; "surface_clear_color"; "title_background_color";
    "widget_border_color"; "title_font_color"; "title_shadow_color";
    "widget_background_color"; "widget_font_background_color";
    "widget_font_color" ].

Definition theme_vectors : list string :=
  [ "scrollarea_outer_margin"; "title_offset"; "widget_background_inflate";
    "widget_border_inflate"; "widget_margin"; "widget_offset" ].

(** A color with its alpha channel: [None], an image, or a tuple of four. *)
Definition is_rgba (c : PyVal) : bool :=
  match c with
  | VNone | VImage _ => true
  | VTuple [_; _; _; _] => true
  | _ => false
  end.

Definition is_pair (v : PyVal) : bool :=
  match v with
  | VTuple [_; _] => true
  | _ => false
  end.

(** The colors a color check accepts have three or four channels. *)
Definition colors_have_3_or_4 (check : PyVal -> bool) : Prop :=
  forall c, check c = true ->
    match c with
    | VTuple l | VList l => (length l = 3 \/ length l = 4)%nat
    | _ => False
    end.

(** [m], when it returns, leaves a theme where [P] holds. *)
Definition ensures {A} (m : M (gmap string PyVal) A)
    (P : gmap string PyVal -> Prop) : Prop :=
  forall t a, outcome (m t) = Ret a -> P (final (m t)).

(** [m], run on a theme where [P] holds, leaves when it returns a theme
    where [Q] holds. *)
Definition hoare {A} (P : gmap string PyVal -> Prop) (m : M (gmap string PyVal) A)
    (Q : gmap string PyVal -> Prop) : Prop :=
  forall t a, P t -> outcome (m t) = Ret a -> Q (final (m t)).

(** *** Theme.__init__ *)

(** What a line of [Theme.__init__] stores: the keyword argument when it is
    given, the default when it is not. *)
Definition supplied (kwargs : gmap string PyVal) (a : themes.Attribute) : PyVal :=
  match kwargs !! themes.keyword a with
  | Some v => v
  | None => themes.default a
  end.

(** The attribute [k] is there and passes the test [p]. *)
Definition attr_is (k : string) (p : PyVal -> bool) (t : gmap string PyVal) : Prop :=
  match t !! k with
  | Some v => p v = true
  | None => False
  end.

(** The sizes [validate] wants greater than zero. *)
Definition theme_positive : list string :=
  [ "cursor_switch_ms"; "scrollbar_shadow_offset"; "scrollbar_thick";
    "title_font_size"; "widget_font_size"; "widget_shadow_offset" ].

Definition is_positive (v : PyVal) : bool :=
  match py_num v with
  | Some q => Qlt_bool 0 q
  | None => false
  end.

(** The colors [cs] have their alpha channel, the vectors [vs] are tuples
    of two and the sizes [ps] are greater than zero. *)
Definition validated (cs vs ps : list string) (t : gmap string PyVal) : Prop :=
  (forall k, In k cs -> attr_is k is_rgba t) /\
  (forall k, In k vs -> attr_is k is_pair t) /\
  (forall k, In k ps -> attr_is k is_positive t).

(** None of [ks] is one of [cs], [vs] or [ps]. *)
Definition apart (ks cs vs ps : list string) : bool :=
  forallb (fun k => negb (existsb (String.eqb k) (cs ++ vs ++ ps))) ks.

(** The names of the custom types [_get] knows. *)
Definition custom_types : list string :=
  [ "alignment"; "function"; "callable"; "color"; "color_image";
    "color_image_none"; "color_none"; "image"; "none"; "position"; "type";
    "tuple2"; "tuple3" ].

(** *** Button.update, continued *)

Definition is_FINGERUP (event : Event) : bool :=
  match event with
  | FINGERUP _ _ => true
  | _ => false
  end.

End expected.

(** ** A concrete environment

    The values pygame-menu's [controls] and [locals] modules give the
    constants, a color check that accepts tuples or lists of 3 or 4 ints in
    0..255, and a class whose [_render] leaves a 100 x 40 surface. They
    serve to run the methods on concrete widgets. *)
Module examples.

Import widget.

Definition positions : list string :=
  [ "position-west"; "position-southwest"; "position-south";
    "position-southeast"; "position-east"; "position-north";
    "position-northwest"; "position-northeast"; "position-center" ].

Definition channel (v : PyVal) : bool :=
  match v with
  | VInt z => (0 <=? z) && (z <=? 255)
  | _ => false
  end.

Definition color_ok (v : PyVal) : bool :=
  match v with
  | VTuple l | VList l =>
      ((length l =? 3)%nat || (length l =? 4)%nat) && forallb channel l
  | _ => false
  end.

Definition in_strings (l : list string) (v : PyVal) : bool :=
  match v with
  | VStr s => existsb (String.eqb s) l
  | _ => false
  end.

(** A hash that sends the tuple [(False, '', True, False)] to 0. *)
Definition hash0 (args : list PyVal) : Z :=
  match args with
  | [VBool false; VStr EmptyString; VBool true; VBool false] => 0
  | _ => 1 + Z.of_nat (length args)
  end.

Definition ext0 : Externals :=
  {| py_hash := hash0;
     cb_return := fun _ _ _ => VNone;
     assert_color := color_ok;
     assert_position := in_strings positions;
     assert_alignment := in_strings ["align-left"; "align-center"; "align-right"];
     get_scrollbars_from_position := fun v =>
       if in_strings positions v then Ret v
       else Raise (ValueError "unknown ScrollArea position");
     selection_set_color := fun _ c => Ret (VSelection c);
     MENUBAR_STYLES := [1000; 1001; 1002; 1003; 1004; 1005; 1006];
     MENUBAR_STYLE_ADAPTIVE := 1000;
     FONT_OPEN_SANS := "opensans";
     ALIGN_CENTER := "align-center";
     HighlightSelection := VSelection (VTuple [VInt 0; VInt 0; VInt 0]);
     highlight_xy_margin := VTuple [VInt 0; VInt 0];
     KEY_APPLY := 13;
     JOY_BUTTON_SELECT := 0;
     POSITION_NORTHWEST := "position-northwest";
     POSITION_NORTH := "position-north";
     POSITION_NORTHEAST := "position-northeast";
     POSITION_EAST := "position-east";
     POSITION_SOUTHEAST := "position-southeast";
     POSITION_SOUTH := "position-south";
     POSITION_SOUTHWEST := "position-southwest";
     POSITION_WEST := "position-west";
     POSITION_CENTER := "position-center" |}.

(** A [_render] that leaves a 100 x 40 surface and the padding as it is. *)
Definition render0 (w : Widget) : RenderOut :=
  {| ro_last_render_hash := 7;
     ro_surface := Some (mkSurface 100 40);
     ro_padding_transform := _padding w;
     ro_size := (100, 40);
     ro_menu_need_update := true |}.

Definition cls0 : WidgetClass := button.Button_class render0.

(** A class with a value: [get_value] returns 42. *)
Definition cls_value : WidgetClass :=
  mkWidgetClass render0 (Some (fun _ => Ret (VInt 42))).

Definition menu0 : Menu := mkMenu "menu" (600, 400) false.

(** [Button('Play', 'play', on_play, 1)] *)
Definition btn0 : Widget :=
  button.__init__ ext0 "uuid" "Play" "play" (Some "on_play") [VInt 1] [].

(** [btn0] with an on-select callback, and [btn0] attached to [menu0]. *)
Definition btn_cb : Widget :=
  final (button.set_selection_callback (Some "on_select") btn0).

Definition btn_menu : Widget := final (set_menu (Some menu0) btn0).

(** [after m w]: the widget [m] leaves. *)
Definition after {A} (m : M Widget A) (w : Widget) : Widget := final (m w).

(** A class whose [get_value] raises a [TypeError]. *)
Definition cls_broken : WidgetClass :=
  mkWidgetClass render0 (Some (fun _ => Raise (TypeError "bad value"))).

(** [ext0] with callbacks that return the list of their name and
    arguments. *)
Definition ext_echo : Externals :=
  {| py_hash := py_hash ext0;
     cb_return := fun f args _ => VList (VStr f :: args);
     assert_color := assert_color ext0;
     assert_position := assert_position ext0;
     assert_alignment := assert_alignment ext0;
     get_scrollbars_from_position := get_scrollbars_from_position ext0;
     selection_set_color := selection_set_color ext0;
     MENUBAR_STYLES := MENUBAR_STYLES ext0;
     MENUBAR_STYLE_ADAPTIVE := MENUBAR_STYLE_ADAPTIVE ext0;
     FONT_OPEN_SANS := FONT_OPEN_SANS ext0;
     ALIGN_CENTER := ALIGN_CENTER ext0;
     HighlightSelection := HighlightSelection ext0;
     highlight_xy_margin := highlight_xy_margin ext0;
     KEY_APPLY := KEY_APPLY ext0;
     JOY_BUTTON_SELECT := JOY_BUTTON_SELECT ext0;
     POSITION_NORTHWEST := POSITION_NORTHWEST ext0;
     POSITION_NORTH := POSITION_NORTH ext0;
     POSITION_NORTHEAST := POSITION_NORTHEAST ext0;
     POSITION_EAST := POSITION_EAST ext0;
     POSITION_SOUTHEAST := POSITION_SOUTHEAST ext0;
     POSITION_SOUTH := POSITION_SOUTH ext0;
     POSITION_SOUTHWEST := POSITION_SOUTHWEST ext0;
     POSITION_WEST := POSITION_WEST ext0;
     POSITION_CENTER := POSITION_CENTER ext0 |}.

(** The checks [Theme.__init__] needs besides: nothing is callable or a
    class, a vector of [n] is a tuple or list of [n] numbers, and the
    margin of a selection effect is (0, 0). *)
Definition vector_ok (v : PyVal) (n : nat) : bool :=
  match v with
  | VTuple l | VList l => (length l =? n)%nat && forallb is_number l
  | _ => false
  end.

Definition theme_init0 : M (gmap string PyVal) (gmap string PyVal) :=
  themes.__init__ ext0 (fun _ => false) (fun _ => false) vector_ok
                  (fun _ => VTuple [VInt 0; VInt 0]).

(** [Theme(fps=60, menubar_close_button=False)] *)
Definition kwargs0 : gmap string PyVal :=
  <["fps" := VInt 60]> (<["menubar_close_button" := VBool false]> ∅).

(** [THEME_DEFAULT] with a list of three channels as background color. *)
Definition theme_list_color : gmap string PyVal :=
  <["background_color" := VList [VInt 1; VInt 2; VInt 3]]> (themes.THEME_DEFAULT ext0).

End examples.

(** * Properties *)

Import widget.
Import expected.

(** Running a method on a symbolic widget. [weval] computes: the monad, the
    fields and their assignments, and the render are unfolded; what a
    method tests stays as it is written. *)
Ltac weval :=
  lazy beta iota zeta delta
    [bind ret raise get modify emit assert for_each outcome final trace app
    fst snd set4_0 set4_1 set4_2 set3_0 negb andb orb rect_x rect_y
    rect_width rect_height menu_id window_size _widgets_surface_need_update
    ro_last_render_hash ro_surface ro_padding_transform ro_size
    ro_menu_need_update is_selected is_visible get_id get_menu menu_ref
    get_position get_col_row_index force_menu_surface_update _render
    _force_render render _disable_scale _focus _blur class_name _id _title
    _args _kwargs _on_change _on_return _on_select _update_callbacks _events
    _menu _col_row_index _rect _translate _padding _padding_transform _scale
    _max_width _max_height _shadow _shadow_color _shadow_offset
    _shadow_position _shadow_tuple _selected _selection_time _visible
    _surface _last_render_hash _joystick_enabled _mouse_enabled
    _touchscreen_enabled active is_selectable lock_position readonly
    upd__on_change upd__on_return upd__on_select upd__update_callbacks
    upd__events upd__menu upd__col_row_index upd__rect upd__translate
    upd__padding_transform upd__scale upd__max_width upd__max_height
    upd__shadow upd__shadow_color upd__shadow_offset upd__shadow_position
    upd__shadow_tuple upd__selected upd__selection_time upd__visible
    upd__surface upd__last_render_hash upd__joystick_enabled
    upd__mouse_enabled upd__touchscreen_enabled upd_active upd_is_selectable
    upd_lock_position upd_readonly].

Ltac weval_all :=
  lazy beta iota zeta delta
    [bind ret raise get modify emit assert for_each outcome final trace app
    fst snd set4_0 set4_1 set4_2 set3_0 negb andb orb rect_x rect_y
    rect_width rect_height menu_id window_size _widgets_surface_need_update
    ro_last_render_hash ro_surface ro_padding_transform ro_size
    ro_menu_need_update is_selected is_visible get_id get_menu menu_ref
    get_position get_col_row_index force_menu_surface_update _render
    _force_render render _disable_scale _focus _blur class_name _id _title
    _args _kwargs _on_change _on_return _on_select _update_callbacks _events
    _menu _col_row_index _rect _translate _padding _padding_transform _scale
    _max_width _max_height _shadow _shadow_color _shadow_offset
    _shadow_position _shadow_tuple _selected _selection_time _visible
    _surface _last_render_hash _joystick_enabled _mouse_enabled
    _touchscreen_enabled active is_selectable lock_position readonly
    upd__on_change upd__on_return upd__on_select upd__update_callbacks
    upd__events upd__menu upd__col_row_index upd__rect upd__translate
    upd__padding_transform upd__scale upd__max_width upd__max_height
    upd__shadow upd__shadow_color upd__shadow_offset upd__shadow_position
    upd__shadow_tuple upd__selected upd__selection_time upd__visible
    upd__surface upd__last_render_hash upd__joystick_enabled
    upd__mouse_enabled upd__touchscreen_enabled upd_active upd_is_selectable
    upd_lock_position upd_readonly] in *.

(** A symbolic widget is split into its fields (and the tuples and rects
    among them), so that every field a run reads is a variable. *)
Ltac split_state :=
  repeat match goal with
         | w : Widget |- _ => destruct w
         | p : (_ * _)%type |- _ => destruct p
         | r : Rect |- _ => destruct r
         end;
  weval_all.

(** One step where the run is stuck: what a [_render] leaves is named, and
    the test the run waits for is split. *)
Ltac mcase :=
  match goal with
  | |- context [render_out ?c ?W] =>
      lazymatch W with
      | context [render_out] => fail
      | _ => let o := fresh "o" in
             generalize (render_out c W); intro o; destruct o;
             repeat match goal with p : (_ * _)%type |- _ => destruct p end
      end
  | H : ?x = _ |- context [match ?x with _ => _ end] => rewrite H
  | H : ?x = _ |- context [if ?x then _ else _] => rewrite H
  | |- context [match ?x with _ => _ end] =>
      is_var x; match type of x with option _ => destruct x end
  | |- context [if ?x then _ else _] => is_var x; destruct x
  | |- context [if ?c then _ else _] =>
      lazymatch c with
      | context [if _ then _ else _] => fail
      | _ => destruct c eqn:?
      end
  end.

Ltac mrun := split_state; repeat (weval; try mcase).

(** A short run, the widget left whole. *)
Ltac msimpl := unfold bind, ret, raise, get, modify, emit, assert; cbn.

Ltac mdone := weval; try subst; auto 20.

(** [int] of a whole number is that number. *)
Lemma py_int_inject_Z (z : Z) : py_int (inject_Z z) = z.
Proof. unfold py_int; cbn. apply Z.quot_1_r. Qed.

Lemma py_int_Qeq (q : Q) (z : Z) : (q == inject_Z z)%Q -> py_int q = z.
Proof.
  unfold Qeq, py_int; cbn. intros H. rewrite Z.mul_1_r in H. rewrite H.
  apply Z.quot_mul. discriminate.
Qed.

(** ** The render hash *)

(** A hash that is not zero is returned as it is, and a draw that is not
    zero never gives zero. *)
Lemma _hash_variables_nonzero (ext : Externals) (draw : Z) (args : list PyVal) :
  py_hash ext args <> 0 \/ draw <> 0 -> _hash_variables ext draw args <> 0.
Proof.
  unfold _hash_variables. destruct (py_hash ext args =? 0) eqn:E.
  - apply Z.eqb_eq in E. intros [H | H]; [contradiction | exact H].
  - apply Z.eqb_neq in E. intros _. exact E.
Qed.

(** With a stored hash of zero, [_render_hash_changed] reports a change. *)
Lemma _render_hash_changed_first (ext : Externals) (draw : Z) (args : list PyVal)
    (w : Widget) :
  _last_render_hash w = 0 ->
  outcome (_render_hash_changed ext draw args w) = Ret true.
Proof.
  intros H. unfold _render_hash_changed. split_state. subst.
  destruct (_hash_variables ext draw args =? 0); reflexivity.
Qed.

(** C1: the hash [_hash_variables] returns is not always nonzero. Zero is
    one of the numbers [random.randrange(-100000, 100000)] can return; when
    the tuple hashes to zero and the draw is zero, [_hash_variables] returns
    zero, and [_render_hash_changed] stores zero as the hash of the render
    it reports. *)
Theorem _hash_variables_zero_draw (ext : Externals) (args : list PyVal) (w : Widget) :
  py_hash ext args = 0 ->
  randrange_100000 0 = true /\
  _hash_variables ext 0 args = 0 /\
  outcome (_render_hash_changed ext 0 args w) = Ret true /\
  _last_render_hash (final (_render_hash_changed ext 0 args w)) = 0.
Proof.
  intros H.
  assert (C : forall x, negb (0 =? x) || (x =? 0) = true) by (intros []; reflexivity).
  unfold _render_hash_changed, _hash_variables. rewrite H.
  change (0 =? 0) with true. unfold bind, get. cbv beta iota. rewrite C.
  repeat split.
Qed.

(** ** Rendering *)

(** [_render] and [_force_render] return and call nothing outside the
    widget. *)
Lemma _force_render_runs (cls : WidgetClass) (w : Widget) :
  outcome (_force_render cls w) = Ret tt /\ trace (_force_render cls w) = [].
Proof. mrun; auto. Qed.

Lemma _render_runs (cls : WidgetClass) (w : Widget) :
  outcome (_render cls w) = Ret tt /\ trace (_render cls w) = [].
Proof. mrun; auto. Qed.

(** ** Selection *)

Lemma select_selectable (cls : WidgetClass) (w : Widget) (now : Q) (status um : bool) :
  is_selectable w = true ->
  let r := select cls now status um w in
  trace r = select_trace w status um /\
  _selected (final r) = status /\
  _selection_time (final r) = (if status then now else _selection_time w) /\
  _events (final r) = (if status then _events w else []) /\
  is_selectable (final r) = true /\
  _on_select (final r) = _on_select w.
Proof.
  intros Hs. cbn zeta. unfold select, select_trace. split_state. subst.
  destruct status, um; mrun; mdone.
Qed.

Lemma select_not_selectable (cls : WidgetClass) (w : Widget) (now : Q) (status um : bool) :
  is_selectable w = false ->
  select cls now status um w = mkRun (Ret tt) w [].
Proof.
  intros Hs. unfold select. split_state. subst. reflexivity.
Qed.

(** C9: a widget that is not selected has a selected time of exactly 0,
    whatever its selection time holds; so has a widget that was selected
    at [t1] and unselected at [t2]. *)
Theorem get_selected_time_not_selected (cls : WidgetClass) (w : Widget)
    (now t1 t2 : Q) (um1 um2 : bool) :
  (_selected w = false -> get_selected_time now w = 0%Q) /\
  (is_selectable w = true ->
   let w1 := final (select cls t1 true um1 w) in
   let w2 := final (select cls t2 false um2 w1) in
   _selected w1 = true /\ _selection_time w1 = t1 /\
   _selected w2 = false /\ _selection_time w2 = t1 /\
   get_selected_time now w2 = 0%Q).
Proof.
  split.
  - intros H. unfold get_selected_time. rewrite H. reflexivity.
  - intros Hs. cbn zeta.
    destruct (select_selectable cls w t1 true um1 Hs) as (_ & S1 & T1 & _ & Hs1 & _).
    cbn zeta in *.
    destruct (select_selectable cls _ t2 false um2 Hs1) as (_ & S2 & T2 & _).
    cbn zeta in *.
    repeat split; try assumption.
    + congruence.
    + unfold get_selected_time. rewrite S2. reflexivity.
Qed.

(** C7: [select] on a widget that is not selectable changes nothing and
    calls nothing; on a selectable widget, [select(False)] leaves the list
    of pending events empty. *)
Theorem select_gate_and_unselect (cls : WidgetClass) (w : Widget) (now : Q)
    (status update_menu : bool) :
  (is_selectable w = false ->
   let r := select cls now status update_menu w in
   outcome r = Ret tt /\ final r = w /\ trace r = []) /\
  (is_selectable w = true ->
   let r := select cls now false update_menu w in
   _selected (final r) = false /\ _events (final r) = []).
Proof.
  split.
  - intros Hs. rewrite (select_not_selectable cls w now status update_menu Hs).
    cbn. auto.
  - intros Hs.
    destruct (select_selectable cls w now false update_menu Hs) as (_ & S & _ & E & _).
    cbn zeta in *. auto.
Qed.


(** ** Position *)



(** ** Column, row and index *)


(** ** Scale, max width and max height *)

Ltac transform_run :=
  unfold call_transform, scale, set_max_width, set_max_height,
    active_transforms, scale_active, max_width_active, max_height_active.

(** [_disable_scale] leaves none of the three active. *)
Lemma _disable_scale_none (cls : WidgetClass) (w : Widget) :
  let r := _disable_scale cls w in
  outcome r = Ret tt /\ trace r = [] /\ active_transforms (final r) = 0%nat.
Proof.
  cbn zeta. transform_run. mrun; auto.
Qed.

(** One call: nothing is called outside the widget, so no warning is given;
    after it, the widget is as it was (the call was rejected at once) or at
    most one of the three is active. *)
Lemma call_transform_effect (cls : WidgetClass) (c : TransformCall) (w : Widget) :
  let r := call_transform cls c w in
  trace r = [] /\
  (final r = w \/ (active_transforms (final r) <= 1)%nat).
Proof.
  cbn zeta. destruct c as [wd ht sm | [wd|] sh sm | [ht|] sw sm]; transform_run;
    mrun;
    (split; [reflexivity |]);
    first [ right; lazy; lia | left; reflexivity ].
Qed.

(** X19: after any sequence of calls of [scale], [set_max_width] and
    [set_max_height], accepted or rejected, on a widget with at most one of
    the three active, at most one is active, and no warning was given on
    the way. *)
Lemma transforms_exclusive (cls : WidgetClass) (cs : list TransformCall) (w : Widget) :
  (active_transforms w <= 1)%nat ->
  (active_transforms (fst (call_transforms cls cs w)) <= 1)%nat /\
  snd (call_transforms cls cs w) = [].
Proof.
  revert w. induction cs as [| c cs IH]; intros w H; cbn.
  - auto.
  - destruct (call_transform_effect cls c w) as [T F]. cbn zeta in *.
    destruct (call_transforms cls cs (final (call_transform cls c w))) as [w' t] eqn:E.
    assert (H' : (active_transforms (final (call_transform cls c w)) <= 1)%nat).
    { destruct F as [F | F]; [rewrite F; exact H | exact F]. }
    specialize (IH _ H'). rewrite E in IH. cbn in *. destruct IH as [IH1 IH2].
    rewrite T, IH2. auto.
Qed.

(** X22: a [set_max_width] whose width is not negative returns, gives no
    warning, stores the width with its two flags and leaves the scale and
    the maximum height off. *)
Lemma set_max_width_sets (cls : WidgetClass) (w : Widget) (width : Q)
    (scale_height smooth : bool) :
  Qle_bool 0 width = true ->
  let r := set_max_width cls (Some width) scale_height smooth w in
  outcome r = Ret tt /\ trace r = [] /\
  _max_width (final r) = (Some width, scale_height, smooth) /\
  scale_active (final r) = false /\ max_height_active (final r) = false.
Proof.
  intros V. cbn zeta. transform_run. mrun; repeat split; congruence.
Qed.

(** X21: a [scale] whose factors are positive returns, gives no warning,
    stores the factors and leaves the maximum width and height off; the
    scale is active unless both factors are 1. *)
Lemma scale_sets (cls : WidgetClass) (w : Widget) (width height : Q) (smooth : bool) :
  Qlt_bool 0 width && Qlt_bool 0 height = true ->
  let r := scale cls width height smooth w in
  outcome r = Ret tt /\ trace r = [] /\
  _scale (final r) =
    (negb (Qeq_bool width 1 && Qeq_bool height 1), width, height, smooth) /\
  max_width_active (final r) = false /\ max_height_active (final r) = false.
Proof.
  intros V. cbn zeta. transform_run. mrun; repeat split; congruence.
Qed.

(** ** Shadow *)

(** [set_shadow] returns exactly when its three checks pass. *)
Lemma set_shadow_returns (ext : Externals) (cls : WidgetClass) (w : Widget)
    (enabled : bool) (color : option PyVal) (position : option string) (offset : Q) :
  outcome (set_shadow ext cls enabled color position offset w) = Ret tt <->
  shadow_color_ok ext color && shadow_position_ok ext position && Qlt_bool 0 offset = true.
Proof.
  unfold set_shadow, shadow_color_ok, shadow_position_ok.
  split_state.
  destruct color as [c|]; [destruct (assert_color ext c) eqn:Ec |];
  (destruct position as [p|]; [destruct (assert_position ext (VStr p)) eqn:Ep |]);
  destruct (Qlt_bool 0 offset) eqn:Eo; weval; rewrite ?Ec, ?Ep, ?Eo; weval.
  all: try (split; [congruence | intros; discriminate]).
  all: mrun; split; reflexivity.
Qed.

(** [set_shadow] raises when one of its three checks fails, and then: the
    shadow flag is set as asked all the same; the color is stored when it
    passed its check and the position when color and position passed
    theirs; the offset, the shadow tuple and every field that is not one of
    the five shadow fields are as before, and nothing was called. *)
Lemma set_shadow_rejected (ext : Externals) (cls : WidgetClass) (w : Widget)
    (enabled : bool) (color : option PyVal) (position : option string) (offset : Q) :
  let r := set_shadow ext cls enabled color position offset w in
  outcome r <> Ret tt ->
  (exists msg, outcome r = Raise (AssertionError msg)) /\
  trace r = [] /\
  _shadow (final r) = enabled /\
  _shadow_color (final r) =
    match color with
    | Some c => if assert_color ext c then c else _shadow_color w
    | None => _shadow_color w
    end /\
  _shadow_position (final r) =
    match position with
    | Some p => if shadow_color_ok ext color && assert_position ext (VStr p)
                then p else _shadow_position w
    | None => _shadow_position w
    end /\
  _shadow_offset (final r) = _shadow_offset w /\
  _shadow_tuple (final r) = _shadow_tuple w /\
  same_but_shadow w (final r).
Proof.
  cbn zeta. intros H.
  assert (C : shadow_color_ok ext color && shadow_position_ok ext position
              && Qlt_bool 0 offset = false).
  { destruct (_ && _ && _) eqn:E; [| reflexivity].
    exfalso. apply H. apply set_shadow_returns. exact E. }
  clear H. revert C.
  unfold set_shadow, shadow_color_ok, shadow_position_ok, same_but_shadow.
  split_state.
  destruct color as [c|]; [destruct (assert_color ext c) eqn:Ec |];
  (destruct position as [p|]; [destruct (assert_position ext (VStr p)) eqn:Ep |]);
  destruct (Qlt_bool 0 offset) eqn:Eo; weval; try discriminate;
  rewrite ?Ec, ?Ep, ?Eo; weval; intros _; repeat split; eauto.
Qed.


(** ** Callbacks *)

(** The value-less [get_value] of [Widget]. *)
Lemma get_value_default (cls : WidgetClass) (w : Widget) :
  get_value_override cls = None ->
  get_value cls w =
    mkRun (Raise (ValueError (class_name w ++ "(" ++ _id w ++ ") does not accept value")))
          w [].
Proof. intros H. unfold get_value. msimpl. rewrite H. reflexivity. Qed.

(** [get_value] leaves the widget as it is and calls nothing. *)
Lemma get_value_pure (cls : WidgetClass) (w : Widget) :
  final (get_value cls w) = w /\ trace (get_value cls w) = [].
Proof.
  unfold get_value. msimpl. destruct (get_value_override cls) as [g|]; [| auto].
  destruct (g w); auto.
Qed.

Lemma apply_trace (ext : Externals) (cls : WidgetClass) (w : Widget) (args : list PyVal) :
  final (apply ext cls args w) = w /\
  trace (apply ext cls args w) =
    if readonly w then []
    else match _on_return w, callback_args cls w args with
         | Some f, Some a => [Call OnReturn f a (_kwargs w)]
         | _, _ => []
         end.
Proof.
  unfold apply, callback_args, insert_value, get_value. msimpl.
  destruct (readonly w); [auto |].
  destruct (_on_return w) as [f|]; [| auto]. msimpl.
  destruct (get_value_override cls) as [g|]; msimpl; [| auto].
  destruct (g w) as [v | []]; msimpl; auto.
Qed.

Lemma change_trace (ext : Externals) (cls : WidgetClass) (w : Widget) (args : list PyVal) :
  final (change ext cls args w) = w /\
  trace (change ext cls args w) =
    if readonly w then []
    else match _on_change w, callback_args cls w args with
         | Some f, Some a => [Call OnChange f a (_kwargs w)]
         | _, _ => []
         end.
Proof.
  unfold change, callback_args, insert_value, get_value. msimpl.
  destruct (readonly w); [auto |].
  destruct (_on_change w) as [f|]; [| auto]. msimpl.
  destruct (get_value_override cls) as [g|]; msimpl; [| auto].
  destruct (g w) as [v | []]; msimpl; auto.
Qed.

(** C3: [apply] (and [change]) call the on-return (on-change) callback with
    the value, the arguments of the call, the arguments of the widget and
    its keyword arguments; the value is there when [get_value] returns one
    and left out when it raises [ValueError], which the [get_value] of a
    value-less widget does, with the name of the class and the id. With
    [readonly] set both return at once: nothing is called and the widget is
    as it was. *)
Theorem apply_change_callback_contract (ext : Externals) (cls : WidgetClass)
    (w : Widget) (args : list PyVal) :
  (readonly w = true ->
   apply ext cls args w = mkRun (Ret VNone) w [] /\
   change ext cls args w = mkRun (Ret VNone) w []) /\
  (get_value_override cls = None ->
   outcome (get_value cls w) =
     Raise (ValueError (class_name w ++ "(" ++ get_id w ++ ") does not accept value"))) /\
  (readonly w = false ->
   forall f : Callback,
     (_on_return w = Some f ->
      (forall v, outcome (get_value cls w) = Ret v ->
         trace (apply ext cls args w) =
           [Call OnReturn f (v :: args ++ _args w) (_kwargs w)]) /\
      (forall msg, outcome (get_value cls w) = Raise (ValueError msg) ->
         trace (apply ext cls args w) =
           [Call OnReturn f (args ++ _args w) (_kwargs w)])) /\
     (_on_change w = Some f ->
      (forall v, outcome (get_value cls w) = Ret v ->
         trace (change ext cls args w) =
           [Call OnChange f (v :: args ++ _args w) (_kwargs w)]) /\
      (forall msg, outcome (get_value cls w) = Raise (ValueError msg) ->
         trace (change ext cls args w) =
           [Call OnChange f (args ++ _args w) (_kwargs w)]))).
Proof.
  split; [| split].
  - intros R. unfold apply, change. msimpl. rewrite R. auto.
  - intros H. rewrite (get_value_default cls w H). reflexivity.
  - intros R f.
    destruct (apply_trace ext cls w args) as [_ Ta].
    destruct (change_trace ext cls w args) as [_ Tc].
    rewrite R in Ta, Tc. unfold callback_args in *.
    split; intros Hf; rewrite Hf in *; split.
    + intros v Hv. rewrite Hv in Ta. exact Ta.
    + intros msg Hm. rewrite Hm in Ta. exact Ta.
    + intros v Hv. rewrite Hv in Tc. exact Tc.
    + intros msg Hm. rewrite Hm in Tc. exact Tc.
Qed.

(** ** Button.update *)

Import button.

Lemma padded_arith (a p q : Z) :
  py_int (inject_Z a - (inject_Z (p * 1) + inject_Z 0 / 2)) = a - p /\
  py_int (inject_Z a + (inject_Z (p * 1) + inject_Z 0 / 2)
                     + (inject_Z (q * 1) + inject_Z 0 / 2)) = a + p + q.
Proof.
  split; apply py_int_Qeq; unfold Qeq; cbn; lia.
Qed.

Lemma get_rect_default (cls : WidgetClass) (w : Widget) :
  get_rect cls None true true w =
    mkRun (Ret (padded_rect (final (_render cls w)))) (final (_render cls w)) [].
Proof.
  unfold get_rect, padded_rect, get_padding, b2z.
  mrun; cbn [fst snd];
    repeat match goal with
           | |- context [py_int (inject_Z ?a - _)] =>
               rewrite (proj1 (padded_arith a _ 0))
           | |- context [py_int (inject_Z ?a + (inject_Z (?p * 1) + _) + (inject_Z (?q * 1) + _))] =>
               rewrite (proj2 (padded_arith a p q))
           end; reflexivity.
Qed.

(** An [apply()] of a Button that is not readonly. *)
Lemma apply_button (ext : Externals) (render : Widget -> RenderOut) (w : Widget) :
  readonly w = false ->
  exists v, apply ext (Button_class render) [] w = mkRun (Ret v) w (apply_effects w).
Proof.
  intros R. unfold apply, apply_effects, insert_value, get_value. msimpl. rewrite R.
  destruct (_on_return w) as [f|]; msimpl; eauto.
Qed.

Lemma bind_run {S A B} (m : M S A) (k : A -> M S B) (s s1 : S) (a : A)
    (t1 : list Effect) :
  m s = mkRun (Ret a) s1 t1 ->
  bind m k s = mkRun (outcome (k a s1)) (final (k a s1)) (t1 ++ trace (k a s1))%list.
Proof.
  intros H. unfold bind. rewrite H. destruct (k a s1); reflexivity.
Qed.

(** One pass of the loop on a Button that is not readonly and has a Menu. *)
Lemma update_event_run (ext : Externals) (render : Widget -> RenderOut)
    (w : Widget) (m : Menu) (rect : Rect) (event : Event) (updated : bool) :
  readonly w = false ->
  _menu w = Some m ->
  update_event ext render rect event updated w =
    mkRun (Ret (updated || fires ext w rect event)) w (event_effects ext w rect event).
Proof.
  intros R Hm. destruct (apply_button ext render w R) as [v Ha].
  unfold update_event, event_effects, fires, get_menu.
  Opaque apply.
  destruct event as [key | b | pos | x y | ty]; msimpl; rewrite ?Hm; msimpl;
    destruct (_joystick_enabled w), (_mouse_enabled w), (_touchscreen_enabled w);
    msimpl; rewrite ?Hm, ?orb_false_r; msimpl;
    repeat match goal with
           | |- context [if ?c then _ else _] => destruct c; msimpl
           end;
    rewrite ?Ha, ?orb_true_r, ?orb_false_r; cbn; rewrite ?app_nil_r; reflexivity.
  Transparent apply.
Qed.

Lemma update_events_run (ext : Externals) (render : Widget -> RenderOut)
    (w : Widget) (m : Menu) (rect : Rect) (events : list Event) (updated : bool) :
  readonly w = false ->
  _menu w = Some m ->
  update_events ext render rect events updated w =
    mkRun (Ret (updated || existsb (fires ext w rect) events)) w
          (flat_map (event_effects ext w rect) events).
Proof.
  intros R Hm. revert updated.
  induction events as [| e events IH]; intros updated; cbn.
  - rewrite orb_false_r. reflexivity.
  - rewrite (bind_run _ _ _ _ _ _ (update_event_run ext render w m rect e updated R Hm)).
    rewrite IH. cbn. rewrite orb_assoc. reflexivity.
Qed.

Lemma for_each_emit {S A} (l : list A) (f : A -> S -> Effect) (s : S) :
  for_each l (fun a => let* s := get in emit (f a s)) s =
    mkRun (Ret tt) s (map (fun a => f a s) l).
Proof.
  induction l as [| a l IH]; [reflexivity |].
  cbn [for_each map]. unfold bind at 1. unfold bind at 1. cbn.
  rewrite IH. reflexivity.
Qed.

Lemma apply_update_callbacks_run (w : Widget) :
  readonly w = false ->
  apply_update_callbacks w = mkRun (Ret tt) w (update_effects w).
Proof.
  intros R. unfold apply_update_callbacks, update_effects.
  unfold bind at 1. cbn. rewrite R.
  destruct (_update_callbacks w) as [| c cs]; [reflexivity |].
  cbn [length Nat.eqb orb].
  rewrite (for_each_emit (map snd (c :: cs))
             (fun callback w => Call OnUpdate callback [VWidget (_id w); menu_ref (_menu w)] [])).
  reflexivity.
Qed.

(** The on-return calls among the calls of the events: one for each event
    that fires, when the Button has an on-return callback. *)
Lemma calls_of_events (ext : Externals) (w : Widget) (rect : Rect) (events : list Event) :
  length (calls_of OnReturn (flat_map (event_effects ext w rect) events)) =
    match _on_return w with
    | Some _ => length (List.filter (fires ext w rect) events)
    | None => 0%nat
    end.
Proof.
  unfold calls_of.
  induction events as [| e events IH]; cbn.
  - destruct (_on_return w); reflexivity.
  - rewrite List.filter_app, length_app, IH.
    unfold event_effects, apply_effects.
    destruct e; cbn;
      repeat match goal with
             | |- context [if ?c then _ else _] => destruct c; cbn
             | |- context [match _on_return w with _ => _ end] =>
                 destruct (_on_return w); cbn
             end; try reflexivity; try discriminate.
Qed.

Lemma calls_of_update_effects (w : Widget) :
  calls_of OnReturn (update_effects w) = [].
Proof.
  unfold calls_of, update_effects.
  induction (map snd (_update_callbacks w)); cbn; auto.
Qed.

(** What the [_render] of [get_rect] keeps. *)
Lemma _render_keeps (cls : WidgetClass) (w : Widget) :
  let w1 := final (_render cls w) in
  readonly w1 = readonly w /\ _on_return w1 = _on_return w /\
  (forall m, _menu w = Some m ->
     exists m1, _menu w1 = Some m1 /\ menu_id m1 = menu_id m /\
                window_size m1 = window_size m).
Proof.
  cbn zeta. mrun; repeat split; try reflexivity; intros m' H;
    try discriminate; first [injection H as <- | subst];
    eexists; repeat split.
Qed.


(** X18: without a Menu, a finger-up on a Button that is not readonly and
    whose touchscreen is enabled makes [update] raise [AttributeError]:
    [get_menu()] is [None]. *)
Lemma update_finger_without_menu (ext : Externals) (render : Widget -> RenderOut)
    (w : Widget) (x y : Q) :
  readonly w = false -> _menu w = None -> _touchscreen_enabled w = true ->
  exists msg, outcome (update ext render [FINGERUP x y] w) = Raise (AttributeError msg).
Proof.
  intros R Hm T.
  unfold update, update_events, update_event, get_rect, get_padding, b2z.
  revert R Hm T. mrun; intros; subst; try discriminate; eauto.
Qed.

(** ** Theme.validate *)

Import themes.

Lemma within_ret ks {A} (a : A) : assigns_within ks (ret a).
Proof. intros t. cbn. auto. Qed.

Lemma within_raise ks {A} (e : Exn) : assigns_within ks (@raise Theme A e).
Proof. intros t. cbn. auto. Qed.

Lemma within_assert ks (c : bool) (msg : string) : assigns_within ks (assert c msg).
Proof. destruct c; [apply within_ret | apply within_raise]. Qed.

Lemma within_lift ks {A} (o : Outcome A) : assigns_within ks (lift o).
Proof. destruct o; [apply within_ret | apply within_raise]. Qed.

Lemma within_attr ks (k : string) : assigns_within ks (attr k).
Proof. intros t. unfold attr. destruct (t !! k); cbn; auto. Qed.

Lemma within_setattr ks (k : string) (v : PyVal) :
  In k ks -> assigns_within ks (setattr k v).
Proof.
  intros H t. cbn. split; [reflexivity |]. intros k' H'.
  apply lookup_insert_ne. intros ->. contradiction.
Qed.

Lemma within_bind ks {A B} (m : M Theme A) (k : A -> M Theme B) :
  assigns_within ks m -> (forall a, assigns_within ks (k a)) ->
  assigns_within ks (bind m k).
Proof.
  intros Hm Hk t. unfold bind.
  destruct (Hm t) as [T1 F1].
  destruct (m t) as [[a | e] s1 t1]; cbn in *.
  - destruct (Hk a s1) as [T2 F2].
    destruct (k a s1) as [o s2 t2]; cbn in *. subst. split; [reflexivity |].
    intros k' H. rewrite F2, F1; auto.
  - auto.
Qed.

Lemma within_for_each ks {A} (l : list A) (body : A -> M Theme unit) :
  (forall a, assigns_within ks (body a)) -> assigns_within ks (for_each l body).
Proof.
  intros H. induction l as [| a l IH]; cbn.
  - apply within_ret.
  - apply within_bind; auto.
Qed.

Ltac within :=
  repeat first
    [ apply within_ret | apply within_raise | apply within_assert
    | apply within_lift | apply within_attr
    | apply within_setattr; cbn; tauto
    | apply within_for_each; intros
    | apply within_bind; [| intros]
    | match goal with
      | |- assigns_within _ (if ?c then _ else _) => destruct c
      | |- assigns_within _ (match ?x with _ => _ end) => destruct x
      end ].

(** [validate] assigns only the attributes of [validate_assigns], whether
    it returns or raises, and calls nothing. *)
Lemma validate_assigns_within (ext : Externals) :
  assigns_within validate_assigns (validate ext).
Proof.
  unfold validate, assert_attr, format_attr, tuple_attr, assert_xy_ge0,
    assert_gt0, assert_ge0, validate_assigns.
  within.
Qed.

(** With [_disable_validation] set, [validate] does nothing. *)
Lemma validate_disabled (ext : Externals) (t : Theme) :
  t !! "_disable_validation" = Some (VBool true) ->
  validate ext t = mkRun (Ret tt) t [].
Proof.
  intros H. unfold validate. unfold bind at 1. unfold attr at 1. rewrite H.
  reflexivity.
Qed.


(** * Further properties of the Widget *)

(** ** The render cache *)

(** [_render_hash_changed] as one test on the stored hash. *)
Lemma _render_hash_changed_run (ext : Externals) (draw : Z) (args : list PyVal)
    (w : Widget) :
  _render_hash_changed ext draw args w =
    let h := _hash_variables ext draw args in
    if negb (h =? _last_render_hash w) || (_last_render_hash w =? 0)
    then mkRun (Ret true) (upd__last_render_hash h w) []
    else mkRun (Ret false) w [].
Proof.
  unfold _render_hash_changed. msimpl.
  destruct (negb _ || _); reflexivity.
Qed.

Lemma _hash_variables_hash (ext : Externals) (draw : Z) (args : list PyVal) :
  py_hash ext args <> 0 -> _hash_variables ext draw args = py_hash ext args.
Proof.
  intros H. unfold _hash_variables. apply Z.eqb_neq in H. rewrite H. reflexivity.
Qed.

(** X1: [_render_hash_changed] is a cache on the hash of its arguments.
    After a call with arguments whose hash is not zero, the stored hash is
    that hash; a second call with the same arguments reports no change and
    leaves the widget as it is, whatever the random draw; a call with
    arguments of another hash reports a change. *)
Theorem _render_hash_changed_caches (ext : Externals) (draw draw' : Z)
    (args args' : list PyVal) (w : Widget) :
  py_hash ext args <> 0 ->
  let r1 := _render_hash_changed ext draw args w in
  _last_render_hash (final r1) = py_hash ext args /\
  _render_hash_changed ext draw' args (final r1) = mkRun (Ret false) (final r1) [] /\
  (py_hash ext args' <> py_hash ext args -> py_hash ext args' <> 0 ->
   outcome (_render_hash_changed ext draw' args' (final r1)) = Ret true /\
   _last_render_hash (final (_render_hash_changed ext draw' args' (final r1)))
     = py_hash ext args').
Proof.
  intros H. cbn zeta.
  rewrite !_render_hash_changed_run. cbv zeta.
  rewrite !(_hash_variables_hash ext _ args H).
  set (w1 := final _).
  assert (E1 : _last_render_hash w1 = py_hash ext args).
  { unfold w1.
    destruct (negb (py_hash ext args =? _last_render_hash w)
              || (_last_render_hash w =? 0)) eqn:E; cbn.
    - destruct w; reflexivity.
    - apply orb_false_elim in E. destruct E as [E _].
      apply negb_false_iff, Z.eqb_eq in E. congruence. }
  apply Z.eqb_neq in H.
  split; [exact E1 |]. split.
  - rewrite E1, Z.eqb_refl, H. reflexivity.
  - intros Hd Hn. rewrite (_hash_variables_hash ext _ args' Hn), E1.
    apply Z.eqb_neq in Hd. rewrite Hd. cbn. split; [reflexivity |].
    destruct w1; reflexivity.
Qed.

(** ** Selection *)

(** X2: [select] with [update_menu] on a widget that has no Menu raises
    at its last statement, after the selection was made: the widget has the
    status asked for, the focus (or blur) was given and the on-select
    callback was called. *)
Theorem select_update_menu_detached (cls : WidgetClass) (w : Widget) (now : Q)
    (status : bool) :
  is_selectable w = true -> _menu w = None ->
  let r := select cls now status true w in
  outcome r = Raise (AssertionError "") /\
  _selected (final r) = status /\
  trace r =
    ((if status then Focus else Blur) ::
     match _on_select w with
     | Some f => [Call OnSelect f [VBool status; VWidget (_id w); VNone] []]
     | None => []
     end).
Proof.
  intros Hs Hm. cbn zeta. unfold select. split_state. subst.
  destruct status; mrun; mdone.
Qed.

(** ** Scale, max width and max height: rejected calls *)

(** X3: [scale] checks its factors first: with a factor that is not
    positive it raises and the widget is as it was. [set_max_width] and
    [set_max_height] check their size after they have switched all three
    transforms off: a rejected call leaves none of them active. A width of
    zero is accepted by [set_max_width]; a height of zero is rejected by
    [set_max_height]. *)
Theorem rejected_transform_resets (cls : WidgetClass) (w : Widget) (width height : Q)
    (flag smooth : bool) :
  (Qlt_bool 0 width && Qlt_bool 0 height = false ->
   scale cls width height smooth w =
     mkRun (Raise (AssertionError "width and height must be greater than zero")) w []) /\
  (Qle_bool 0 width = false ->
   let r := set_max_width cls (Some width) flag smooth w in
   outcome r = Raise (AssertionError "width must be equal or greater than zero") /\
   trace r = [] /\ active_transforms (final r) = 0%nat) /\
  (Qlt_bool 0 height = false ->
   let r := set_max_height cls (Some height) flag smooth w in
   outcome r = Raise (AssertionError "height must be greater than zero") /\
   trace r = [] /\ active_transforms (final r) = 0%nat) /\
  outcome (set_max_width cls (Some 0%Q) flag smooth w) = Ret tt /\
  outcome (set_max_height cls (Some 0%Q) flag smooth w)
    = Raise (AssertionError "height must be greater than zero").
Proof.
  split; [| split; [| split; [| split]]].
  - intros V. unfold scale, bind, assert. rewrite V. reflexivity.
  - intros V. cbn zeta. transform_run. mrun; repeat split; congruence.
  - intros V. cbn zeta. transform_run. mrun; repeat split; congruence.
  - transform_run. mrun; try reflexivity;
      match goal with H : Qle_bool 0 0 = false |- _ => discriminate H end.
  - transform_run. mrun; try reflexivity;
      match goal with H : Qlt_bool 0 0 = true |- _ => discriminate H end.
Qed.

(** ** The rect *)

Lemma inflate_arith (a p q d : Z) :
  py_int (inject_Z a + (inject_Z p + inject_Z d / 2) + (inject_Z q + inject_Z d / 2))
    = a + p + q + d.
Proof.
  apply py_int_Qeq. rewrite !inject_Z_plus. field.
Qed.

Lemma inflate_even_arith (a p h : Z) :
  py_int (inject_Z a - (inject_Z p + inject_Z (2 * h) / 2)) = a - p - h.
Proof.
  apply py_int_Qeq. unfold Z.sub. rewrite !inject_Z_plus, !inject_Z_opp, inject_Z_mult.
  field.
Qed.


(** ** Callbacks *)

(** X5: [apply] and [change] catch the [ValueError] of [get_value] and
    nothing else: when [get_value] raises another exception, they raise it,
    the callback is not called and the widget is as it was. *)
Theorem apply_propagates_other_errors (ext : Externals) (cls : WidgetClass)
    (w : Widget) (args : list PyVal) (g : Widget -> Outcome PyVal) (e : Exn) :
  readonly w = false ->
  get_value_override cls = Some g ->
  g w = Raise e ->
  (forall msg, e <> ValueError msg) ->
  (_on_return w <> None -> apply ext cls args w = mkRun (Raise e) w []) /\
  (_on_change w <> None -> change ext cls args w = mkRun (Raise e) w []).
Proof.
  intros R G E N.
  split; intros C; unfold apply, change, insert_value, get_value; msimpl; rewrite R.
  - destruct (_on_return w) as [f|]; [| contradiction]. msimpl. rewrite G, E. msimpl.
    destruct e; try reflexivity. exfalso. eapply N. reflexivity.
  - destruct (_on_change w) as [f|]; [| contradiction]. msimpl. rewrite G, E. msimpl.
    destruct e; try reflexivity. exfalso. eapply N. reflexivity.
Qed.

(** ** Padding *)

Ltac padding_run := unfold set_padding, upd__padding, get_padding.

Ltac padding_done :=
  rewrite ?Z.leb_le in *;
  first [ split; [reflexivity |]; split; [eauto | reflexivity]
        | repeat split; assumption ].


(** ** Update callbacks *)

Lemma filter_fresh (callback_id : string) (l : list (string * Callback)) (c : Callback) :
  existsb (fun kv => String.eqb (fst kv) callback_id) l = false ->
  List.filter (fun kv => negb (String.eqb (fst kv) callback_id))
              (l ++ [(callback_id, c)]) = l.
Proof.
  induction l as [| [k v] l IH]; cbn.
  - rewrite String.eqb_refl. reflexivity.
  - intros H. apply orb_false_elim in H. destruct H as [H1 H2].
    rewrite H1. cbn. rewrite (IH H2). reflexivity.
Qed.

Lemma existsb_app_last (callback_id : string) (l : list (string * Callback)) (c : Callback) :
  existsb (fun kv => String.eqb (fst kv) callback_id) (l ++ [(callback_id, c)]) = true.
Proof.
  rewrite existsb_app. cbn. rewrite String.eqb_refl, orb_true_r. reflexivity.
Qed.

(** X7: an update callback added under an id the widget does not have yet
    is the last of its callbacks: [apply_update_callbacks] calls it after
    the others. [remove_update_callback] with that id gives back the widget
    as it was before the callback was added; with an id the widget does not
    have, it raises [IndexError] and changes nothing. *)
Theorem update_callback_round_trip (w : Widget) (callback_id : string) (c : Callback) :
  has_update_callback callback_id w = false ->
  let r := add_update_callback callback_id c w in
  outcome r = Ret callback_id /\
  _update_callbacks (final r) = (_update_callbacks w ++ [(callback_id, c)])%list /\
  (readonly w = false ->
   trace (apply_update_callbacks (final r)) =
     (trace (apply_update_callbacks w) ++
      [Call OnUpdate c [VWidget (_id w); menu_ref (_menu w)] []])%list) /\
  remove_update_callback callback_id (final r) = mkRun (Ret tt) w [] /\
  (exists msg,
     remove_update_callback callback_id w = mkRun (Raise (IndexError msg)) w []).
Proof.
  intros H. cbn zeta. unfold has_update_callback in H.
  assert (F : final (add_update_callback callback_id c w) =
              upd__update_callbacks (_update_callbacks w ++ [(callback_id, c)])%list w).
  { unfold add_update_callback. msimpl. rewrite H. reflexivity. }
  split; [reflexivity |]. split; [rewrite F; reflexivity |]. split; [| split].
  - intros R. rewrite F.
    assert (R' : readonly (upd__update_callbacks
                             (_update_callbacks w ++ [(callback_id, c)])%list w) = false)
      by (destruct w; exact R).
    rewrite (apply_update_callbacks_run w R), (apply_update_callbacks_run _ R').
    unfold update_effects. destruct w; cbn. rewrite !map_app. reflexivity.
  - rewrite F. unfold remove_update_callback, has_update_callback. msimpl.
    rewrite existsb_app_last. cbn. rewrite (filter_fresh _ _ _ H).
    destruct w; reflexivity.
  - unfold remove_update_callback, has_update_callback. msimpl. rewrite H. cbn. eauto.
Qed.

(** ** Pending events *)

(** X8: [_merge_events] returns the events it is given followed by the
    pending events of the widget, in the order [_add_event] added them, and
    leaves no pending event; a second merge returns its argument as it is.
    Nothing else of the widget changes. *)
Theorem _merge_events_appends_and_clears (w : Widget) (events : list Event)
    (event : Event) :
  let r := _merge_events events w in
  r = mkRun (Ret (events ++ _events w)%list)
            (if (length (_events w) =? 0)%nat then w else upd__events [] w) [] /\
  _events (final r) = [] /\
  (forall events', _merge_events events' (final r) = mkRun (Ret events') (final r) []) /\
  outcome (_merge_events events (final (_add_event event w)))
    = Ret (events ++ _events w ++ [event])%list.
Proof.
  cbn zeta.
  assert (E : _merge_events events w =
              mkRun (Ret (events ++ _events w)%list)
                (if (length (_events w) =? 0)%nat then w else upd__events [] w) []).
  { unfold _merge_events. msimpl. destruct (_events w) as [| e es] eqn:Ev; cbn.
    - rewrite app_nil_r. reflexivity.
    - reflexivity. }
  assert (N : _events (final (_merge_events events w)) = []).
  { rewrite E. cbn. destruct (_events w) eqn:Ev; cbn; [exact Ev | reflexivity]. }
  split; [exact E |]. split; [exact N |]. split.
  - revert N. generalize (final (_merge_events events w)). intros w1 N events'.
    unfold _merge_events. msimpl. rewrite N. reflexivity.
  - unfold _merge_events, _add_event. msimpl.
    destruct (_events w); reflexivity.
Qed.

(** ** Attributes *)

(** The three readers and writers as one lookup each. *)
Lemma has_attribute_run (a : Attributes) (key : string) :
  has_attribute key a =
    mkRun (Ret (match a !! key with Some _ => true | None => false end)) a [].
Proof. reflexivity. Qed.

Lemma get_attribute_run (a : Attributes) (key : string) (default : PyVal) :
  get_attribute key default a =
    mkRun (Ret (match a !! key with Some v => v | None => default end)) a [].
Proof.
  unfold get_attribute, has_attribute. msimpl. destruct (a !! key) eqn:E; cbn.
  - rewrite E. reflexivity.
  - reflexivity.
Qed.

Lemma remove_attribute_run (a : Attributes) (key : string) :
  remove_attribute key a =
    match a !! key with
    | Some _ => mkRun (Ret tt) (delete key a) []
    | None =>
        mkRun (Raise (IndexError ("attribute " ++ dquote ++ key ++ dquote
                                  ++ " does not exists on widget"))) a []
    end.
Proof.
  unfold remove_attribute, has_attribute. msimpl. destruct (a !! key); reflexivity.
Qed.

(** X9: the attribute dict. After [set_attribute(key, value)],
    [has_attribute(key)] is true and [get_attribute(key)] returns [value],
    whatever the default, and the other keys are as before;
    [get_attribute] of a key that is not there returns the default and
    stores nothing; [remove_attribute] of a key that is not there raises
    [IndexError] and leaves the dict as it is; after a [remove_attribute]
    the key is not there, and setting then removing a key that was not
    there gives back the dict. *)
Theorem attribute_round_trip (a : Attributes) (key : string) (value default : PyVal) :
  let a1 := final (set_attribute key value a) in
  has_attribute key a1 = mkRun (Ret true) a1 [] /\
  get_attribute key default a1 = mkRun (Ret value) a1 [] /\
  (forall key', key' <> key ->
     get_attribute key' default a1 = mkRun (outcome (get_attribute key' default a)) a1 []) /\
  (a !! key = None ->
   get_attribute key default a = mkRun (Ret default) a [] /\
   (exists msg, remove_attribute key a = mkRun (Raise (IndexError msg)) a []) /\
   final (remove_attribute key a1) = a) /\
  outcome (remove_attribute key a1) = Ret tt /\
  outcome (has_attribute key (final (remove_attribute key a1))) = Ret false.
Proof.
  cbn zeta. unfold set_attribute. cbn [final modify].
  rewrite !has_attribute_run, !get_attribute_run, !remove_attribute_run.
  rewrite !lookup_insert_eq. cbn [final outcome].
  rewrite lookup_delete_eq.
  split; [reflexivity |]. split; [reflexivity |]. split; [| split; [| split]].
  - intros key' N. rewrite get_attribute_run, get_attribute_run.
    rewrite lookup_insert_ne by congruence. reflexivity.
  - intros N. rewrite N. split; [reflexivity |]. split; [eauto |].
    apply delete_insert_id. exact N.
  - reflexivity.
  - reflexivity.
Qed.

(** * Further properties of the Theme *)

(** ** The two formatters *)

(** X10: [_vec_to_tuple] returns exactly for a tuple or a list whose
    length is the one asked for, when one is asked for; what it returns is
    the tuple of the same items, on which it is the identity. Anything else
    is a [ValueError]. *)
Theorem _vec_to_tuple_result (obj : PyVal) (check_length : nat) :
  match _vec_to_tuple obj check_length with
  | Ret v =>
      exists l, (obj = VTuple l \/ obj = VList l) /\ v = VTuple l /\
                (check_length <> 0%nat -> length l = check_length) /\
                _vec_to_tuple v check_length = Ret v
  | Raise e =>
      (exists msg, e = ValueError msg) /\
      (is_tuple_or_list obj = false \/
       exists l, (obj = VTuple l \/ obj = VList l) /\
                 check_length <> 0%nat /\ length l <> check_length)
  end.
Proof.
  assert (C : forall l : list PyVal,
            (0 <? check_length)%nat && negb (length l =? check_length)%nat = false ->
            check_length <> 0%nat -> length l = check_length).
  { intros l H N. apply andb_false_iff in H. destruct H as [H | H].
    - apply Nat.ltb_ge in H. lia.
    - apply negb_false_iff, Nat.eqb_eq in H. exact H. }
  assert (D : forall l : list PyVal,
            (0 <? check_length)%nat && negb (length l =? check_length)%nat = true ->
            check_length <> 0%nat /\ length l <> check_length).
  { intros l H. apply andb_true_iff in H. destruct H as [H1 H2].
    apply Nat.ltb_lt in H1. apply negb_true_iff, Nat.eqb_neq in H2. lia. }
  destruct obj as [| b | z | q | s | l | l | n | c | i | i | n]; cbn;
    try (split; [eauto | left; reflexivity]).
  - destruct (_ && _) eqn:E.
    + split; [eauto |]. right. exists l. split; [auto | apply D, E].
    + exists l. cbn. rewrite E. repeat split; auto.
  - destruct (_ && _) eqn:E.
    + split; [eauto |]. right. exists l. split; [auto | apply D, E].
    + exists l. cbn. rewrite E. repeat split; auto.
Qed.

(** X11: [_format_opacity] leaves [None] and an image as they are, and
    rejects with [ValueError] what is neither of them nor a tuple or list,
    and with [AssertionError] a tuple or list the color check rejects. A
    color of three channels becomes the tuple of the three with an alpha of
    255, a color of four channels the tuple of the four. Formatting what it
    returned gives the same again, as long as the color check accepts it. *)
Theorem _format_opacity_result (ext : Externals) (color : PyVal) :
  match _format_opacity ext color with
  | Ret c =>
      match color with
      | VNone | VImage _ => c = color
      | VTuple l | VList l =>
          assert_color ext color = true /\
          (forall r g b, l = [r; g; b] -> c = VTuple [r; g; b; VInt 255]) /\
          (length l = 4%nat -> c = VTuple l) /\
          (length l <> 3%nat -> length l <> 4%nat -> c = color)
      | _ => False
      end /\
      ((is_tuple_or_list c = true -> assert_color ext c = true) ->
       _format_opacity ext c = Ret c)
  | Raise e =>
      match color with
      | VNone | VImage _ => False
      | VTuple _ | VList _ =>
          assert_color ext color = false /\ exists msg, e = AssertionError msg
      | _ => exists msg, e = ValueError msg
      end
  end.
Proof.
  assert (I : forall c l, (c = VTuple l \/ c = VList l) ->
            assert_color ext c = true ->
            match (if (length l =? 4)%nat then Ret (VTuple l)
                   else if (length l =? 3)%nat then
                     match l with
                     | c0 :: c1 :: c2 :: _ => Ret (VTuple [c0; c1; c2; VInt 255])
                     | _ => Ret c
                     end
                   else Ret c) with
            | Ret c' =>
                ((forall r g b, l = [r; g; b] -> c' = VTuple [r; g; b; VInt 255]) /\
                 (length l = 4%nat -> c' = VTuple l) /\
                 (length l <> 3%nat -> length l <> 4%nat -> c' = c)) /\
                ((is_tuple_or_list c' = true -> assert_color ext c' = true) ->
                 _format_opacity ext c' = Ret c')
            | Raise _ => False
            end).
  { intros c l Hc Ha.
    destruct l as [| c0 [| c1 [| c2 [| c3 [| c4 l]]]]]; cbn -[_format_opacity].
    1, 2, 3, 6:
      (split; [repeat split; intros; try discriminate; try reflexivity; cbn in *; lia |];
       intros _; destruct Hc as [-> | ->]; cbn; rewrite Ha; reflexivity).
    - split.
      + repeat split; intros; try discriminate; try (cbn in *; lia).
        injection H as <- <- <-. reflexivity.
      + intros H. cbn. rewrite (H eq_refl). reflexivity.
    - split.
      + repeat split; intros; try discriminate; try reflexivity; cbn in *; lia.
      + intros H. cbn. rewrite (H eq_refl). reflexivity. }
  destruct color as [| b | z | q | s | l | l | n | c | i | i | n].
  1, 8: (cbn; split; [reflexivity | intros _; reflexivity]).
  1, 2, 3, 4, 7, 8, 9, 10: (cbn; eauto).
  - unfold _format_opacity. destruct (assert_color ext (VTuple l)) eqn:Ha; [| eauto].
    specialize (I (VTuple l) l (or_introl eq_refl) Ha).
    destruct (if (length l =? 4)%nat then _ else _); [| contradiction].
    destruct I as [I1 I2]. split; [split; [reflexivity | exact I1] | exact I2].
  - unfold _format_opacity. destruct (assert_color ext (VList l)) eqn:Ha; [| eauto].
    specialize (I (VList l) l (or_intror eq_refl) Ha).
    destruct (if (length l =? 4)%nat then _ else _); [| contradiction].
    destruct I as [I1 I2]. split; [split; [reflexivity | exact I1] | exact I2].
Qed.

(** ** What [validate] leaves *)

Lemma hoare_bind {A B} (P Q R : Theme -> Prop) (m : M Theme A) (k : A -> M Theme B) :
  hoare P m Q -> (forall a, hoare Q (k a) R) -> hoare P (bind m k) R.
Proof.
  intros Hm Hk t b Hp. unfold bind. specialize (Hm t).
  destruct (m t) as [[a | e] s1 t1]; cbn in *; [| discriminate].
  specialize (Hk a s1 b (Hm a Hp eq_refl)).
  destruct (k a s1) as [o s2 t2]; cbn in *. exact Hk.
Qed.

Lemma apart_In (ks cs vs ps : list string) (k k' : string) :
  apart ks cs vs ps = true -> In k' (cs ++ vs ++ ps) -> In k ks -> k <> k'.
Proof.
  unfold apart. intros H I1 I2 ->. rewrite forallb_forall in H.
  specialize (H k' I2). apply negb_true_iff in H.
  assert (E : existsb (String.eqb k') (cs ++ vs ++ ps) = true).
  { apply existsb_exists. exists k'. split; [exact I1 | apply String.eqb_refl]. }
  congruence.
Qed.

(** A step that assigns none of the attributes dealt with keeps them. *)
Lemma validated_frame {A} (ks cs vs ps : list string) (m : M Theme A) (t : Theme) :
  assigns_within ks m -> apart ks cs vs ps = true ->
  validated cs vs ps t -> validated cs vs ps (final (m t)).
Proof.
  intros W N (Hc & Hv & Hp). destruct (W t) as [_ F].
  assert (K : forall k, In k (cs ++ vs ++ ps) -> final (m t) !! k = t !! k).
  { intros k I. apply F. intros I'. exact (apart_In ks cs vs ps k k N I I' eq_refl). }
  unfold validated, attr_is.
  split; [| split]; intros k I; rewrite K.
  - apply Hc, I.
  - rewrite !in_app_iff. auto.
  - apply Hv, I.
  - rewrite !in_app_iff. auto.
  - apply Hp, I.
  - rewrite !in_app_iff. auto.
Qed.

Lemma hoare_frame {A} (ks cs vs ps : list string) (m : M Theme A) :
  assigns_within ks m -> apart ks cs vs ps = true ->
  hoare (validated cs vs ps) m (validated cs vs ps).
Proof.
  intros W N t a H _. exact (validated_frame ks cs vs ps m t W N H).
Qed.

Lemma hoare_color (k : string) (cs vs ps : list string) (m : M Theme unit) :
  ensures m (attr_is k is_rgba) -> assigns_within [k] m ->
  apart [k] cs vs ps = true ->
  hoare (validated cs vs ps) m (validated (cs ++ [k]) vs ps).
Proof.
  intros E W N t a H O.
  destruct (validated_frame [k] cs vs ps m t W N H) as (Hc & Hv & Hp).
  split; [| split; assumption].
  intros k' I. apply in_app_iff in I. destruct I as [I | [<- | []]].
  - apply Hc, I.
  - exact (E t a O).
Qed.

Lemma hoare_vector (k : string) (cs vs ps : list string) (m : M Theme unit) :
  ensures m (attr_is k is_pair) -> assigns_within [k] m ->
  apart [k] cs vs ps = true ->
  hoare (validated cs vs ps) m (validated cs (vs ++ [k]) ps).
Proof.
  intros E W N t a H O.
  destruct (validated_frame [k] cs vs ps m t W N H) as (Hc & Hv & Hp).
  split; [assumption | split; [| assumption]].
  intros k' I. apply in_app_iff in I. destruct I as [I | [<- | []]].
  - apply Hv, I.
  - exact (E t a O).
Qed.

Lemma hoare_positive (k : string) (cs vs ps : list string) (m : M Theme unit) :
  ensures m (attr_is k is_positive) -> assigns_within [] m ->
  apart [k] cs vs ps = true ->
  hoare (validated cs vs ps) m (validated cs vs (ps ++ [k])).
Proof.
  intros E W N t a H O.
  destruct (validated_frame [] cs vs ps m t W eq_refl H) as (Hc & Hv & Hp).
  split; [assumption | split; [assumption |]].
  intros k' I. apply in_app_iff in I. destruct I as [I | [<- | []]].
  - apply Hp, I.
  - exact (E t a O).
Qed.

Lemma tuple_attr_ensures (k : string) :
  ensures (tuple_attr k 2) (attr_is k is_pair).
Proof.
  intros t a. unfold tuple_attr, attr, setattr, attr_is. msimpl.
  destruct (t !! k) as [v|] eqn:E; cbn; [| discriminate].
  destruct v; cbn; try discriminate.
  - destruct l as [| x [| y [| z l]]]; cbn; try discriminate.
    intros _. rewrite lookup_insert_eq. reflexivity.
  - destruct l as [| x [| y [| z l]]]; cbn; try discriminate.
    intros _. rewrite lookup_insert_eq. reflexivity.
Qed.

Lemma format_attr_ensures (ext : Externals) (k : string) :
  colors_have_3_or_4 (assert_color ext) ->
  ensures (format_attr ext k) (attr_is k is_rgba).
Proof.
  intros Hc t a. unfold format_attr, attr, setattr, attr_is. msimpl.
  destruct (t !! k) as [v|] eqn:E; cbn; [| discriminate].
  destruct v; cbn; try discriminate.
  - intros _. rewrite lookup_insert_eq. reflexivity.
  - destruct (assert_color ext (VTuple l)) eqn:Ha; cbn; [| discriminate].
    specialize (Hc _ Ha). cbn in Hc.
    destruct l as [| c0 [| c1 [| c2 [| c3 [| c4 l]]]]]; cbn in Hc; try lia;
      cbn; intros _; rewrite lookup_insert_eq; reflexivity.
  - destruct (assert_color ext (VList l)) eqn:Ha; cbn; [| discriminate].
    specialize (Hc _ Ha). cbn in Hc.
    destruct l as [| c0 [| c1 [| c2 [| c3 [| c4 l]]]]]; cbn in Hc; try lia;
      cbn; intros _; rewrite lookup_insert_eq; reflexivity.
  - intros _. rewrite lookup_insert_eq. reflexivity.
Qed.

Lemma assert_gt0_ensures (k msg : string) :
  ensures (assert_gt0 k msg) (attr_is k is_positive).
Proof.
  intros t a. unfold assert_gt0, attr, attr_is, is_positive, py_gt0. msimpl.
  destruct (t !! k) as [v|] eqn:E; cbn; [| discriminate].
  destruct (py_num v) as [q|] eqn:N; cbn; [| discriminate].
  destruct (Qlt_bool 0 q) eqn:L; cbn; [| discriminate].
  intros _. rewrite E, N. exact L.
Qed.

(** With the validation enabled or not. *)
Lemma hoare_unless_disabled (body : M Theme unit) (P Q : Theme -> Prop) :
  hoare P body Q ->
  hoare P (let* dv := attr "_disable_validation" in
           if py_truthy dv then ret tt else body)
        (fun t => attr_is "_disable_validation" py_truthy t \/ Q t).
Proof.
  intros H t a Hp. unfold bind, attr, attr_is.
  destruct (t !! "_disable_validation") as [dv|] eqn:E; cbn; [| discriminate].
  destruct (py_truthy dv) eqn:T; cbn.
  - intros _. left. rewrite E. exact T.
  - specialize (H t). destruct (body t) as [o s2 t2]; cbn in *.
    intros Ho. right. exact (H a Hp Ho).
Qed.

(** One step of [validate]: a step that formats a color, makes a vector a
    tuple or checks a size adds its attribute to those dealt with; any
    other step assigns none of them. *)
Ltac validate_step :=
  lazymatch goal with
  | H : colors_have_3_or_4 _ |- hoare _ (format_attr ?e ?k) _ =>
      eapply (hoare_color k);
      [ exact (format_attr_ensures e k H) | unfold format_attr; within
      | vm_compute; reflexivity ]
  | |- hoare _ (tuple_attr ?k 2) _ =>
      eapply (hoare_vector k);
      [ exact (tuple_attr_ensures k) | unfold tuple_attr; within
      | vm_compute; reflexivity ]
  | |- hoare _ (assert_gt0 ?k ?msg) _ =>
      eapply (hoare_positive k);
      [ exact (assert_gt0_ensures k msg) | unfold assert_gt0; within
      | vm_compute; reflexivity ]
  | |- hoare _ _ _ =>
      eapply (hoare_frame ["widget_padding"; "widget_selection_effect"]);
      [ unfold assert_attr, tuple_attr, assert_xy_ge0, assert_ge0; within
      | vm_compute; reflexivity ]
  end.

Lemma validate_hoare (ext : Externals) :
  colors_have_3_or_4 (assert_color ext) ->
  hoare (validated [] [] []) (validate ext)
        (fun t => attr_is "_disable_validation" py_truthy t \/
                  validated theme_colors theme_vectors theme_positive t).
Proof.
  intros Hc. unfold validate. apply hoare_unless_disabled.
  repeat (eapply hoare_bind; [validate_step; fail | intros; cbn [app]]).
  validate_step.
Qed.

(** X12: a theme [validate] has accepted, with the validation enabled and a
    color check that accepts colors of three or four channels only, has
    every color as [None], an image or a tuple with its alpha channel,
    every vector of two numbers as a tuple of two, and every size that
    must be positive greater than zero. *)
Theorem validate_normalises (ext : Externals) (t : Theme) (dv : PyVal) :
  colors_have_3_or_4 (assert_color ext) ->
  t !! "_disable_validation" = Some dv -> py_truthy dv = false ->
  outcome (validate ext t) = Ret tt ->
  let t' := final (validate ext t) in
  (forall k, In k theme_colors -> attr_is k is_rgba t') /\
  (forall k, In k theme_vectors -> attr_is k is_pair t') /\
  (forall k, In k theme_positive -> attr_is k is_positive t').
Proof.
  intros Hc Hd Ht Ho. cbn zeta.
  assert (P : validated [] [] [] t) by (repeat split; intros k []).
  destruct (validate_hoare ext Hc t tt P Ho) as [D | V]; [| exact V].
  exfalso. unfold attr_is in D.
  destruct (validate_assigns_within ext t) as [_ F].
  rewrite F in D.
  - rewrite Hd, Ht in D. discriminate D.
  - vm_compute. intuition discriminate.
Qed.

(** ** The constructor *)

Section Theme_init.

Context (ext : Externals) (is_callable is_type : PyVal -> bool)
        (assert_vector : PyVal -> nat -> bool) (get_xy_margin : PyVal -> PyVal).

Local Abbreviation check_allowed_types :=
  (themes.check_allowed_types ext is_callable is_type assert_vector).
Local Abbreviation _get := (themes._get ext is_callable is_type assert_vector).
Local Abbreviation init_attributes :=
  (themes.init_attributes ext is_callable is_type assert_vector).
Local Abbreviation theme_init :=
  (themes.__init__ ext is_callable is_type assert_vector get_xy_margin).

Ltac split_ifs :=
  repeat match goal with
         | |- context [if ?c then _ else _] => destruct c eqn:?
         end.

(** A [return] inside the loop returns the value. *)
Lemma check_allowed_types_inl (value v : PyVal) (allowed : list AllowedType)
    (others : list PyClass) :
  check_allowed_types value allowed others = Ret (inl v) -> v = value.
Proof.
  revert others. induction allowed as [| valtype rest IH]; intros others; cbn.
  - discriminate.
  - destruct valtype as [s | | c]; split_ifs; intros H;
      first [ discriminate H | exact (IH _ H) | injection H as <-; reflexivity ].
Qed.

(** Classes only: the loop collects them. *)
Lemma check_allowed_types_classes (value : PyVal) (cs others : list PyClass) :
  check_allowed_types value (map TClass cs) others = Ret (inr (others ++ cs)%list).
Proof.
  revert others. induction cs as [| c cs IH]; intros others; cbn.
  - rewrite app_nil_r. reflexivity.
  - rewrite IH, <- app_assoc. reflexivity.
Qed.

(** [_get] with allowed types, as one test on what the loop gives. *)
Lemma _get_checked (key : string) (allowed : list AllowedType) (default : PyVal)
    (kwargs : Kwargs) :
  let value := match kwargs !! key with Some v => v | None => default end in
  _get key (Some allowed) default kwargs =
    match check_allowed_types value allowed [] with
    | Ret (inl v) => mkRun (Ret v) (delete key kwargs) []
    | Ret (inr others) =>
        if (0 <? length others)%nat && negb (existsb (isinstance value) others)
        then mkRun (Raise (AssertionError
                             ("Theme." ++ key ++ " type is not one of the allowed types")))
                   (delete key kwargs) []
        else mkRun (Ret value) (delete key kwargs) []
    | Raise e => mkRun (Raise e) (delete key kwargs) []
    end.
Proof.
  cbv zeta. unfold themes._get. msimpl.
  destruct (check_allowed_types _ allowed []) as [[v | others] | e]; cbn;
    [reflexivity | | reflexivity].
  destruct others as [| c others]; cbn; [reflexivity |].
  destruct (isinstance _ c || existsb _ others); reflexivity.
Qed.

Lemma _get_run (key : string) (allowed : option (list AllowedType)) (default : PyVal)
    (kwargs : Kwargs) :
  let r := _get key allowed default kwargs in
  let value := match kwargs !! key with Some v => v | None => default end in
  trace r = [] /\ final r = delete key kwargs /\
  (forall v, outcome r = Ret v -> v = value).
Proof.
  cbv zeta. destruct allowed as [allowed |].
  - rewrite _get_checked. cbv zeta.
    destruct (check_allowed_types _ allowed []) as [[v | others] | e] eqn:E.
    + apply check_allowed_types_inl in E. subst. repeat split. cbn. congruence.
    + destruct (_ && _); repeat split; cbn; congruence.
    + repeat split. discriminate.
  - repeat split. cbn. congruence.
Qed.

(** The lines of a list with no keyword and no attribute twice. *)
Lemma init_attributes_run (l : list Attribute) :
  NoDup (map keyword l) -> NoDup (map attribute l) ->
  forall (self : Theme) (kwargs : Kwargs) (t : Theme),
    outcome (init_attributes l self kwargs) = Ret t ->
    (forall a, In a l -> t !! attribute a = Some (supplied kwargs a)) /\
    (forall n, ~ In n (map attribute l) -> t !! n = self !! n) /\
    (forall k, In k (map keyword l) ->
       final (init_attributes l self kwargs) !! k = None) /\
    (forall k, ~ In k (map keyword l) ->
       final (init_attributes l self kwargs) !! k = kwargs !! k).
Proof.
  induction l as [| a l IH]; intros Nk Na self kwargs t.
  - cbn. intros H. injection H as <-. repeat split; intros; tauto.
  - cbn [themes.init_attributes map]. unfold bind at 1 2 3.
    destruct (_get_run (keyword a) (Some (types a)) (default a) kwargs)
      as (_ & F & V). cbn zeta in F, V.
    destruct (_get (keyword a) (Some (types a)) (default a) kwargs)
      as [[v | e] kw1 t1]; cbn in F, V |- *; [| discriminate].
    subst kw1. specialize (V v eq_refl).
    inversion Nk as [| ? ? Nk1 Nk2]; subst. inversion Na as [| ? ? Na1 Na2]; subst.
    rewrite list_elem_of_In in Nk1, Na1.
    specialize (IH Nk2 Na2 (<[attribute a := match kwargs !! keyword a with
                                              | Some v => v
                                              | None => default a
                                              end]> self)
                  (delete (keyword a) kwargs) t).
    destruct (init_attributes l _ (delete (keyword a) kwargs)) as [o kw2 t2];
      cbn in IH |- *.
    intros H. destruct (IH H) as (I1 & I2 & I3 & I4). split; [| split; [| split]].
    + intros b [<- | Hb].
      * rewrite I2 by exact Na1. rewrite lookup_insert_eq. reflexivity.
      * rewrite (I1 b Hb). unfold supplied. rewrite lookup_delete_ne; [reflexivity |].
        intros E. apply Nk1. rewrite E. apply in_map, Hb.
    + intros n Hn. rewrite I2 by tauto. apply lookup_insert_ne. tauto.
    + intros k [<- | Hk].
      * destruct (in_dec string_dec (keyword a) (map keyword l)) as [I | I].
        -- apply I3, I.
        -- rewrite (I4 _ I). apply lookup_delete_eq.
      * apply I3, Hk.
    + intros k Hk. rewrite I4 by tauto. apply lookup_delete_ne. tauto.
Qed.

Lemma attributes_NoDup (margin : PyVal) :
  NoDup (map keyword (menu_attributes ext ++ widget_attributes ext margin)) /\
  NoDup (map attribute (menu_attributes ext ++ widget_attributes ext margin)).
Proof.
  split; apply (bool_decide_unpack _); vm_compute; reflexivity.
Qed.

Lemma menu_attributes_NoDup :
  NoDup (map keyword (menu_attributes ext)) /\
  NoDup (map attribute (menu_attributes ext)).
Proof.
  split; apply (bool_decide_unpack _); vm_compute; reflexivity.
Qed.

Lemma widget_attributes_NoDup (margin : PyVal) :
  NoDup (map keyword (widget_attributes ext margin)) /\
  NoDup (map attribute (widget_attributes ext margin)).
Proof.
  split; apply (bool_decide_unpack _); vm_compute; reflexivity.
Qed.

Lemma init_attributes_app (l1 l2 : list Attribute) (self : Theme) (kwargs : Kwargs) :
  init_attributes (l1 ++ l2) self kwargs =
    (let* s := init_attributes l1 self in init_attributes l2 s) kwargs.
Proof.
  revert self kwargs. induction l1 as [| a l1 IH]; intros self kwargs.
  - cbn. unfold bind. cbn. destruct (init_attributes l2 self kwargs). reflexivity.
  - cbn [themes.init_attributes app]. unfold bind.
    destruct (_get (keyword a) (Some (types a)) (default a) kwargs) as [[v | e] kw1 t1];
      [| reflexivity].
    rewrite IH. unfold bind.
    destruct (init_attributes l1 _ kw1) as [[s | e] kw2 t2]; [| reflexivity].
    destruct (init_attributes l2 s kw2) as [o kw3 t3]. rewrite app_assoc. reflexivity.
Qed.

(** The lines of [Theme.__init__] are those of one list. *)
Lemma theme_init_lines (kwargs : Kwargs) (t : Theme) :
  outcome (theme_init kwargs) = Ret t ->
  exists (self : Theme) (margin : PyVal),
    let lines := (menu_attributes ext ++ widget_attributes ext margin)%list in
    outcome (init_attributes lines ∅ kwargs) = Ret self /\
    final (init_attributes lines ∅ kwargs) = ∅ /\
    (exists e, self !! "widget_selection_effect" = Some e /\ margin = get_xy_margin e) /\
    t = <["_disable_validation" := VBool false]> self.
Proof.
  intros H.
  assert (X : exists s1 kw1 t1 s2 t2,
            init_attributes (menu_attributes ext) ∅ kwargs = mkRun (Ret s1) kw1 t1 /\
            init_attributes
              (widget_attributes ext
                 match s1 !! "widget_selection_effect" with
                 | Some e => get_xy_margin e
                 | None => VNone
                 end) s1 kw1 = mkRun (Ret s2) ∅ t2 /\
            t = <["_disable_validation" := VBool false]> s2).
  { revert H. unfold themes.__init__. unfold bind at 1.
    destruct (init_attributes (menu_attributes ext) ∅ kwargs) as [[s1 | e1] kw1 t1];
      [| discriminate].
    cbv zeta. unfold bind at 1.
    destruct (init_attributes _ s1 kw1) as [[s2 | e2] kw2 t2] eqn:E2; [| discriminate].
    unfold bind, get, ret, raise. cbv beta iota.
    destruct (map_to_list kw2) as [| [k v] rest] eqn:El; cbv beta iota;
      [| discriminate].
    intros H. injection H as <-.
    apply map_to_list_empty_iff in El. subst kw2.
    exists s1, kw1, t1, s2, t2. split; [reflexivity |]. split; [exact E2 | reflexivity]. }
  destruct X as (s1 & kw1 & t1 & s2 & t2 & E1 & E2 & ->).
  set (margin := match s1 !! "widget_selection_effect" with
                 | Some e => get_xy_margin e
                 | None => VNone
                 end) in *.
  assert (S1 : exists e, s1 !! "widget_selection_effect" = Some e).
  { destruct menu_attributes_NoDup as [Nk Na].
    destruct (init_attributes_run (menu_attributes ext) Nk Na ∅ kwargs s1) as (I1 & _).
    - rewrite E1. reflexivity.
    - eexists. apply (I1 (class_attr "widget_selection_effect" ClsSelection
                                     (HighlightSelection ext))).
      cbn. tauto. }
  destruct S1 as [e Se].
  assert (A := init_attributes_app (menu_attributes ext) (widget_attributes ext margin)
                 ∅ kwargs).
  unfold bind in A. rewrite E1, E2 in A.
  exists s2, margin. cbv zeta. rewrite A. cbn [outcome final].
  split; [reflexivity |]. split; [reflexivity |]. split; [| reflexivity].
  exists e. split; [| unfold margin; rewrite Se; reflexivity].
  destruct (widget_attributes_NoDup margin) as [Nk Na].
  destruct (init_attributes_run (widget_attributes ext margin) Nk Na s1 kw1 s2)
    as (_ & I2 & _).
  - rewrite E2. reflexivity.
  - rewrite I2; [exact Se |]. vm_compute. intuition discriminate.
Qed.

(** X13: a theme [Theme.__init__] returns holds, for each of its lines,
    the keyword argument of the line when one was given and its default
    when none was, where the default of [widget_border_inflate] is the
    margin of the selection effect of the theme; validation is enabled.
    Every keyword argument that was given is the keyword of a line: with
    any other, the constructor raises. The keywords are the names of the
    attributes but for two: [title_close_button] is set from
    [menubar_close_button] and [widget_background_inflate] from
    [background_inflate], so that a theme constructed was given neither
    [title_close_button] nor [widget_background_inflate]. *)
Theorem theme_init_stores (kwargs : Kwargs) (t : Theme) :
  outcome (theme_init kwargs) = Ret t ->
  exists margin,
    (exists e, t !! "widget_selection_effect" = Some e /\ margin = get_xy_margin e) /\
    let lines := (menu_attributes ext ++ widget_attributes ext margin)%list in
    (forall a, In a lines -> t !! attribute a = Some (supplied kwargs a)) /\
    t !! "_disable_validation" = Some (VBool false) /\
    (forall k, kwargs !! k <> None -> In k (map keyword lines)) /\
    (forall a, In a lines ->
       keyword a = attribute a \/
       (attribute a = "title_close_button" /\ keyword a = "menubar_close_button") \/
       (attribute a = "widget_background_inflate" /\ keyword a = "background_inflate")) /\
    kwargs !! "title_close_button" = None /\
    kwargs !! "widget_background_inflate" = None.
Proof.
  intros H. destruct (theme_init_lines kwargs t H) as (self & margin & R & F & (e & Se & Me) & ->).
  cbv zeta in R, F. exists margin. cbv zeta.
  destruct (attributes_NoDup margin) as [Nk Na].
  destruct (init_attributes_run _ Nk Na ∅ kwargs self R) as (I1 & _ & _ & I4).
  rewrite F in I4.
  assert (K : forall k, kwargs !! k <> None ->
              In k (map keyword (menu_attributes ext ++ widget_attributes ext margin))).
  { intros k Hk.
    destruct (in_dec string_dec k
                (map keyword (menu_attributes ext ++ widget_attributes ext margin)))
      as [I | I]; [exact I |].
    exfalso. apply Hk. rewrite <- (I4 k I). apply lookup_empty. }
  assert (D : forall a, In a (menu_attributes ext ++ widget_attributes ext margin) ->
              attribute a <> "_disable_validation").
  { intros a Ia E.
    assert (I : In "_disable_validation"
                  (map attribute (menu_attributes ext ++ widget_attributes ext margin))).
    { rewrite <- E. apply in_map, Ia. }
    revert I. vm_compute. intuition discriminate. }
  split; [| split; [| split; [| split; [| split; [| split]]]]].
  - exists e. split; [| exact Me].
    rewrite lookup_insert_ne by discriminate. exact Se.
  - intros a Ia. rewrite lookup_insert_ne by (apply not_eq_sym, D, Ia). apply I1, Ia.
  - apply lookup_insert_eq.
  - exact K.
  - intros a Ia. cbn in Ia.
    repeat (destruct Ia as [<- | Ia]; [cbn; tauto |]). contradiction.
  - destruct (kwargs !! "title_close_button") eqn:E; [| reflexivity].
    exfalso. assert (I := K "title_close_button"). rewrite E in I.
    specialize (I ltac:(discriminate)). revert I. vm_compute. intuition discriminate.
  - destruct (kwargs !! "widget_background_inflate") eqn:E; [| reflexivity].
    exfalso. assert (I := K "widget_background_inflate"). rewrite E in I.
    specialize (I ltac:(discriminate)). revert I. vm_compute. intuition discriminate.
Qed.


(** The defaults of the lines are the attributes of [THEME_DEFAULT]. *)
Lemma theme_defaults_of_lines :
  theme_defaults ext =
    (map (fun a => (attribute a, default a))
         (menu_attributes ext ++ widget_attributes ext (highlight_xy_margin ext))
     ++ [("_disable_validation", VBool false)])%list.
Proof. reflexivity. Qed.

End Theme_init.

(** ** Shadow: a call that is accepted *)

(** The direction [set_shadow] reads off a position has both components
    among -1, 0 and 1. *)
Lemma shadow_direction_unit (ext : Externals) (pos : string) :
  let d :=
    if String.eqb pos (POSITION_NORTHWEST ext) then (-1, -1)
    else if String.eqb pos (POSITION_NORTH ext) then (0, -1)
    else if String.eqb pos (POSITION_NORTHEAST ext) then (1, -1)
    else if String.eqb pos (POSITION_EAST ext) then (1, 0)
    else if String.eqb pos (POSITION_SOUTHEAST ext) then (1, 1)
    else if String.eqb pos (POSITION_SOUTH ext) then (0, 1)
    else if String.eqb pos (POSITION_SOUTHWEST ext) then (-1, 1)
    else if String.eqb pos (POSITION_WEST ext) then (-1, 0)
    else (0, 0) in
  In (fst d) [-1; 0; 1] /\ In (snd d) [-1; 0; 1].
Proof.
  cbv zeta.
  repeat match goal with
         | |- context [if ?c then _ else _] => destruct c
         end; cbn; tauto.
Qed.

(** [int] of a number between 0 and 1 is 0. *)
Lemma py_int_fraction (q : Q) :
  Qlt_bool 0 q = true -> Qlt_bool q 1 = true -> py_int q = 0.
Proof.
  unfold Qlt_bool, Qle_bool, py_int. destruct q as [n d]. cbn.
  rewrite !negb_true_iff, !Z.leb_gt, !Z.mul_1_r. intros H1 H2.
  apply Z.quot_small. lia.
Qed.

Ltac shadow_direction :=
  match goal with
  | |- context [let '(x, y) := ?d in _] =>
      lazymatch d with
      | (if String.eqb ?p (POSITION_NORTHWEST ?e) then _ else _) =>
          let H := fresh "Hd" in
          let x := fresh "x" in
          let y := fresh "y" in
          assert (H := shadow_direction_unit e p); cbv zeta in H;
          revert H; generalize d; intros [x y] H; cbn [fst snd] in H
      end
  end.


(** ** What [apply] returns *)


(** ** Button.update without a Menu *)

Lemma _render_keeps_detached (cls : WidgetClass) (w : Widget) :
  _menu w = None ->
  let w1 := final (_render cls w) in
  _menu w1 = None /\ readonly w1 = readonly w /\ _on_return w1 = _on_return w /\
  _touchscreen_enabled w1 = _touchscreen_enabled w.
Proof.
  intros H. cbn zeta. split_state. subst. mrun; repeat split.
Qed.

(** One pass of the loop on a Button that has no Menu, for an event that
    is not a touch the Button listens to. *)
Lemma update_event_run_detached (ext : Externals) (render : Widget -> RenderOut)
    (w : Widget) (rect : Rect) (event : Event) (updated : bool) :
  readonly w = false ->
  _menu w = None ->
  _touchscreen_enabled w && is_FINGERUP event = false ->
  update_event ext render rect event updated w =
    mkRun (Ret (updated || fires ext w rect event)) w (event_effects ext w rect event).
Proof.
  intros R Hm Ht. destruct (apply_button ext render w R) as [v Ha].
  unfold update_event, event_effects, fires, get_menu.
  Opaque apply.
  destruct event as [key | b | pos | x y | ty]; msimpl; rewrite ?Hm; msimpl;
    destruct (_joystick_enabled w), (_mouse_enabled w), (_touchscreen_enabled w);
    try discriminate Ht;
    msimpl; rewrite ?Hm, ?orb_false_r; msimpl;
    repeat match goal with
           | |- context [if ?c then _ else _] => destruct c; msimpl
           end;
    rewrite ?Ha, ?orb_true_r, ?orb_false_r; cbn; rewrite ?app_nil_r; reflexivity.
  Transparent apply.
Qed.

Lemma update_events_run_detached (ext : Externals) (render : Widget -> RenderOut)
    (w : Widget) (rect : Rect) (events : list Event) (updated : bool) :
  readonly w = false ->
  _menu w = None ->
  _touchscreen_enabled w && existsb is_FINGERUP events = false ->
  update_events ext render rect events updated w =
    mkRun (Ret (updated || existsb (fires ext w rect) events)) w
          (flat_map (event_effects ext w rect) events).
Proof.
  intros R Hm. revert updated.
  induction events as [| e events IH]; intros updated Ht; cbn.
  - rewrite orb_false_r. reflexivity.
  - cbn in Ht. rewrite andb_orb_distrib_r in Ht. apply orb_false_elim in Ht.
    destruct Ht as [Ht1 Ht2].
    rewrite (bind_run _ _ _ _ _ _
               (update_event_run_detached ext render w rect e updated R Hm Ht1)).
    rewrite (IH _ Ht2). cbn. rewrite orb_assoc. reflexivity.
Qed.

(** [update] on a Button that has no Menu and gets no touch event it
    listens to. *)
Lemma update_run_detached (ext : Externals) (render : Widget -> RenderOut)
    (w : Widget) (events : list Event) :
  readonly w = false -> _menu w = None ->
  _touchscreen_enabled w && existsb is_FINGERUP events = false ->
  let w1 := final (_render (Button_class render) w) in
  let rect := padded_rect w1 in
  update ext render events w =
    mkRun (Ret (existsb (fires ext w1 rect) events)) w1
      (flat_map (event_effects ext w1 rect) events ++
       if existsb (fires ext w1 rect) events then update_effects w1 else [])%list.
Proof.
  intros R Hm Ht. cbn zeta.
  destruct (_render_keeps_detached (Button_class render) w Hm) as (M1 & R1 & _ & T1).
  cbn zeta in *.
  set (w1 := final (_render (Button_class render) w)) in *.
  unfold update. unfold bind at 1. cbn. rewrite R.
  rewrite (bind_run _ _ _ _ _ _ (get_rect_default (Button_class render) w)).
  fold w1.
  assert (R' : readonly w1 = false) by congruence.
  assert (Ht' : _touchscreen_enabled w1 && existsb is_FINGERUP events = false)
    by (rewrite T1; exact Ht).
  rewrite (bind_run _ _ _ _ _ _
             (update_events_run_detached ext render w1 (padded_rect w1) events false
                R' M1 Ht')).
  cbn [orb].
  destruct (existsb (fires ext w1 (padded_rect w1)) events).
  - rewrite (bind_run _ _ _ _ _ _ (apply_update_callbacks_run w1 R')).
    cbn. rewrite app_nil_r. reflexivity.
  - cbn. rewrite app_nil_r. reflexivity.
Qed.


(** ** Visibility *)

(** One [show] or [hide]. *)
Lemma visibility_run (cls : WidgetClass) (w : Widget) (visible : bool) :
  let r := (if visible then show cls else hide cls) w in
  outcome r = Ret tt /\ _visible (final r) = visible /\
  trace r = match _menu w with
            | Some m => [Menu_update_selection_if_hidden (menu_id m)]
            | None => []
            end /\
  _selected (final r) = _selected w /\ _col_row_index (final r) = _col_row_index w /\
  _id (final r) = _id w /\
  match _menu w, _menu (final r) with
  | Some m, Some m' => menu_id m' = menu_id m
  | None, None => True
  | _, _ => False
  end.
Proof.
  cbn zeta. destruct visible; unfold hide, show; mrun; repeat split.
Qed.


(** ** A new Button *)


(** ** The selection callback *)

(** X25: the callback [set_selection_callback] stores is the one [select]
    calls, with the status, the widget and its Menu, after the focus or the
    blur; with [None] stored, [select] calls no callback. *)
Theorem selection_callback_is_called (cls : WidgetClass) (w : Widget)
    (callback : option Callback) (now : Q) (status : bool) :
  is_selectable w = true ->
  let w1 := final (set_selection_callback callback w) in
  let r := select cls now status false w1 in
  outcome (set_selection_callback callback w) = Ret tt /\
  _selected (final r) = status /\
  trace r =
    ((if status then Focus else Blur) ::
     match callback with
     | Some f => [Call OnSelect f [VBool status; VWidget (_id w); menu_ref (_menu w)] []]
     | None => []
     end).
Proof.
  intros Hs. cbn zeta. split; [reflexivity |].
  assert (Hs1 : is_selectable (final (set_selection_callback callback w)) = true)
    by (destruct w; exact Hs).
  destruct (select_selectable cls _ now status false Hs1) as (T & S & _).
  cbn zeta in T, S. split; [exact S |]. rewrite T. unfold select_trace.
  destruct w; cbn. rewrite app_nil_r. reflexivity.
Qed.

(** * The methods on concrete widgets *)

Import examples.

(** C1 at a tuple that hashes to zero, with a draw of zero. *)
Lemma _hash_variables_zero_draw_example :
  randrange_100000 0 = true /\
  _hash_variables ext0 0 [VBool false; VStr ""; VBool true; VBool false] = 0 /\
  outcome (_render_hash_changed ext0 0
             [VBool false; VStr ""; VBool true; VBool false] btn0) = Ret true /\
  _last_render_hash
    (final (_render_hash_changed ext0 0
              [VBool false; VStr ""; VBool true; VBool false] btn0)) = 0.
Proof.
  apply (_hash_variables_zero_draw ext0
           [VBool false; VStr ""; VBool true; VBool false] btn0).
  reflexivity.
Defined.



(** C3 on a Button (no value) and on a widget whose value is 42. *)
Lemma apply_change_callback_contract_example :
  trace (apply ext0 cls0 [VStr "a"] btn0) =
    [Call OnReturn "on_play" [VStr "a"; VInt 1] []] /\
  trace (apply ext0 cls_value [VStr "a"] btn0) =
    [Call OnReturn "on_play" [VInt 42; VStr "a"; VInt 1] []] /\
  apply ext0 cls0 [VStr "a"] (upd_readonly true btn0) =
    mkRun (Ret VNone) (upd_readonly true btn0) [].
Proof.
  destruct (apply_change_callback_contract ext0 cls0 btn0 [VStr "a"])
    as (_ & V & H).
  destruct (H eq_refl "on_play") as [[_ H1] _]; [reflexivity |].
  destruct (apply_change_callback_contract ext0 cls_value btn0 [VStr "a"])
    as (_ & _ & H').
  destruct (H' eq_refl "on_play") as [[H2 _] _]; [reflexivity |].
  destruct (apply_change_callback_contract ext0 cls0 (upd_readonly true btn0) [VStr "a"])
    as (R & _).
  destruct (R eq_refl) as [R1 _].
  split; [| split].
  - exact (H1 _ (V eq_refl)).
  - exact (H2 (VInt 42) eq_refl).
  - exact R1.
Defined.





(** C6 at a scaled widget: [set_max_width(100)] turns the scale off and
    gives no warning. *)
Theorem scale_then_set_max_width_silent :
  let w := final (scale cls0 2 2 true btn0) in
  let r := set_max_width cls0 (Some 100%Q) false true w in
  scale_active w = true /\
  outcome r = Ret tt /\ trace r = [] /\
  scale_active (final r) = false /\
  _max_width (final r) = (Some 100%Q, false, true).
Proof.
  cbv zeta. repeat split; vm_compute; reflexivity.
Qed.

Lemma transforms_exclusive_example :
  let calls := [CallScale 2 2 true; CallSetMaxWidth (Some 100%Q) false true;
                CallSetMaxHeight (Some 0%Q) false true; CallScale 3 1 false] in
  (active_transforms (fst (call_transforms cls0 calls btn0)) <= 1)%nat /\
  snd (call_transforms cls0 calls btn0) = [].
Proof.
  cbv zeta. apply (transforms_exclusive cls0). vm_compute. lia.
Defined.

(** C7 on a widget that is not selectable, and on a selected widget with a
    pending event. *)
Lemma select_gate_and_unselect_example :
  let w := upd_is_selectable false btn_cb in
  final (select cls0 1 true false w) = w /\
  trace (select cls0 1 true false w) = [] /\
  let w' := final (_add_event (KEYDOWN 13) (final (select cls0 1 true false btn_cb))) in
  _events w' = [KEYDOWN 13] /\
  _events (final (select cls0 2 false false w')) = [].
Proof.
  cbv zeta.
  destruct (select_gate_and_unselect cls0 (upd_is_selectable false btn_cb) 1 true false)
    as [H _].
  destruct (H eq_refl) as (_ & F & T).
  destruct (select_gate_and_unselect cls0
              (final (_add_event (KEYDOWN 13) (final (select cls0 1 true false btn_cb))))
              2 false false) as [_ H'].
  destruct (H' eq_refl) as (_ & E).
  split; [exact F | split; [exact T | split; [reflexivity | exact E]]].
Defined.


(** A hidden widget that keeps a sequence index, as the Menu leaves it. *)
Lemma hidden_widget_keeps_index :
  let w := final (set_col_row_index (-1) (-1) 0 (final (hide cls0 btn_menu))) in
  is_visible w = false /\ get_col_row_index w = (-1, -1, 0).
Proof.
  cbv zeta. repeat split.
Qed.


(** C9 on a widget selected at 5 and unselected at 8, asked at 9. *)
Lemma get_selected_time_not_selected_example :
  get_selected_time 9
    (final (select cls0 8 false false (final (select cls0 5 true false btn0)))) = 0%Q.
Proof.
  destruct (get_selected_time_not_selected cls0 btn0 9 5 8 false false) as [_ H].
  destruct (H eq_refl) as (_ & _ & _ & _ & Z). exact Z.
Defined.


(** * Further runs on concrete widgets and themes *)

Lemma _render_hash_changed_caches_example :
  let r1 := _render_hash_changed ext0 5 [VBool true] btn0 in
  _last_render_hash (final r1) = 2 /\
  _render_hash_changed ext0 9 [VBool true] (final r1) = mkRun (Ret false) (final r1) [] /\
  outcome (_render_hash_changed ext0 9 [VBool true; VBool true] (final r1)) = Ret true.
Proof.
  cbv zeta.
  destruct (_render_hash_changed_caches ext0 5 9 [VBool true] [VBool true; VBool true]
              btn0) as (A & B & C); [discriminate |].
  destruct C as [C _]; [discriminate | discriminate |].
  split; [exact A | split; [exact B | exact C]].
Defined.

Lemma select_update_menu_detached_example :
  let r := select cls0 1 true true btn_cb in
  outcome r = Raise (AssertionError "") /\
  _selected (final r) = true /\
  trace r = [Focus; Call OnSelect "on_select" [VBool true; VWidget "play"; VNone] []].
Proof.
  cbv zeta. exact (select_update_menu_detached cls0 btn_cb 1 true eq_refl eq_refl).
Defined.

Lemma rejected_transform_resets_example :
  let w := final (scale cls0 2 2 true btn0) in
  let r := set_max_width cls0 (Some (-1)%Q) false true w in
  scale cls0 0 2 true w =
    mkRun (Raise (AssertionError "width and height must be greater than zero")) w [] /\
  outcome r = Raise (AssertionError "width must be equal or greater than zero") /\
  active_transforms (final r) = 0%nat.
Proof.
  cbv zeta.
  destruct (rejected_transform_resets cls0 (final (scale cls0 2 2 true btn0)) 0 2 false
              true) as (A & _).
  destruct (rejected_transform_resets cls0 (final (scale cls0 2 2 true btn0)) (-1) 2
              false true) as (_ & B & _).
  destruct (B eq_refl) as (B1 & _ & B3).
  split; [exact (A eq_refl) | split; [exact B1 | exact B3]].
Defined.

(** A 100 x 40 widget at (0, 0), inflated by (5, 3): [int] rounds the
    corner toward zero. *)
Lemma get_rect_inflated_case :
  outcome (get_rect cls0 (Some (5, 3)) true true btn0) = Ret (mkRect (-2) (-1) 105 43).
Proof. vm_compute. reflexivity. Qed.

Lemma apply_propagates_other_errors_example :
  apply ext0 cls_broken [] btn0 = mkRun (Raise (TypeError "bad value")) btn0 [].
Proof.
  destruct (apply_propagates_other_errors ext0 cls_broken btn0 []
              (fun _ => Raise (TypeError "bad value")) (TypeError "bad value")
              eq_refl eq_refl eq_refl) as [A _].
  - intros msg. discriminate.
  - apply A. discriminate.
Defined.


Lemma update_callback_round_trip_example :
  let r := add_update_callback "id" "on_update" btn0 in
  trace (apply_update_callbacks (final r)) =
    [Call OnUpdate "on_update" [VWidget "play"; VNone] []] /\
  remove_update_callback "id" (final r) = mkRun (Ret tt) btn0 [] /\
  outcome (remove_update_callback "id" btn0) =
    Raise (IndexError ("callback ID " ++ dquote ++ "id" ++ dquote ++ " does not exist")).
Proof.
  cbv zeta.
  destruct (update_callback_round_trip btn0 "id" "on_update" eq_refl)
    as (_ & _ & A & B & _).
  split; [exact (A eq_refl) | split; [exact B | reflexivity]].
Defined.

(** Two pending events merged after a key-down. *)
Lemma _merge_events_appends_and_clears_example :
  let w := final (_add_event (KEYDOWN 2) (final (_add_event (KEYDOWN 1) btn0))) in
  let r := _merge_events [KEYDOWN 0] w in
  outcome r = Ret [KEYDOWN 0; KEYDOWN 1; KEYDOWN 2] /\
  _events (final r) = [] /\
  outcome (_merge_events [KEYDOWN 0] (final r)) = Ret [KEYDOWN 0].
Proof.
  cbv zeta.
  destruct (_merge_events_appends_and_clears
              (final (_add_event (KEYDOWN 2) (final (_add_event (KEYDOWN 1) btn0))))
              [KEYDOWN 0] (KEYDOWN 3)) as (A & B & C & _).
  split; [rewrite A; reflexivity | split; [exact B |]].
  rewrite (C [KEYDOWN 0]). reflexivity.
Defined.

Lemma attribute_round_trip_example :
  let a := final (set_attribute "t" (VInt 0) ∅) in
  outcome (get_attribute "t" VNone a) = Ret (VInt 0) /\
  outcome (get_attribute "u" (VInt 7) a) = Ret (VInt 7) /\
  final (remove_attribute "t" a) = ∅ /\
  outcome (remove_attribute "t" ∅) =
    Raise (IndexError ("attribute " ++ dquote ++ "t" ++ dquote
                       ++ " does not exists on widget")).
Proof.
  cbv zeta.
  destruct (attribute_round_trip ∅ "t" (VInt 0) VNone) as (_ & A & _ & B & _).
  destruct (attribute_round_trip ∅ "t" (VInt 0) (VInt 7)) as (_ & _ & C & _).
  destruct (B eq_refl) as (_ & _ & B3).
  split; [rewrite A; reflexivity | split; [| split; [exact B3 | reflexivity]]].
  rewrite (C "u"); [reflexivity | discriminate].
Defined.

(** The cases of [test_vec_to_tuple] and of [test_format_opacity]. *)
Lemma _vec_to_tuple_cases :
  _vec_to_tuple (VTuple [VInt 1; VInt 2; VInt 3]) 0 = Ret (VTuple [VInt 1; VInt 2; VInt 3]) /\
  _vec_to_tuple (VList [VInt 1; VInt 2; VInt 3]) 0 = Ret (VTuple [VInt 1; VInt 2; VInt 3]) /\
  (exists msg, _vec_to_tuple (VInt 1) 0 = Raise (ValueError msg)) /\
  (exists msg, _vec_to_tuple (VTuple [VInt 1; VInt 2; VInt 3]) 4 = Raise (ValueError msg)).
Proof.
  repeat split; eexists; reflexivity.
Qed.

Lemma _format_opacity_cases :
  _format_opacity ext0 (VTuple [VInt 1; VInt 2; VInt 3])
    = Ret (VTuple [VInt 1; VInt 2; VInt 3; VInt 255]) /\
  _format_opacity ext0 (VList [VInt 1; VInt 2; VInt 3])
    = Ret (VTuple [VInt 1; VInt 2; VInt 3; VInt 255]) /\
  _format_opacity ext0 (VList [VInt 1; VInt 2; VInt 3; VInt 25])
    = Ret (VTuple [VInt 1; VInt 2; VInt 3; VInt 25]) /\
  _format_opacity ext0 (VImage 0) = Ret (VImage 0) /\
  _format_opacity ext0 VNone = Ret VNone /\
  (exists msg, _format_opacity ext0 (VList [VInt 1; VInt 2]) = Raise (AssertionError msg)) /\
  (exists msg, _format_opacity ext0 (VStr "1,2,3") = Raise (ValueError msg)).
Proof.
  repeat split; eexists; reflexivity.
Qed.

Lemma color_ok_3_or_4 : colors_have_3_or_4 color_ok.
Proof.
  intros c H. destruct c; try discriminate H; cbn in H;
    apply andb_true_iff in H; destruct H as [H _];
    apply orb_true_iff in H; destruct H as [H | H]; apply Nat.eqb_eq in H; tauto.
Qed.

(** [validate] on the default theme with a list as background color. *)
Lemma validate_normalises_example :
  let t := final (validate ext0 theme_list_color) in
  t !! "background_color" = Some (VTuple [VInt 1; VInt 2; VInt 3; VInt 255]) /\
  attr_is "background_color" is_rgba t /\
  attr_is "widget_margin" is_pair t /\
  attr_is "widget_font_size" is_positive t.
Proof.
  cbv zeta.
  destruct (validate_normalises ext0 theme_list_color (VBool false) color_ok_3_or_4)
    as (A & B & C); try reflexivity.
  split; [reflexivity |]. split; [| split].
  - apply A. cbn. tauto.
  - apply B. cbn. tauto.
  - apply C. cbn. tauto.
Defined.

Lemma Ret_of_test {A} (o : Outcome A) :
  match o with Ret _ => true | Raise _ => false end = true -> exists a, o = Ret a.
Proof. destruct o as [a | e]; [eauto | discriminate]. Qed.

(** [Theme(fps=60, menubar_close_button=False)] and
    [Theme(title_close_button=False)]. *)
Lemma theme_init_stores_example :
  (exists t, outcome (theme_init0 kwargs0) = Ret t /\
             t !! "fps" = Some (VInt 60) /\
             t !! "title_close_button" = Some (VBool false) /\
             t !! "widget_font_size" = Some (VInt 30)) /\
  outcome (theme_init0 (<["title_close_button" := VBool false]> ∅)) =
    Raise (ValueError "parameter Theme.title_close_button does not exist").
Proof.
  split; [| vm_compute; reflexivity].
  destruct (Ret_of_test (outcome (theme_init0 kwargs0))) as [t E];
    [vm_compute; reflexivity |].
  exists t. split; [exact E |].
  destruct (theme_init_stores ext0 (fun _ => false) (fun _ => false) vector_ok
              (fun _ => VTuple [VInt 0; VInt 0]) kwargs0 t E)
    as (margin & _ & S & _).
  assert (S1 := S (number_attr "fps" (VInt 30)) ltac:(cbn; tauto)).
  assert (S2 := S (mkAttribute "title_close_button" "menubar_close_button"
                               [TClass ClsBool] (VBool true)) ltac:(cbn; tauto)).
  assert (S3 := S (class_attr "widget_font_size" ClsInt (VInt 30)) ltac:(cbn; tauto)).
  vm_compute in S1, S2, S3. vm_compute.
  split; [exact S1 | split; [exact S2 | exact S3]].
Defined.





Lemma update_finger_without_menu_example :
  exists msg, outcome (update ext0 render0 [FINGERUP 0 0] btn0) = Raise (AttributeError msg).
Proof.
  exact (update_finger_without_menu ext0 render0 btn0 0 0 eq_refl eq_refl eq_refl).
Defined.


(** [scale(1, 1)] on a widget with a maximum width. *)
Lemma scale_sets_example :
  let w := final (set_max_width cls0 (Some 100%Q) false true btn0) in
  let r := scale cls0 1 1 true w in
  max_width_active w = true /\
  scale_active (final r) = false /\ max_width_active (final r) = false.
Proof.
  cbv zeta.
  destruct (scale_sets cls0 (final (set_max_width cls0 (Some 100%Q) false true btn0))
              1 1 true eq_refl) as (_ & _ & S & M & _).
  split; [reflexivity | split; [| exact M]].
  unfold scale_active. rewrite S. reflexivity.
Defined.

Lemma set_max_width_sets_example :
  let w := final (scale cls0 2 2 true btn0) in
  let r := set_max_width cls0 (Some 0%Q) true false w in
  _max_width (final r) = (Some 0%Q, true, false) /\ scale_active (final r) = false.
Proof.
  cbv zeta.
  destruct (set_max_width_sets cls0 (final (scale cls0 2 2 true btn0)) 0 true false
              eq_refl) as (_ & _ & A & B & _).
  split; [exact A | exact B].
Defined.

(** A selectable Button without a Menu that is given a selection callback
    and selected. *)
Lemma selection_callback_is_called_example :
  is_selectable btn0 = true /\
  let r := select cls0 1 true false
             (final (set_selection_callback (Some "on_select") btn0)) in
  _selected (final r) = true /\
  trace r = [Focus; Call OnSelect "on_select" [VBool true; VWidget (_id btn0); VNone] []].
Proof.
  split; [reflexivity |]. cbv zeta.
  destruct (selection_callback_is_called cls0 btn0 (Some "on_select") 1 true eq_refl)
    as (_ & S & T).
  split; [exact S | exact T].
Defined.
